(** * Sweet shop: the inventory edge function (purchase and restock)

    A shallow embedding of the [inventory] edge function: the HTTP handler
    that serves [/purchase] and [/restock] on top of the tables [sweets],
    [purchases] and [user_profiles] of the schema migration.

    - The handler is an [async] function: between two [await]s it runs
      alone, and each [await] is one call to the store.  It is embedded as
      a tree of store calls ([Prog]); running one tree to its end gives the
      behaviour of a single request, stepping several trees in turn gives
      the interleavings of concurrent requests.
    - The store is a record of finite maps and lists; every call is logged,
      and a call may be refused by the store (an outage), which is how
      [updateError] and [purchaseError] arise beside the schema checks.
    - The numbers of the handler are JavaScript numbers: IEEE 754 binary64,
      rounding to nearest, ties to even.  [req.json()] reads the number
      written in the body as the nearest binary64, and [sweet.quantity -
      quantity], [sweet.quantity + quantity] and [sweet.price * quantity] are
      the rounded operations.  A finite number is held as the rational it
      stands for; the two zeros are not told apart (the handler treats both
      as falsy and both are written [0]).
    - The columns have their SQL types: [quantity] is [integer] (32 bits),
      [price] and [total_price] are [numeric(10,2)] (held in cents).  A number
      handed to a column goes there as the text [JSON.stringify] gives it:
      the shortest decimal that reads back as the number.  An [integer]
      column takes it if it is a whole number of the range; a
      [numeric(10,2)] column rounds it to two decimals (half away from
      zero) and takes it below 10^8.
    - Left out: the columns the function neither reads nor writes
      ([description], the timestamps, the generated ids; the id of a sweet
      is its key in the map), and bodies whose fields are not of the
      declared types. *)

From Stdlib Require Import QArith Qcanon Qround Qpower Lqa Floats.SpecFloat.
From stdpp Require Import base option numbers strings list gmap.

Local Open Scope Z_scope.

(** ** Numbers of the handler *)

Module Number.

(** A JavaScript number; a finite one is held as the rational it stands
    for, in lowest terms. *)
Inductive t := Finite (v : Q) | Infinity (negative : bool) | NaN.

Definition pow2 (e : Z) : Q := (2 ^ e)%Q.

(** For [v > 0], the [k] with [2^k <= v < 2^(k+1)]. *)
Definition ilog2 (v : Q) : Z :=
  let k := Z.log2 (Qnum v) - Z.log2 (Z.pos (Qden v)) in
  if Qlt_le_dec v (pow2 k) then k - 1 else k.

(** The integer nearest to [y]; of two that are as near, the even one. *)
Definition nearest_even (y : Q) : Z :=
  let f := Qfloor y in
  match (y - inject_Z f ?= 1 # 2)%Q with
  | Lt => f
  | Gt => f + 1
  | Eq => if Z.even f then f else f + 1
  end.

(** The binary64 nearest to [v > 0]: a mantissa of 53 bits at the exponent
    of [v], of fewer bits at the least exponent -1074; [None] when the
    result is 2^1024 or more. *)
Definition round_pos (v : Q) : option Q :=
  let e := Z.max (ilog2 v - 52) (-1074) in
  let m := nearest_even (v / pow2 e) in
  if 1024 <=? Z.log2 m + e then None else Some (inject_Z m * pow2 e)%Q.

(** The number a rational is read as. *)
Definition round (q : Q) : t :=
  match Qnum q with
  | 0 => Finite 0
  | Z.pos _ => match round_pos q with
               | Some r => Finite (Qred r)
               | None => Infinity false
               end
  | Z.neg _ => match round_pos (- q) with
               | Some r => Finite (Qred (- r))
               | None => Infinity true
               end
  end.

Definition zero : t := Finite 0.

(** The number an [integer] of the store is read as. *)
Definition of_Z (z : Z) : t := round (inject_Z z).

(** The number a [numeric(10,2)] of the store, [c] cents, is read as. *)
Definition of_cents (c : Z) : t := round (c # 100).

Definition opp (x : t) : t :=
  match x with
  | Finite v => Finite (Qred (- v))
  | Infinity s => Infinity (negb s)
  | NaN => NaN
  end.

Definition add (x y : t) : t :=
  match x, y with
  | Finite a, Finite b => round (a + b)
  | NaN, _ | _, NaN => NaN
  | Infinity s, Infinity s' => if Bool.eqb s s' then Infinity s else NaN
  | Infinity s, Finite _ | Finite _, Infinity s => Infinity s
  end.

Definition sub (x y : t) : t := add x (opp y).

Definition mul (x y : t) : t :=
  match x, y with
  | Finite a, Finite b => round (a * b)
  | NaN, _ | _, NaN => NaN
  | Infinity s, Infinity s' => Infinity (xorb s s')
  | Infinity s, Finite b | Finite b, Infinity s =>
      match Qnum b with
      | 0 => NaN
      | Z.pos _ => Infinity s
      | Z.neg _ => Infinity (negb s)
      end
  end.

(** [x < y] and [x <= y] *)
Definition ltb (x y : t) : bool :=
  match x, y with
  | Finite a, Finite b => negb (Qle_bool b a)
  | NaN, _ | _, NaN => false
  | Infinity s, Infinity s' => s && negb s'
  | Infinity s, Finite _ => s
  | Finite _, Infinity s => negb s
  end.

Definition leb (x y : t) : bool :=
  match x, y with
  | Finite a, Finite b => Qle_bool a b
  | NaN, _ | _, NaN => false
  | Infinity s, Infinity s' => s || negb s'
  | Infinity s, Finite _ => s
  | Finite _, Infinity s => negb s
  end.

(** [!x] *)
Definition falsy (x : t) : bool :=
  match x with
  | Finite v => Qnum v =? 0
  | Infinity _ => false
  | NaN => true
  end.

(** *** The decimal a number is written as

    [JSON.stringify] writes a finite number as the decimal with the fewest
    digits that reads back as that number, the nearest to it if several
    have as few.  [shortest] looks for it among the multiples of [10^j],
    from a [10^j] above [v] down. *)

Definition pow10 (j : Z) : Q := (10 ^ j)%Q.

Definition reads_as (v d : Q) : bool :=
  match round d with
  | Finite r => Qeq_bool r v
  | _ => false
  end.

Fixpoint shortest (fuel : nat) (j : Z) (v : Q) : Q :=
  let s := Qfloor (v / pow10 j) in
  let lo := (inject_Z s * pow10 j)%Q in
  let hi := (inject_Z (s + 1) * pow10 j)%Q in
  let nearer := match (v - lo ?= hi - v)%Q with
                | Lt => lo
                | Gt => hi
                | Eq => if Z.even s then lo else hi
                end in
  match fuel with
  | O => nearer
  | S fuel =>
      match reads_as v lo, reads_as v hi with
      | true, true => nearer
      | true, false => lo
      | false, true => hi
      | false, false => shortest fuel (j - 1) v
      end
  end.

Definition shortest_from (v : Q) : Q :=
  let j := Z.max 0 (ilog2 v + 1) in shortest (Z.to_nat (j + 400)) j v.

Definition decimal (v : Q) : Q :=
  match Qnum v with
  | 0 => 0%Q
  | Z.pos _ => shortest_from v
  | Z.neg _ => (- shortest_from (- v))%Q
  end.

End Number.

(** The numbers [M * 2^E] with a mantissa below [2^53] and an exponent of at
    least -1074: the positive binary64 numbers. *)
Definition on_grid (g : Q) : Prop :=
  exists M E, 0 < M < 2 ^ 53 /\ -1074 <= E /\ (g == inject_Z M * Number.pow2 E)%Q.

(** The whole multiples of [2^-1074]: every finite binary64 is one. *)
Definition fine (v : Q) : Prop := exists k : Z, (v == inject_Z k * Number.pow2 (-1074))%Q.

(** A number in lowest terms. *)
Definition canonical (x : Number.t) : Prop :=
  match x with Number.Finite v => Qred v = v | _ => True end.

(** The same rounding by the Standard Library's IEEE 754 division. *)
Definition SpecFloat_div (n : Z) (d : positive) : spec_float :=
  match n with
  | 0 => S754_zero false
  | Z.pos p => SFdiv 53 1024 (S754_finite false p 0) (S754_finite false d 0)
  | Z.neg p => SFdiv 53 1024 (S754_finite true p 0) (S754_finite false d 0)
  end.

Definition SpecFloat_number (x : spec_float) : Number.t :=
  match x with
  | S754_zero _ => Number.zero
  | S754_finite s m e => Number.Finite (Qred (inject_Z (cond_Zopp s (Z.pos m)) * 2 ^ e)%Q)
  | S754_infinity s => Number.Infinity s
  | S754_nan => Number.NaN
  end.

(** ** Types of the columns *)

Module Int4.
(** [integer] *)
Definition fits (z : Z) : bool := (-2147483648 <=? z) && (z <=? 2147483647).

Record t := mk { z : Z; range : Is_true (fits z) }.

Definition of_Z (v : Z) : option t :=
  match decide (Is_true (fits v)) with
  | left H => Some (mk v H)
  | right _ => None
  end.

(** A number handed to the column: its text must be that of a whole number
    of the range ([NaN] and the infinities are written [null]). *)
Definition of_number (x : Number.t) : option t :=
  match x with
  | Number.Finite v => if Z.pos (Qden (Qred v)) =? 1 then of_Z (Qnum (Qred v)) else None
  | _ => None
  end.
End Int4.

Module Numeric.
(** [numeric(10,2)], in cents.  A number handed to the column is rounded to
    two decimals, half away from zero, and must then be below 10^8. *)
Definition half_away (v : Q) : Z :=
  match Qnum v with
  | Z.neg _ => - Qfloor (- v + (1 # 2))%Q
  | _ => Qfloor (v + (1 # 2))%Q
  end.

Definition of_number (x : Number.t) : option Z :=
  match x with
  | Number.Finite v =>
      let c := half_away (Number.decimal v * 100)%Q in
      if Z.abs c <? 10 ^ 10 then Some c else None
  | _ => None
  end.
End Numeric.

Module Price.
(** [price numeric(10,2) CHECK (price >= 0)], in cents; the function never
    writes it. *)
Definition fits (c : Z) : bool := (0 <=? c) && (c <? 10 ^ 10).

Record t := mk { cents : Z; range : Is_true (fits cents) }.
End Price.

(** ** Tables *)

Module Sweet.
(** A row of [sweets]. *)
Record t := mk { name : string; category : string; price : Price.t; quantity : Int4.t }.

Definition set_quantity (z : Int4.t) (s : t) : t :=
  {| name := name s; category := category s; price := price s; quantity := z |}.
End Sweet.

Module Purchase.
(** A row of [purchases]; [total_price] is in cents. *)
Record t := mk { user_id : string; sweet_id : string; quantity : Z; total_price : Z }.
End Purchase.

Record Db := mkDb {
  sessions : gmap string string;      (* bearer token -> user id *)
  user_profiles : gmap string bool;   (* user id -> is_admin *)
  sweets : gmap string Sweet.t;       (* id -> row *)
  purchases : list Purchase.t
}.

Definition set_sweets (f : gmap string Sweet.t -> gmap string Sweet.t) (d : Db) : Db :=
  {| sessions := sessions d; user_profiles := user_profiles d;
     sweets := f (sweets d); purchases := purchases d |}.

Definition add_purchase (p : Purchase.t) (d : Db) : Db :=
  {| sessions := sessions d; user_profiles := user_profiles d;
     sweets := sweets d; purchases := purchases d ++ [p] |}.

(** ** Calls to the store *)

Inductive Call : Type -> Type :=
| GetUser (token : string) : Call (option string)
    (* auth.getUser(token) *)
| SelectProfile (uid : string) : Call (option bool)
    (* from('user_profiles').select('is_admin').eq('id', uid).maybeSingle() *)
| SelectSweet (id : string) : Call (option Sweet.t)
    (* from('sweets').select('*').eq('id', id).single() *)
| SelectQuantity (id : string) : Call (option Int4.t)
    (* from('sweets').select('quantity').eq('id', id).single() *)
| UpdateQuantity (id : string) (v : Number.t) : Call bool
    (* from('sweets').update({ quantity: v }).eq('id', id); true: no error *)
| UpdateQuantityReturning (id : string) (v : Number.t) : Call (option Sweet.t)
    (* ... .update({ quantity: v }).eq('id', id).select().single() *)
| InsertPurchase (uid id : string) (q : Number.t) (total : Number.t) : Call (option Purchase.t).
    (* from('purchases').insert([...]).select().single() *)

Inductive Logged : Type :=
| Log : forall X : Type, Call X -> Logged.
Arguments Log {X} c.

Record World := mkWorld {
  db : Db;
  outages : list bool;   (* for each coming call: is it refused? *)
  trace : list Logged
}.

(** What the schema lets through. *)

(** [UPDATE sweets SET quantity = v WHERE id = ...]: the column is an
    [integer] with [CHECK (quantity >= 0)]; no row, no check. *)
Definition write_quantity (id : string) (v : Number.t) (d : Db) : option Db :=
  match Int4.of_number v with
  | None => None
  | Some z =>
      match sweets d !! id with
      | None => Some d
      | Some s =>
          if 0 <=? Int4.z z then Some (set_sweets (insert id (Sweet.set_quantity z s)) d)
          else None
      end
  end.

(** [INSERT INTO purchases ... RETURNING *]: [quantity integer CHECK
    (quantity > 0)], [total_price numeric(10,2) CHECK (total_price >= 0)],
    [sweet_id REFERENCES sweets].  The row that comes back is the row as
    stored. *)
Definition insert_purchase (uid id : string) (q : Number.t) (total : Number.t) (d : Db)
  : option (Purchase.t * Db) :=
  match Int4.of_number q, Numeric.of_number total with
  | Some z, Some c =>
      if (0 <? Int4.z z) && (0 <=? c) && bool_decide (is_Some (sweets d !! id))
      then let p := Purchase.mk uid id (Int4.z z) c in Some (p, add_purchase p d)
      else None
  | _, _ => None
  end.

(** The world once call [c] has been answered and left the tables as [d]. *)
Definition logged {X : Type} (c : Call X) (d : Db) (w : World) : World :=
  {| db := d; outages := tl (outages w); trace := trace w ++ [Log c] |}.

(** Is the coming call refused? *)
Definition refused (w : World) : bool := hd false (outages w).

(** The coming [n] calls are all served. *)
Definition served (n : nat) (w : World) : Prop :=
  forall i, (i < n)%nat -> outages w !! i ≠ Some true.

Definition exec {X : Type} (c : Call X) (w : World) : X * World :=
  match c in Call X return X * World with
  | GetUser token =>
      (if refused w then None else sessions (db w) !! token, logged c (db w) w)
  | SelectProfile uid =>
      (if refused w then None else user_profiles (db w) !! uid, logged c (db w) w)
  | SelectSweet id =>
      (if refused w then None else sweets (db w) !! id, logged c (db w) w)
  | SelectQuantity id =>
      (if refused w then None else Sweet.quantity <$> sweets (db w) !! id,
       logged c (db w) w)
  | UpdateQuantity id v =>
      match (if refused w then None else write_quantity id v (db w)) with
      | Some d => (true, logged c d w)
      | None => (false, logged c (db w) w)
      end
  | UpdateQuantityReturning id v =>
      match (if refused w then None else write_quantity id v (db w)) with
      | Some d => (sweets d !! id, logged c d w)
      | None => (None, logged c (db w) w)
      end
  | InsertPurchase uid id q total =>
      match (if refused w then None else insert_purchase uid id q total (db w)) with
      | Some (p, d) => (Some p, logged c d w)
      | None => (None, logged c (db w) w)
      end
  end.

(** The writes to [sweets.quantity] among logged calls. *)
Definition requested_write (l : Logged) : option (string * Number.t) :=
  match l with
  | Log c =>
      match c with
      | UpdateQuantity id v | UpdateQuantityReturning id v => Some (id, v)
      | _ => None
      end
  end.

(** The [total_price] of the rows the handler submits. *)
Definition submitted_total (l : Logged) : option Number.t :=
  match l with
  | Log c =>
      match c with
      | InsertPurchase _ _ _ total => Some total
      | _ => None
      end
  end.

Definition is_read (l : Logged) : bool :=
  match l with
  | Log c =>
      match c with
      | GetUser _ | SelectProfile _ | SelectSweet _ | SelectQuantity _ => true
      | _ => false
      end
  end.

(** ** Handlers as trees of calls *)

Inductive Prog (A : Type) : Type :=
| Ret : A -> Prog A
| Vis : forall X : Type, Call X -> (X -> Prog A) -> Prog A.
Arguments Ret {A} a.
Arguments Vis {A X} c k.

Notation "'let*' x ':=' 'await' c 'in' k" := (Vis c (fun x => k))
  (at level 10, x pattern, c at level 9, k at level 200).

(** One request served alone. *)
Fixpoint run {A : Type} (p : Prog A) (w : World) : A * World :=
  match p with
  | Ret a => (a, w)
  | Vis c k => let '(x, w') := exec c w in run (k x) w'
  end.

(** ** The edge function *)

Module PurchaseRequest.
(** The JSON body: an absent field is [None]; [quantity] is the number as
    it is written in the body. *)
Record t := mk { sweetId : option string; quantity : option Q }.
End PurchaseRequest.
Abbreviation RestockRequest := PurchaseRequest.t (only parsing).

Record Request := mkRequest {
  method : string;
  authorization : option string;      (* req.headers.get('Authorization') *)
  pathname : string;                  (* new URL(req.url).pathname *)
  json : option PurchaseRequest.t     (* the body; None: req.json() throws *)
}.

Inductive Body :=
| Empty
| Error (error : string)
| Thrown                                         (* { error: error.message } *)
| InsufficientStock (available : Z)              (* error: 'Insufficient stock' *)
| PurchaseSuccessful (purchase : Purchase.t) (remainingStock : Number.t)
| RestockSuccessful (sweet : Sweet.t) (newQuantity : Number.t).

Record Response := mkResponse { status : nat; body : Body }.

(** [s.includes(sub)] *)
Definition includes (sub s : string) : bool :=
  if String.index 0 sub s is Some _ then true else false.

(** [s.replace(pat, '')]: the first occurrence of [pat] is dropped. *)
Fixpoint remove_first (pat s : string) : string :=
  if String.prefix pat s then String.substring (String.length pat) (String.length s) s
  else match s with
       | EmptyString => EmptyString
       | String a s' => String a (remove_first pat s')
       end.

(** [const { sweetId, quantity } = await req.json()] and the guard
    [!sweetId || !quantity || quantity <= 0]: the quantity is read as a
    binary64; an absent field, an empty id and a zero quantity are falsy.
    [None] when the guard fires, else the two fields. *)
Definition validate (r : PurchaseRequest.t) : option (string * Number.t) :=
  match PurchaseRequest.sweetId r, PurchaseRequest.quantity r with
  | Some sweetId, Some written =>
      let quantity := Number.round written in
      if bool_decide (sweetId = "") || Number.falsy quantity
         || Number.leb quantity Number.zero
      then None else Some (sweetId, quantity)
  | _, _ => None
  end.

Definition purchase (user : string) (req : Request) : Prog Response :=
  match json req with
  | None => Ret (mkResponse 500 Thrown)
  | Some r =>
      match validate r with
      | None => Ret (mkResponse 400 (Error "Invalid sweetId or quantity"))
      | Some (sweetId, quantity) =>
        let* sweet := await (SelectSweet sweetId) in
        match sweet with
        | None => Ret (mkResponse 404 (Error "Sweet not found"))
        | Some sweet =>
            let sweet_quantity := Number.of_Z (Int4.z (Sweet.quantity sweet)) in
            if Number.ltb sweet_quantity quantity
            then Ret (mkResponse 400 (InsufficientStock (Int4.z (Sweet.quantity sweet))))
            else
              let totalPrice :=
                Number.mul (Number.of_cents (Price.cents (Sweet.price sweet))) quantity in
              let* updated :=
                await (UpdateQuantity sweetId (Number.sub sweet_quantity quantity)) in
              if negb updated
              then Ret (mkResponse 500 (Error "Failed to update inventory"))
              else
                let* purchase := await (InsertPurchase user sweetId quantity totalPrice) in
                match purchase with
                | None =>
                    let* _ := await (UpdateQuantity sweetId sweet_quantity) in
                    Ret (mkResponse 500 (Error "Failed to record purchase"))
                | Some purchase =>
                    Ret (mkResponse 200
                           (PurchaseSuccessful purchase
                              (Number.sub sweet_quantity quantity)))
                end
        end
      end
  end.

Definition restock (user : string) (req : Request) : Prog Response :=
  let* profile := await (SelectProfile user) in
  if negb (default false profile)
  then Ret (mkResponse 403 (Error "Admin access required"))
  else
    match json req with
    | None => Ret (mkResponse 500 Thrown)
    | Some r =>
        match validate r with
        | None => Ret (mkResponse 400 (Error "Invalid sweetId or quantity"))
        | Some (sweetId, quantity) =>
          let* sweet := await (SelectQuantity sweetId) in
          match sweet with
          | None => Ret (mkResponse 404 (Error "Sweet not found"))
          | Some sweet_quantity =>
              let newQuantity := Number.add (Number.of_Z (Int4.z sweet_quantity)) quantity in
              let* data := await (UpdateQuantityReturning sweetId newQuantity) in
              match data with
              | None => Ret (mkResponse 500 (Error "Failed to restock"))
              | Some data => Ret (mkResponse 200 (RestockSuccessful data newQuantity))
              end
          end
        end
    end.

(** [Deno.serve(async (req) => ...)] *)
Definition serve (req : Request) : Prog Response :=
  if bool_decide (method req = "OPTIONS") then Ret (mkResponse 200 Empty)
  else
    match authorization req with
    | None => Ret (mkResponse 401 (Error "Missing authorization header"))
    | Some authHeader =>
        if bool_decide (authHeader = "")
        then Ret (mkResponse 401 (Error "Missing authorization header"))
        else
          let token := remove_first "Bearer " authHeader in
          let* user := await (GetUser token) in
          match user with
          | None => Ret (mkResponse 401 (Error "Invalid authorization token"))
          | Some user =>
              if includes "/purchase" (pathname req) then purchase user req
              else if includes "/restock" (pathname req) then restock user req
              else Ret (mkResponse 404 (Error "Invalid endpoint"))
          end
    end.

(** ** Requests in flight together

    Each request is at some point of its tree; a step lets one of them make
    its next call.  The schedule names the request that moves at each step. *)

Definition step (i : nat) (st : list (Prog Response) * World) : list (Prog Response) * World :=
  match st.1 !! i with
  | Some (Vis c k) => let '(x, w') := exec c st.2 in (<[i := k x]> st.1, w')
  | _ => st
  end.

Definition interleave (schedule : list nat) (st : list (Prog Response) * World)
  : list (Prog Response) * World :=
  foldl (fun st i => step i st) st schedule.

Definition finished (p : Prog Response) : option Response :=
  match p with Ret r => Some r | Vis _ _ => None end.

(** ** What the properties speak of *)

(** The quantity that product [id] holds. *)
Definition stock (id : string) (d : Db) : option Z :=
  Int4.z ∘ Sweet.quantity <$> sweets d !! id.

(** The product [id], if it is in the table, holds a non-negative quantity. *)
Definition stocked (id : string) (d : Db) : Prop :=
  forall s, sweets d !! id = Some s -> 0 <= Int4.z (Sweet.quantity s).

(** No write asked for the quantity of [id] among [calls] carries a
    negative value. *)
Definition writes_nonneg (id : string) (calls : list Logged) : Prop :=
  Forall (fun call => forall v, requested_write call = Some (id, v) ->
                                Number.leb Number.zero v = true)
         calls.

(** ** The shop of the scenarios *)

Module Scenario.
(** Jelly Beans at 2.99, 5 in stock. *)
Definition p1 : Sweet.t := Sweet.mk "Jelly Beans" "Candy" (Price.mk 299 I) (Int4.mk 5 I).

(** The same product holding 2. *)
Definition p1_left : Sweet.t := Sweet.set_quantity (Int4.mk 2 I) p1.

Definition shop : Db :=
  {| sessions := {[ "t-ann" := "ann"; "t-bob" := "bob"; "t-root" := "root" ]};
     user_profiles := {[ "ann" := false; "bob" := false; "root" := true ]};
     sweets := {[ "p1" := p1 ]};
     purchases := [] |}.

(** The shop once three Jelly Beans are sold. *)
Definition shop_left : Db := set_sweets (insert "p1" p1_left) shop.

(** A quiet store: no outage, nothing logged yet. *)
Definition quiet (d : Db) : World := {| db := d; outages := []; trace := [] |}.

Definition post (path : string) (id : string) (q : Q) : Request :=
  {| method := "POST"; authorization := Some "Bearer t-ann"; pathname := path;
     json := Some (PurchaseRequest.mk (Some id) (Some q)) |}.

Definition buy (q : Z) : Request := post "/functions/v1/inventory/purchase" "p1" (inject_Z q).
Definition refill (q : Z) : Request := post "/functions/v1/inventory/restock" "p1" (inject_Z q).

(** 2.5, and 1.0000000000000002: the binary64 next above 1. *)
Definition two_and_a_half : Q := 5 # 2.
Definition one_and_a_bit : Q := 4503599627370497 # 4503599627370496.

(** 0.00000000000000001: less than half the gap between 5 and its
    neighbours among the binary64 numbers. *)
Definition a_speck : Q := 1 # 100000000000000000.
End Scenario.

(** The store refusing the third call only: the insert fails, the write that
    undoes the decrement is served. *)
Definition insert_refused : World :=
  {| db := Scenario.shop; outages := [false; false; true]; trace := [] |}.

(** The store refusing the third and the fourth call: the insert fails and so
    does the write that should undo the decrement. *)
Definition insert_and_undo_refused : World :=
  {| db := Scenario.shop; outages := [false; false; true; true]; trace := [] |}.


(** Two buyers of the whole stock. *)
Definition two_buyers : list (Prog Response) :=
  [purchase "ann" (Scenario.buy 5); purchase "bob" (Scenario.buy 5)].

Definition statuses (pool : list (Prog Response)) : list (option nat) :=
  map (fun p => status <$> finished p) pool.

(** ** What requests may do to the tables *)

(** Same product: the name, the category and the price. *)
Definition same_product (s s' : Sweet.t) : Prop :=
  Sweet.name s' = Sweet.name s /\ Sweet.category s' = Sweet.category s /\
  Sweet.price s' = Sweet.price s.

(** [d'] has the sessions and the profiles of [d], the products of [d] (no
    more, no fewer, each with its name, category and price) and the
    purchases of [d], possibly followed by more. *)
Definition kept (d d' : Db) : Prop :=
  sessions d' = sessions d /\ user_profiles d' = user_profiles d /\
  (forall id, option_Forall2 same_product (sweets d !! id) (sweets d' !! id)) /\
  purchases d `prefix_of` purchases d'.

(** Every recorded purchase is of a positive count, has a non-negative
    total and names a product of the table. *)
Definition ledger_sound (d : Db) : Prop :=
  Forall (fun p => 0 < Purchase.quantity p /\ 0 <= Purchase.total_price p /\
                   is_Some (sweets d !! Purchase.sweet_id p))
         (purchases d).

(** The requests of a pool served one after the other. *)
Fixpoint run_all (pool : list (Prog Response)) (w : World) : list Response * World :=
  match pool with
  | [] => ([], w)
  | p :: pool =>
      let '(r, w') := run p w in
      let '(rs, w'') := run_all pool w' in
      (r :: rs, w'')
  end.

(** The units of product [id] on the ledger. *)
Definition units_sold (id : string) (ledger : list Purchase.t) : Z :=
  foldr (fun p sold => (if bool_decide (Purchase.sweet_id p = id)
                        then Purchase.quantity p else 0) + sold) 0 ledger.

(** The request [req] sent with another Authorization header. *)
Definition with_authorization (authHeader : string) (req : Request) : Request :=
  {| method := method req; authorization := Some authHeader;
     pathname := pathname req; json := json req |}.

(** * Properties *)

(** ** Powers of two *)

Local Open Scope Q_scope.

Lemma pow2_pos (e : Z) : 0 < Number.pow2 e.
Proof. apply Qpower_0_lt. reflexivity. Qed.

Lemma pow2_add (a b : Z) : Number.pow2 (a + b) == Number.pow2 a * Number.pow2 b.
Proof. apply Qpower_plus. discriminate. Qed.

Lemma pow2_le (a b : Z) : (a <= b)%Z -> Number.pow2 a <= Number.pow2 b.
Proof. intros H. apply Qpower_le_compat_l; [exact H|discriminate]. Qed.

Lemma pow2_lt (a b : Z) : (a < b)%Z -> Number.pow2 a < Number.pow2 b.
Proof. intros H. apply Qpower_lt_compat_l; [exact H|reflexivity]. Qed.

Lemma pow2_Z (e : Z) : (0 <= e)%Z -> inject_Z (2 ^ e) == Number.pow2 e.
Proof. intros H. apply (Zpower_Qpower 2 e H). Qed.

Lemma pow2_succ (a : Z) : Number.pow2 (a + 1) == 2 * Number.pow2 a.
Proof. rewrite pow2_add. change (Number.pow2 1) with 2. ring. Qed.

Lemma pow2_sub (a b : Z) : Number.pow2 a == Number.pow2 (a - b) * Number.pow2 b.
Proof. rewrite <-pow2_add. by replace (a - b + b)%Z with a by lia. Qed.

Lemma inject_Z_le (a b : Z) : (a <= b)%Z -> inject_Z a <= inject_Z b.
Proof. by rewrite Zle_Qle. Qed.

Lemma inject_Z_lt (a b : Z) : (a < b)%Z -> inject_Z a < inject_Z b.
Proof. by rewrite Zlt_Qlt. Qed.

Lemma inject_Z_le_inv (a b : Z) : inject_Z a <= inject_Z b -> (a <= b)%Z.
Proof. by rewrite Zle_Qle. Qed.

Lemma inject_Z_lt_inv (a b : Z) : inject_Z a < inject_Z b -> (a < b)%Z.
Proof. by rewrite Zlt_Qlt. Qed.

Lemma inject_Z_succ (f : Z) : inject_Z (f + 1) == inject_Z f + 1.
Proof. by rewrite inject_Z_plus. Qed.

(** [2^k <= v < 2^(k+1)] for [k = ilog2 v]. *)
Lemma ilog2_spec (v : Q) :
  0 < v -> Number.pow2 (Number.ilog2 v) <= v < Number.pow2 (Number.ilog2 v + 1).
Proof.
  intros Hv. unfold Number.ilog2.
  destruct v as [n d]. cbn [Qnum Qden].
  assert (0 < n)%Z as Hn by (unfold Qlt in Hv; cbn in Hv; lia).
  set (ln := Z.log2 n). set (ld := Z.log2 (Z.pos d)).
  destruct (Z.log2_spec n Hn) as [Hn1 Hn2].
  destruct (Z.log2_spec (Z.pos d) ltac:(lia)) as [Hd1 Hd2].
  fold ln in Hn1, Hn2. fold ld in Hd1, Hd2.
  assert (0 <= ln)%Z as Hln by apply Z.log2_nonneg.
  assert (0 <= ld)%Z as Hld by apply Z.log2_nonneg.
  apply inject_Z_le in Hn1, Hd1. apply inject_Z_lt in Hn2, Hd2.
  rewrite pow2_Z in Hn1, Hd1, Hn2, Hd2 by lia.
  assert ((n # d) * inject_Z (Z.pos d) == inject_Z n) as Hnd.
  { unfold Qeq, Qmult, inject_Z. cbn [Qnum Qden]. rewrite Pos2Z.inj_mul. ring. }
  assert (0 < inject_Z (Z.pos d)) as Hdpos by reflexivity.
  pose proof (pow2_pos ld) as Hpld. pose proof (pow2_pos (ln - ld)) as Hpk.
  assert (Number.pow2 ln == Number.pow2 (ln - ld) * Number.pow2 ld) as E1.
  { rewrite <-pow2_add. by replace (ln - ld + ld)%Z with ln by lia. }
  assert (Number.pow2 (Z.succ ln) == 2 * Number.pow2 (ln - ld) * Number.pow2 ld) as E2.
  { rewrite <-pow2_succ, <-pow2_add. by replace (ln - ld + 1 + ld)%Z with (Z.succ ln) by lia. }
  assert (Number.pow2 (Z.succ ld) == 2 * Number.pow2 ld) as E3.
  { rewrite <-pow2_succ. by replace (ld + 1)%Z with (Z.succ ld) by lia. }
  assert (Number.pow2 (ln - ld) == 2 * Number.pow2 (ln - ld - 1)) as E4.
  { rewrite <-pow2_succ. by replace (ln - ld - 1 + 1)%Z with (ln - ld)%Z by lia. }
  rewrite E1 in Hn1. rewrite E2 in Hn2. rewrite E3 in Hd2.
  set (v := n # d) in *. set (D := inject_Z (Z.pos d)) in *. set (N := inject_Z n) in *.
  set (A := Number.pow2 ld) in *. set (K := Number.pow2 (ln - ld)) in *.
  destruct (Qlt_le_dec v K) as [Hlt|Hle].
  - replace (ln - ld - 1 + 1)%Z with (ln - ld)%Z by lia. fold K. split; [|exact Hlt].
    set (K' := Number.pow2 (ln - ld - 1)) in *.
    assert (0 < K') by apply pow2_pos.
    apply Qnot_lt_le. intros Hc. nra.
  - split; [exact Hle|]. rewrite pow2_succ. fold K.
    apply Qnot_le_lt. intros Hc. nra.
Qed.

(** ** The nearest integer *)

Lemma nearest_even_cases (y : Q) :
  (Number.nearest_even y = Qfloor y /\ y - inject_Z (Qfloor y) <= 1 # 2) \/
  (Number.nearest_even y = (Qfloor y + 1)%Z /\ 1 # 2 <= y - inject_Z (Qfloor y)).
Proof.
  unfold Number.nearest_even.
  destruct (Qcompare_spec (y - inject_Z (Qfloor y)) (1 # 2)) as [H|H|H].
  - destruct (Z.even (Qfloor y)); [left|right]; (split; [done|]); rewrite H; apply Qle_refl.
  - left. split; [done|by apply Qlt_le_weak].
  - right. split; [done|by apply Qlt_le_weak].
Qed.

Lemma nearest_even_near (y : Q) :
  inject_Z (Number.nearest_even y) - y <= 1 # 2 /\
  y - inject_Z (Number.nearest_even y) <= 1 # 2.
Proof.
  pose proof (Qfloor_le y) as Hf. pose proof (Qlt_floor y) as Hc.
  rewrite inject_Z_succ in Hc.
  destruct (nearest_even_cases y) as [[-> H]|[-> H]]; rewrite ?inject_Z_succ; split; lra.
Qed.

Lemma nearest_even_ge (y : Q) (M : Z) : inject_Z M <= y -> (M <= Number.nearest_even y)%Z.
Proof.
  intros H. apply Qfloor_resp_le in H. rewrite Qfloor_Z in H.
  destruct (nearest_even_cases y) as [[-> _]|[-> _]]; lia.
Qed.

Lemma nearest_even_le (y : Q) (M : Z) : y <= inject_Z M -> (Number.nearest_even y <= M)%Z.
Proof.
  intros H. pose proof (Qfloor_le y) as Hf.
  destruct (nearest_even_cases y) as [[-> _]|[-> Hh]].
  - apply inject_Z_le_inv. lra.
  - assert (inject_Z (Qfloor y) < inject_Z M) as Hlt%inject_Z_lt_inv by lra. lia.
Qed.

(** ** Rounding a positive rational *)

(** The pieces of [round_pos v]. *)
Lemma round_pos_facts (v : Q) :
  0 < v ->
  let k := Number.ilog2 v in
  let e := Z.max (k - 52) (-1074) in
  let y := v / Number.pow2 e in
  let m := Number.nearest_even y in
  y * Number.pow2 e == v /\ (0 <= m <= 2 ^ 53)%Z /\
  inject_Z m - y <= 1 # 2 /\ y - inject_Z m <= 1 # 2 /\
  ((-1074 < e)%Z -> e = (k - 52)%Z /\ (2 ^ 52 <= m)%Z /\ Number.pow2 k <= v).
Proof.
  intros Hv k e y m. destruct (ilog2_spec v Hv) as [Hk1 Hk2]. fold k in Hk1, Hk2.
  pose proof (pow2_pos e) as He.
  assert (y * Number.pow2 e == v) as Hy.
  { unfold y. field. intros H. rewrite H in He. by apply Qlt_irrefl in He. }
  split; [exact Hy|].
  assert (0 < y) as Hy0.
  { unfold y. apply Qlt_shift_div_l; [exact He|]. by rewrite Qmult_0_l. }
  assert (y < Number.pow2 53) as Hy53.
  { apply (Qmult_lt_r _ _ (Number.pow2 e) He). rewrite Hy, <-pow2_add.
    eapply Qlt_le_trans; [exact Hk2|]. apply pow2_le. lia. }
  rewrite <-pow2_Z in Hy53 by lia.
  split; [split|].
  - apply (nearest_even_ge y 0). by apply Qlt_le_weak.
  - apply nearest_even_le. by apply Qlt_le_weak.
  - destruct (nearest_even_near y) as [H1 H2]. split; [exact H1|]. split; [exact H2|].
    intros Hnorm. assert (e = (k - 52)%Z) as Hek by lia. split; [exact Hek|].
    split; [|exact Hk1]. apply nearest_even_ge. rewrite pow2_Z by lia.
    apply (Qmult_le_r _ _ (Number.pow2 e) He). rewrite Hy, <-pow2_add.
    by replace (52 + e)%Z with k by lia.
Qed.

Lemma round_pos_Some (v : Q) (bound : Q) :
  0 < v ->
  let e := Z.max (Number.ilog2 v - 52) (-1074) in
  let m := Number.nearest_even (v / Number.pow2 e) in
  inject_Z m * Number.pow2 e <= bound -> bound < Number.pow2 1024 ->
  Number.round_pos v = Some (inject_Z m * Number.pow2 e).
Proof.
  intros Hv e m Hle Hb. unfold Number.round_pos. fold e m.
  destruct (round_pos_facts v Hv) as (_ & [Hm0 _] & _ & _ & Hnorm). fold e m in Hm0, Hnorm.
  destruct (Z.leb_spec 1024 (Z.log2 m + e)) as [Hover|]; [exfalso|done].
  assert (0 < m)%Z as Hm.
  { destruct (Z.eq_dec m 0%Z) as [Hz|]; [|lia]. rewrite Hz in Hover. cbn in Hover.
    destruct Hnorm as (_ & ? & _); lia. }
  destruct (Z.log2_spec m Hm) as [Hl _]. apply inject_Z_le in Hl.
  rewrite pow2_Z in Hl by apply Z.log2_nonneg.
  pose proof (pow2_pos e) as He.
  assert (Number.pow2 1024 <= Number.pow2 (Z.log2 m + e)) as H1 by (by apply pow2_le).
  rewrite pow2_add in H1.
  assert (Number.pow2 (Z.log2 m) * Number.pow2 e <= inject_Z m * Number.pow2 e) as H2.
  { by apply Qmult_le_compat_r; [|apply Qlt_le_weak]. }
  lra.
Qed.

Lemma grid_scaled (M E e : Z) :
  (e <= E)%Z -> inject_Z M * Number.pow2 E == inject_Z (M * 2 ^ (E - e)) * Number.pow2 e.
Proof.
  intros H. rewrite inject_Z_mult, pow2_Z by lia. rewrite (pow2_sub E e). ring.
Qed.

Lemma grid_below (M E k : Z) :
  (0 < M < 2 ^ 53)%Z -> (E <= k - 53)%Z -> inject_Z M * Number.pow2 E < Number.pow2 k.
Proof.
  intros [HM0 HM] HE.
  assert (inject_Z M < Number.pow2 53) as H1.
  { rewrite <-pow2_Z by lia. by apply inject_Z_lt. }
  assert (Number.pow2 E <= Number.pow2 (k - 53)) as H2 by (by apply pow2_le).
  rewrite (pow2_sub k 53), Qmult_comm.
  pose proof (pow2_pos E). pose proof (pow2_pos (k - 53)).
  assert (0 < inject_Z M) by (by apply (inject_Z_lt 0)).
  nra.
Qed.

(** Rounding does not step over a binary64: a rational at most [g] rounds
    to a number at most [g], one at least [g] to a number at least [g]. *)
Lemma grid_le (v g : Q) :
  0 < v -> v <= g -> on_grid g -> g < Number.pow2 1024 ->
  exists r, Number.round_pos v = Some r /\ 0 <= r <= g.
Proof.
  intros Hv Hvg (M & E & HM & HE & Hg) Hb.
  destruct (round_pos_facts v Hv) as (Hy & [Hm0 Hm53] & _ & _ & Hnorm).
  set (k := Number.ilog2 v) in *. set (e := Z.max (k - 52) (-1074)) in *.
  set (y := v / Number.pow2 e) in *. set (m := Number.nearest_even y) in *.
  pose proof (pow2_pos e) as He.
  assert (inject_Z m * Number.pow2 e <= g) as Hr.
  { destruct (Z.le_gt_cases e E) as [HeE|HeE].
    - rewrite Hg, (grid_scaled M E e HeE). apply Qmult_le_compat_r; [|by apply Qlt_le_weak].
      apply inject_Z_le, nearest_even_le.
      apply (Qmult_le_r _ _ (Number.pow2 e) He). by rewrite Hy, <-grid_scaled, <-Hg.
    - exfalso. destruct Hnorm as (Hek & _ & Hk); [lia|].
      pose proof (grid_below M E k HM ltac:(lia)). rewrite <-Hg in *. lra. }
  exists (inject_Z m * Number.pow2 e). split; [by eapply round_pos_Some|]. split; [|exact Hr].
  apply Qmult_le_0_compat; [by apply (inject_Z_le 0)|by apply Qlt_le_weak].
Qed.

Lemma grid_ge (v g : Q) :
  0 < v -> g <= v -> on_grid g ->
  match Number.round_pos v with Some r => g <= r | None => True end.
Proof.
  intros Hv Hgv (M & E & HM & HE & Hg).
  destruct (round_pos_facts v Hv) as (Hy & [Hm0 Hm53] & _ & _ & Hnorm).
  unfold Number.round_pos.
  set (k := Number.ilog2 v) in *. set (e := Z.max (k - 52) (-1074)) in *.
  set (y := v / Number.pow2 e) in *. set (m := Number.nearest_even y) in *.
  destruct (1024 <=? _)%Z; [done|].
  pose proof (pow2_pos e) as He.
  destruct (Z.le_gt_cases e E) as [HeE|HeE].
  - rewrite Hg, (grid_scaled M E e HeE). apply Qmult_le_compat_r; [|by apply Qlt_le_weak].
    apply inject_Z_le, nearest_even_ge.
    apply (Qmult_le_r _ _ (Number.pow2 e) He). by rewrite Hy, <-grid_scaled, <-Hg.
  - destruct Hnorm as (Hek & Hm & Hk); [lia|].
    pose proof (grid_below M E k HM ltac:(lia)) as Hlt. rewrite <-Hg in Hlt.
    apply Qlt_le_weak. eapply Qlt_le_trans; [exact Hlt|].
    rewrite (pow2_sub k e). replace (k - e)%Z with 52%Z by lia.
    apply Qmult_le_compat_r; [|by apply Qlt_le_weak].
    rewrite <-pow2_Z by lia. by apply inject_Z_le.
Qed.

(** The error of rounding is at most [2^-53] of the result. *)
Lemma round_pos_error (v r : Q) :
  0 < v -> Number.round_pos v = Some r -> Number.pow2 (-1022) <= r ->
  r - v <= r * Number.pow2 (-53) /\ v - r <= r * Number.pow2 (-53).
Proof.
  intros Hv Hr Hnormal.
  destruct (round_pos_facts v Hv) as (Hy & [Hm0 Hm53] & Hn1 & Hn2 & Hnorm).
  unfold Number.round_pos in Hr.
  set (k := Number.ilog2 v) in *. set (e := Z.max (k - 52) (-1074)) in *.
  set (y := v / Number.pow2 e) in *. set (m := Number.nearest_even y) in *.
  destruct (1024 <=? _)%Z; [discriminate|]. injection Hr as <-.
  pose proof (pow2_pos e) as He.
  assert (Number.pow2 e <= 2 * (inject_Z m * Number.pow2 e * Number.pow2 (-53))) as Hulp.
  { assert (-1074 <= e)%Z as Hemin by lia.
    clearbody m. clearbody y. clearbody e.
    pose proof (pow2_pos (-53)) as H53.
    destruct (Z.eq_dec e (-1074)%Z) as [Hsub|Hsub].
    - subst e. set (r := inject_Z m * Number.pow2 (-1074)) in *.
      assert (Number.pow2 (-1074) == 2 * (Number.pow2 (-1022) * Number.pow2 (-53))) as E1
        by reflexivity.
      rewrite E1. set (A := Number.pow2 (-1022)) in *. set (B := Number.pow2 (-53)) in *.
      clearbody A B r. clear -Hnormal H53. nra.
    - destruct Hnorm as (Hek & Hm & Hk); [lia|].
      apply inject_Z_le in Hm. rewrite pow2_Z in Hm by lia.
      assert (1 == 2 * (Number.pow2 52 * Number.pow2 (-53))) as E1 by reflexivity.
      set (A := Number.pow2 52) in *. set (B := Number.pow2 (-53)) in *.
      set (X := Number.pow2 e) in *.
      assert (X == 2 * (A * X * B)) as E2 by (rewrite <-(Qmult_1_l X) at 1; rewrite E1; ring).
      rewrite E2 at 1. clearbody A B X. clear -Hm He H53.
      assert (A * X <= inject_Z m * X) by nra. nra. }
  rewrite <-Hy. split; nra.
Qed.

Lemma round_pos_nonneg (v r : Q) : 0 < v -> Number.round_pos v = Some r -> 0 <= r.
Proof.
  intros Hv. destruct (round_pos_facts v Hv) as (_ & [Hm0 _] & _).
  unfold Number.round_pos. destruct (_ <=? _)%Z; [discriminate|]. intros [= <-].
  apply Qmult_le_0_compat; [by apply (inject_Z_le 0)|apply Qlt_le_weak, pow2_pos].
Qed.

Lemma round_pos_fine (v r : Q) : Number.round_pos v = Some r -> fine r.
Proof.
  unfold Number.round_pos. destruct (_ <=? _)%Z; [discriminate|]. intros [= <-].
  set (e := Z.max _ _). eexists. apply grid_scaled. lia.
Qed.

Lemma on_grid_Z (z : Z) : (0 < z < 2 ^ 53)%Z -> on_grid (inject_Z z).
Proof.
  intros Hz. exists z, 0%Z. split; [done|]. split; [lia|].
  change (Number.pow2 0) with 1. ring.
Qed.

Lemma on_grid_pow2 (j : Z) : (-1074 <= j)%Z -> on_grid (Number.pow2 j).
Proof.
  intros Hj. exists 1%Z, j. split; [done|]. split; [done|]. change (inject_Z 1) with 1. ring.
Qed.

Lemma inject_Z_below (z : Z) : (z < 2 ^ 53)%Z -> inject_Z z < Number.pow2 1024.
Proof.
  intros Hz. apply inject_Z_lt in Hz. rewrite pow2_Z in Hz by lia.
  eapply Qlt_trans; [exact Hz|]. by apply pow2_lt.
Qed.

(** ** Rounding *)

Lemma Qnum_pos (q : Q) : 0 < q -> exists p, Qnum q = Z.pos p.
Proof.
  destruct q as [n d]. unfold Qlt. cbn. intros H.
  destruct n as [|p|p]; [lia|by exists p|lia].
Qed.

Lemma Qnum_neg (q : Q) : q < 0 -> exists p, Qnum q = Z.neg p.
Proof.
  destruct q as [n d]. unfold Qlt. cbn. intros H.
  destruct n as [|p|p]; [lia|lia|by exists p].
Qed.

Lemma Qnum_zero (q : Q) : q == 0 -> Qnum q = 0%Z.
Proof. destruct q as [n d]. unfold Qeq. cbn. lia. Qed.

Lemma Qnum_zero_inv (q : Q) : Qnum q = 0%Z -> q == 0.
Proof. destruct q as [n d]. unfold Qeq. cbn. lia. Qed.

Lemma round_pos_case (q : Q) :
  0 < q ->
  Number.round q = match Number.round_pos q with
                   | Some r => Number.Finite (Qred r)
                   | None => Number.Infinity false
                   end.
Proof. intros [p Hp]%Qnum_pos. unfold Number.round. by rewrite Hp. Qed.

Lemma round_neg_case (q : Q) :
  q < 0 ->
  Number.round q = match Number.round_pos (- q) with
                   | Some r => Number.Finite (Qred (- r))
                   | None => Number.Infinity true
                   end.
Proof. intros [p Hp]%Qnum_neg. unfold Number.round. by rewrite Hp. Qed.

Lemma round_zero_case (q : Q) : q == 0 -> Number.round q = Number.zero.
Proof. intros H%Qnum_zero. unfold Number.round. by rewrite H. Qed.

Lemma Q_sign_cases (q : Q) : q < 0 \/ q == 0 \/ 0 < q.
Proof. destruct (Q_dec q 0) as [[?|?]|?]; auto. Qed.

(** A number that [round] gives is in lowest terms. *)
Lemma round_canonical (q : Q) :
  match Number.round q with Number.Finite r => Qred r = r | _ => True end.
Proof.
  unfold Number.round. destruct (Qnum q); [reflexivity|..];
    destruct (Number.round_pos _); try done; apply Qred_involutive.
Qed.

(** A number that [round] gives is a whole multiple of [2^-1074]. *)
Lemma round_fine (q : Q) :
  match Number.round q with Number.Finite r => fine r | _ => True end.
Proof.
  unfold Number.round. destruct (Qnum q).
  - exists 0%Z. reflexivity.
  - destruct (Number.round_pos _) as [r|] eqn:Hr; [|done].
    apply round_pos_fine in Hr as [k Hk]. exists k. by rewrite Qred_correct.
  - destruct (Number.round_pos _) as [r|] eqn:Hr; [|done].
    apply round_pos_fine in Hr as [k Hk]. exists (- k)%Z.
    rewrite Qred_correct, Hk, inject_Z_opp. ring.
Qed.

Lemma leb_Finite (a b : Q) : Number.leb (Number.Finite a) (Number.Finite b) = true <-> a <= b.
Proof. apply Qle_bool_iff. Qed.

Lemma ltb_Finite (a b : Q) : Number.ltb (Number.Finite a) (Number.Finite b) = true <-> a < b.
Proof.
  cbn [Number.ltb]. rewrite negb_true_iff. split.
  - intros H. apply Qnot_le_lt. intros Hle%Qle_bool_iff. congruence.
  - intros H. destruct (Qle_bool b a) eqn:Hle; [|done].
    apply Qle_bool_iff in Hle. lra.
Qed.

Lemma ltb_Finite_false (a b : Q) :
  Number.ltb (Number.Finite a) (Number.Finite b) = false <-> b <= a.
Proof.
  rewrite <-not_true_iff_false, ltb_Finite. split; [apply Qnot_lt_le|intros ? ?; lra].
Qed.

(** Rounding does not step over a whole number below [2^53]. *)
Lemma round_le_Z (q : Q) (z : Z) :
  (- 2 ^ 53 < z < 2 ^ 53)%Z -> q <= inject_Z z ->
  Number.leb (Number.round q) (Number.Finite (inject_Z z)) = true.
Proof.
  intros Hz Hq. destruct (Q_sign_cases q) as [Hneg|[Hzero|Hpos]].
  - rewrite (round_neg_case q Hneg).
    assert (0 < - q) as Hv by lra.
    destruct (Z.le_gt_cases 0 z) as [Hz0|Hz0].
    + destruct (Number.round_pos (- q)) as [r|] eqn:Hr; [|done].
      apply round_pos_nonneg in Hr; [|done]. apply leb_Finite. rewrite Qred_correct.
      apply inject_Z_le in Hz0. change (inject_Z 0) with 0 in Hz0. lra.
    + pose proof (grid_ge (- q) (inject_Z (- z))) as Hg.
      destruct (Number.round_pos (- q)) as [r|]; [|done].
      apply leb_Finite. rewrite Qred_correct. rewrite inject_Z_opp in Hg.
      assert (- inject_Z z <= r); [|lra].
      apply Hg; [done|lra|]. rewrite <-inject_Z_opp. apply on_grid_Z. lia.
  - rewrite (round_zero_case q Hzero). apply leb_Finite. lra.
  - rewrite (round_pos_case q Hpos).
    assert (0 < z)%Z as Hz0.
    { apply inject_Z_lt_inv. change (inject_Z 0) with 0. lra. }
    destruct (grid_le q (inject_Z z) Hpos) as (r & -> & _ & Hr).
    + exact Hq.
    + apply on_grid_Z. lia.
    + apply inject_Z_below. lia.
    + apply leb_Finite. by rewrite Qred_correct.
Qed.

Lemma round_ge_Z (q : Q) (z : Z) :
  (- 2 ^ 53 < z < 2 ^ 53)%Z -> inject_Z z <= q ->
  Number.leb (Number.Finite (inject_Z z)) (Number.round q) = true.
Proof.
  intros Hz Hq. destruct (Q_sign_cases q) as [Hneg|[Hzero|Hpos]].
  - rewrite (round_neg_case q Hneg).
    assert (0 < - q) as Hv by lra.
    assert (z < 0)%Z as Hz0.
    { apply inject_Z_lt_inv. change (inject_Z 0) with 0. lra. }
    destruct (grid_le (- q) (inject_Z (- z)) Hv) as (r & -> & _ & Hr).
    + rewrite inject_Z_opp. lra.
    + apply on_grid_Z. lia.
    + apply inject_Z_below. lia.
    + apply leb_Finite. rewrite Qred_correct. rewrite inject_Z_opp in Hr. lra.
  - rewrite (round_zero_case q Hzero). apply leb_Finite. lra.
  - rewrite (round_pos_case q Hpos).
    destruct (Z.le_gt_cases z 0) as [Hz0|Hz0].
    + destruct (Number.round_pos q) as [r|] eqn:Hr; [|done].
      apply round_pos_nonneg in Hr; [|done]. apply leb_Finite. rewrite Qred_correct.
      apply inject_Z_le in Hz0. change (inject_Z 0) with 0 in Hz0. lra.
    + pose proof (grid_ge q (inject_Z z) Hpos) as Hg.
      destruct (Number.round_pos q) as [r|]; [|done].
      apply leb_Finite. rewrite Qred_correct.
      apply Hg; [exact Hq|]. apply on_grid_Z. lia.
Qed.

Lemma Qred_inject_Z (z : Z) : Qred (inject_Z z) = inject_Z z.
Proof.
  unfold Qred, inject_Z. pose proof (Z.ggcd_correct_divisors z 1) as H.
  pose proof (Z.ggcd_gcd z 1) as Hg. rewrite Z.gcd_1_r in Hg.
  destruct (Z.ggcd z 1) as [g [a b]]. cbn in *. subst g. destruct H as [-> Hb].
  assert (b = 1%Z) as -> by lia. cbn. f_equal. lia.
Qed.

(** A rational equal to a whole number below [2^53] is read as that number. *)
Lemma round_exact_Z (q : Q) (z : Z) :
  (- 2 ^ 53 < z < 2 ^ 53)%Z -> q == inject_Z z -> Number.round q = Number.Finite (inject_Z z).
Proof.
  intros Hz Hq.
  pose proof (round_le_Z q z Hz ltac:(lra)) as H1.
  pose proof (round_ge_Z q z Hz ltac:(lra)) as H2.
  pose proof (round_canonical q) as Hc.
  destruct (Number.round q) as [r| |]; [|by destruct negative|done].
  apply leb_Finite in H1, H2. f_equal. rewrite <-Hc, <-Qred_inject_Z.
  apply Qred_complete. lra.
Qed.

Lemma of_Z_exact (z : Z) :
  (- 2 ^ 53 < z < 2 ^ 53)%Z -> Number.of_Z z = Number.Finite (inject_Z z).
Proof. intros Hz. by apply round_exact_Z. Qed.

(** Rounding a rational of the normal range: the result is in the same
    range and within [2^-53] of it, relatively. *)
Lemma round_in (q : Q) (lo hi : Z) :
  (-1022 <= lo <= hi)%Z -> (hi < 1024)%Z -> Number.pow2 lo <= q -> q <= Number.pow2 hi ->
  exists r, Number.round q = Number.Finite (Qred r) /\
            Number.pow2 lo <= r <= Number.pow2 hi /\
            r - q <= r * Number.pow2 (-53) /\ q - r <= r * Number.pow2 (-53).
Proof.
  intros Hlo Hhi Hv1 Hv2. pose proof (pow2_pos lo) as Hp.
  assert (0 < q) as Hv by lra.
  destruct (grid_le q (Number.pow2 hi) Hv Hv2) as (r & Hr & _ & Hr2).
  { apply on_grid_pow2. lia. }
  { by apply pow2_lt. }
  pose proof (grid_ge q (Number.pow2 lo) Hv Hv1 (on_grid_pow2 lo ltac:(lia))) as Hr1.
  rewrite Hr in Hr1. exists r. rewrite (round_pos_case q Hv), Hr. split; [done|]. split; [done|].
  apply round_pos_error; [done..|]. eapply Qle_trans; [|exact Hr1]. apply pow2_le. lia.
Qed.

(** ** The decimal a number is written as *)

Lemma pow10_pos (j : Z) : 0 < Number.pow10 j.
Proof. apply Qpower_0_lt. reflexivity. Qed.

Lemma reads_as_true (v d : Q) :
  Number.reads_as v d = true <-> exists r, Number.round d = Number.Finite r /\ r == v.
Proof.
  unfold Number.reads_as. split.
  - destruct (Number.round d) as [r| |]; [|discriminate..].
    intros H%Qeq_bool_iff. by exists r.
  - intros (r & -> & H). by apply Qeq_bool_iff.
Qed.

(** [shortest] returns a decimal that reads back as [v], or (out of fuel) one
    within [10^(j - fuel)] of [v]. *)
Lemma shortest_spec (fuel : nat) (j : Z) (v : Q) :
  Number.reads_as v (Number.shortest fuel j v) = true \/
  (Number.shortest fuel j v - v <= Number.pow10 (j - Z.of_nat fuel) /\
   v - Number.shortest fuel j v <= Number.pow10 (j - Z.of_nat fuel)).
Proof.
  revert j. induction fuel as [|fuel IH]; intros j.
  - right. cbn [Number.shortest]. replace (j - Z.of_nat 0)%Z with j by lia.
    set (s := Qfloor (v / Number.pow10 j)).
    pose proof (pow10_pos j) as Hp.
    assert (v / Number.pow10 j * Number.pow10 j == v) as Hv.
    { field. intros H. rewrite H in Hp. by apply Qlt_irrefl in Hp. }
    pose proof (Qfloor_le (v / Number.pow10 j)) as Hf.
    pose proof (Qlt_floor (v / Number.pow10 j)) as Hc.
    fold s in Hf, Hc. rewrite inject_Z_succ in Hc.
    set (q := v / Number.pow10 j) in *. set (P := Number.pow10 j) in *. clearbody q P.
    assert (inject_Z s * P <= v) by nra. assert (v <= (inject_Z s + 1) * P) by nra.
    destruct (_ ?= _); [destruct (Z.even s)|..]; split; rewrite ?inject_Z_succ; nra.
  - cbn [Number.shortest].
    set (lo := inject_Z (Qfloor (v / Number.pow10 j)) * Number.pow10 j).
    set (hi := inject_Z (Qfloor (v / Number.pow10 j) + 1) * Number.pow10 j).
    destruct (Number.reads_as v lo) eqn:Hlo, (Number.reads_as v hi) eqn:Hhi.
    + left. destruct (_ ?= _); [destruct (Z.even _)|..]; assumption.
    + by left.
    + by left.
    + destruct (IH (j - 1)%Z) as [?|H]; [by left|right].
      by replace (j - Z.of_nat (S fuel))%Z with (j - 1 - Z.of_nat fuel)%Z by lia.
Qed.

Lemma decimal_spec (v : Q) :
  0 < v ->
  Number.reads_as v (Number.decimal v) = true \/
  (Number.decimal v - v <= Number.pow10 (-400) /\ v - Number.decimal v <= Number.pow10 (-400)).
Proof.
  intros [p Hp]%Qnum_pos. unfold Number.decimal, Number.shortest_from. rewrite Hp.
  set (j := Z.max 0 (Number.ilog2 v + 1)).
  destruct (shortest_spec (Z.to_nat (j + 400)) j v) as [H|H]; [by left|right].
  by replace (j - Z.of_nat (Z.to_nat (j + 400)))%Z with (-400)%Z in H by lia.
Qed.

(** A decimal that reads as a number is within [2^-53] of it, relatively. *)
Lemma reads_as_error (d x : Q) :
  Number.pow2 (-1022) <= x -> Number.reads_as x d = true ->
  d - x <= x * Number.pow2 (-53) /\ x - d <= x * Number.pow2 (-53).
Proof.
  intros Hx (r & Hd & Hr)%reads_as_true. pose proof (pow2_pos (-1022)) as Hp.
  destruct (Q_sign_cases d) as [Hneg|[Hzero|Hpos]].
  - exfalso. rewrite (round_neg_case d Hneg) in Hd.
    assert (0 < - d) as Hv by lra.
    destruct (Number.round_pos (- d)) as [r'|] eqn:Hr'; [|discriminate].
    apply round_pos_nonneg in Hr'; [|done]. injection Hd as <-.
    rewrite Qred_correct in Hr. lra.
  - exfalso. rewrite (round_zero_case d Hzero) in Hd. injection Hd as <-. lra.
  - rewrite (round_pos_case d Hpos) in Hd.
    destruct (Number.round_pos d) as [r'|] eqn:Hr'; [|discriminate]. injection Hd as <-.
    rewrite Qred_correct in Hr.
    destruct (round_pos_error d r' Hpos Hr') as [H1 H2]; [lra|].
    rewrite Hr in H1, H2. by split.
Qed.

(** ** Rounding to two decimals *)

Lemma Qfloor_unique (y : Q) (c : Z) : inject_Z c <= y -> y < inject_Z c + 1 -> Qfloor y = c.
Proof.
  intros H1 H2. pose proof (Qfloor_le y) as Hf.
  apply Qfloor_resp_le in H1. rewrite Qfloor_Z in H1.
  assert (inject_Z (Qfloor y) < inject_Z (c + 1)) as H%inject_Z_lt_inv.
  { rewrite inject_Z_succ. lra. }
  lia.
Qed.

Lemma half_away_near (v : Q) (c : Z) :
  0 <= v -> v - inject_Z c < 1 # 2 -> inject_Z c - v <= 1 # 2 -> Numeric.half_away v = c.
Proof.
  intros Hv H1 H2. unfold Numeric.half_away.
  assert (Qfloor (v + (1 # 2)) = c) as Hc by (apply Qfloor_unique; lra).
  destruct v as [[|n|n] d]; cbn [Qnum]; try exact Hc.
  exfalso. revert Hv. unfold Qle. cbn. lia.
Qed.

Lemma half_away_ge (v : Q) (c : Z) :
  inject_Z c <= v -> (0 <= c)%Z -> (c <= Numeric.half_away v)%Z.
Proof.
  intros Hc Hc0. unfold Numeric.half_away.
  assert (c <= Qfloor (v + (1 # 2)))%Z as H.
  { rewrite <-(Qfloor_Z c). apply Qfloor_resp_le. lra. }
  destruct v as [[|n|n] d]; cbn [Qnum]; try exact H.
  exfalso. apply inject_Z_le in Hc0. change (inject_Z 0) with 0 in Hc0.
  assert (0 <= Z.neg n # d) as Hv by lra. revert Hv. unfold Qle. cbn. lia.
Qed.

(** ** The total that is stored *)

Lemma error_chain (a a1 Z x d E : Q) :
  0 < a1 -> 0 < x -> 1 <= Z -> 0 < E -> E <= 1 # 4 ->
  a1 - a <= a1 * E -> a - a1 <= a1 * E ->
  x - a1 * Z <= x * E -> a1 * Z - x <= x * E ->
  d - x <= x * E -> x - d <= x * E ->
  d - a * Z <= 4 * (x * E) /\ a * Z - d <= 4 * (x * E) /\ x <= 2 * (a * Z).
Proof.
  intros Ha1 Hx HZ HE HE4 F1 F2 F3 F4 F5 F6.
  assert (0 < x * E) as HxE by nra.
  assert (a1 * Z <= x * (1 + E)) as G1 by nra.
  assert (x * (1 - E) <= a1 * Z) as G2 by nra.
  assert ((a1 - a) * Z <= a1 * Z * E) as G3 by nra.
  assert ((a - a1) * Z <= a1 * Z * E) as G4 by nra.
  assert (a1 * Z * E <= 2 * (x * E)) as G5 by nra.
  assert (a1 * Z * (1 - E) <= a * Z) as G6 by nra.
  assert (x * (1 - E) * (1 - E) <= a * Z) as G7 by nra.
  assert (x <= 2 * (x * (1 - E) * (1 - E))) as G8 by nra.
  repeat split; nra.
Qed.

Lemma tiny : Number.pow10 (-400) <= Number.pow2 (-7) * Number.pow2 (-53).
Proof. unfold Qle. vm_compute. discriminate. Qed.

Lemma eps_value : Number.pow2 (-53) == 1 # 9007199254740992.
Proof. reflexivity. Qed.

(** The handler multiplies binary64 numbers, the column keeps two decimals
    of what it is handed: what is stored is the exact product of the price
    and the count, in cents, or nothing when that is 10^8 or more. *)
Lemma total_exact (p z : Z) :
  (0 <= p < 10 ^ 10)%Z -> (0 < z < 2 ^ 31)%Z ->
  Numeric.of_number (Number.mul (Number.of_cents p) (Number.of_Z z))
  = if (p * z <? 10 ^ 10)%Z then Some (p * z)%Z else None.
Proof.
  intros Hp Hz. rewrite (of_Z_exact z) by lia.
  destruct (Z.eq_dec p 0%Z) as [->|Hp0].
  { assert (Number.of_cents 0%Z = Number.Finite 0) as -> by reflexivity.
    cbn [Number.mul]. rewrite (round_zero_case (0 * inject_Z z)) by ring. reflexivity. }
  unfold Number.of_cents.
  assert (p # 100 == inject_Z p * (1 # 100)) as Ea.
  { unfold Qeq. cbn. lia. }
  assert (1 <= inject_Z p) as HP1 by (apply (inject_Z_le 1); lia).
  assert (inject_Z p <= inject_Z (10 ^ 10)) as HP2 by (apply inject_Z_le; lia).
  assert (1 <= inject_Z z) as HZ1 by (apply (inject_Z_le 1); lia).
  assert (inject_Z z <= inject_Z (2 ^ 31)) as HZ2 by (apply inject_Z_le; lia).
  set (a := p # 100) in *.
  set (P := inject_Z p) in *. set (Z' := inject_Z z) in *.
  change (inject_Z (10 ^ 10)) with 10000000000 in HP2.
  change (inject_Z (2 ^ 31)) with 2147483648 in HZ2.
  destruct (round_in a (-7) 27) as (a1 & -> & [Ha1 Ha2] & F1 & F2); [lia|lia|..].
  { rewrite Ea. change (Number.pow2 (-7)) with (1 # 128). lra. }
  { rewrite Ea. change (Number.pow2 27) with 134217728. lra. }
  cbn [Number.mul]. set (y := Qred a1 * Z').
  assert (y == a1 * Z') as Ey by (unfold y; by rewrite Qred_correct).
  change (Number.pow2 (-7)) with (1 # 128) in Ha1.
  change (Number.pow2 27) with 134217728 in Ha2.
  destruct (round_in y (-7) 58) as (x & -> & [Hx1 Hx2] & F3 & F4); [lia|lia|..].
  { rewrite Ey. change (Number.pow2 (-7)) with (1 # 128). nra. }
  { rewrite Ey. change (Number.pow2 58) with 288230376151711744. nra. }
  rewrite Ea in F1, F2. rewrite Ey in F3, F4.
  cbn [Numeric.of_number].
  set (d := Number.decimal (Qred x)).
  assert (d - x <= x * Number.pow2 (-53) /\ x - d <= x * Number.pow2 (-53)) as [F5 F6].
  { assert (Number.pow2 (-7) * Number.pow2 (-53) <= x * Number.pow2 (-53)) as Hxe.
    { apply Qmult_le_compat_r; [exact Hx1|apply Qlt_le_weak, pow2_pos]. }
    pose proof tiny as Ht. pose proof (pow2_pos (-7)) as H7.
    assert (0 < Qred x) as Hxpos by (rewrite Qred_correct; lra).
    destruct (decimal_spec (Qred x) Hxpos) as [Hd|[Hd1 Hd2]]; fold d in Hd || fold d in Hd1, Hd2.
    - apply reads_as_error in Hd.
      + by rewrite Qred_correct in Hd.
      + rewrite Qred_correct. eapply Qle_trans; [|exact Hx1]. by apply pow2_le.
    - rewrite Qred_correct in Hd1, Hd2. split; lra. }
  rewrite eps_value in *. set (E := 1 # 9007199254740992) in *.
  change (Number.pow2 (-7)) with (1 # 128) in Hx1.
  destruct (error_chain (P * (1 # 100)) a1 Z' x d E) as (G1 & G2 & G3);
    [lra|lra|lra|reflexivity|unfold E, Qle; cbn; lia|lra..|].
  assert (inject_Z (p * z) == P * Z') as Epz by (by rewrite inject_Z_mult).
  assert (0 <= d * 100) as Hd0 by (unfold E in *; nra).
  destruct (Z.ltb_spec (p * z) (2 ^ 48)) as [Hsmall|Hbig].
  - assert (P * Z' < inject_Z (2 ^ 48)) as Hs.
    { rewrite <-Epz. by apply inject_Z_lt. }
    change (inject_Z (2 ^ 48)) with 281474976710656 in Hs.
    rewrite (half_away_near (d * 100) (p * z)); [|exact Hd0|rewrite Epz; unfold E in *; lra..].
    rewrite Z.abs_eq by nia. reflexivity.
  - assert (inject_Z (2 ^ 48) <= P * Z') as Hs.
    { rewrite <-Epz. by apply inject_Z_le. }
    change (inject_Z (2 ^ 48)) with 281474976710656 in Hs.
    pose proof (half_away_ge (d * 100) (2 ^ 47)) as Hc.
    change (inject_Z (2 ^ 47)) with 140737488355328 in Hc.
    destruct (Z.ltb_spec (p * z) (10 ^ 10)); [lia|].
    destruct (Z.ltb_spec (Z.abs (Numeric.half_away (d * 100))) (10 ^ 10)) as [Habs|]; [|done].
    exfalso. assert (2 ^ 47 <= Numeric.half_away (d * 100))%Z; [|lia].
    apply Hc; [|lia]. unfold E in *. lra.
Qed.

(** ** Whole multiples of the least binary64 *)

Lemma fine_Z (z : Z) : fine (inject_Z z).
Proof.
  exists (z * 2 ^ 1074)%Z. rewrite inject_Z_mult, pow2_Z by lia.
  assert (Number.pow2 1074 * Number.pow2 (-1074) == 1) as H by (by rewrite <-pow2_add).
  rewrite <-Qmult_assoc, H. ring.
Qed.

Lemma fine_sub (a b : Q) : fine a -> fine b -> fine (a - b).
Proof.
  intros [k Hk] [l Hl]. exists (k - l)%Z.
  unfold Zminus. rewrite inject_Z_plus, inject_Z_opp, Hk, Hl. ring.
Qed.

Lemma fine_pos (v : Q) : fine v -> 0 < v -> Number.pow2 (-1074) <= v.
Proof.
  intros [k Hk] Hv. pose proof (pow2_pos (-1074)) as Hp.
  assert (0 < k)%Z as Hk0.
  { apply inject_Z_lt_inv. change (inject_Z 0) with 0.
    destruct (Qlt_le_dec 0 (inject_Z k)) as [?|Hle]; [done|]. exfalso. rewrite Hk in Hv. nra. }
  assert (1 <= inject_Z k) as H1 by (apply (inject_Z_le 1); lia).
  rewrite Hk. nra.
Qed.

(** ** The types of the columns *)

Lemma Int4_eq (a b : Int4.t) : Int4.z a = Int4.z b -> a = b.
Proof. destruct a as [a Ha], b as [b Hb]. cbn. intros ->. f_equal. apply proof_irrel. Qed.

Lemma Int4_range (a : Int4.t) : (-2147483648 <= Int4.z a <= 2147483647)%Z.
Proof.
  destruct a as [a Ha]. cbn. unfold Int4.fits in Ha.
  apply Is_true_true, andb_true_iff in Ha as [?%Z.leb_le ?%Z.leb_le]. lia.
Qed.

Lemma Price_range (p : Price.t) : (0 <= Price.cents p < 10 ^ 10)%Z.
Proof.
  destruct p as [c Hc]. cbn. unfold Price.fits in Hc.
  apply Is_true_true, andb_true_iff in Hc as [?%Z.leb_le ?%Z.ltb_lt]. lia.
Qed.

Lemma Int4_of_Z_z (a : Int4.t) : Int4.of_Z (Int4.z a) = Some a.
Proof.
  unfold Int4.of_Z. destruct (decide _) as [H|H]; [f_equal; by apply Int4_eq|].
  destruct H. apply Int4.range.
Qed.

Lemma Int4_of_Z_Some (v : Z) (a : Int4.t) : Int4.of_Z v = Some a -> Int4.z a = v.
Proof. unfold Int4.of_Z. destruct (decide _); [|discriminate]. by intros [= <-]. Qed.

Lemma Int4_of_Z_fits (v : Z) :
  (-2147483648 <= v <= 2147483647)%Z -> exists a, Int4.of_Z v = Some a /\ Int4.z a = v.
Proof.
  intros Hv. unfold Int4.of_Z. destruct (decide _) as [H|H]; [by eexists|].
  destruct H. unfold Int4.fits. apply Is_true_true, andb_true_iff. split; apply Z.leb_le; lia.
Qed.

Lemma Int4_of_Z_None (v : Z) : (2147483647 < v)%Z -> Int4.of_Z v = None.
Proof.
  intros Hv. destruct (Int4.of_Z v) as [a|] eqn:Ha; [|done].
  apply Int4_of_Z_Some in Ha. pose proof (Int4_range a). lia.
Qed.

Lemma Int4_of_number_Z (v : Z) : Int4.of_number (Number.Finite (inject_Z v)) = Int4.of_Z v.
Proof. cbn [Int4.of_number]. by rewrite Qred_inject_Z. Qed.

Lemma add_canonical (x y : Number.t) : canonical (Number.add x y).
Proof.
  destruct x as [a|s|], y as [b|s'|]; cbn [Number.add canonical]; try done.
  - apply round_canonical.
  - by destruct (Bool.eqb s s').
Qed.

Lemma sub_canonical (x y : Number.t) : canonical (Number.sub x y).
Proof. apply add_canonical. Qed.

(** What an [integer] column takes is a whole number. *)
Lemma Int4_of_number_Some (x : Number.t) (a : Int4.t) :
  canonical x -> Int4.of_number x = Some a -> x = Number.Finite (inject_Z (Int4.z a)).
Proof.
  destruct x as [v| |]; [|discriminate..]. cbn [canonical Int4.of_number]. intros ->.
  destruct v as [n d]. cbn [Qnum Qden].
  destruct (Z.eqb_spec (Z.pos d) 1) as [Hd|]; [|discriminate].
  intros ->%Int4_of_Z_Some. injection Hd as ->. reflexivity.
Qed.

Lemma stock_number (n : Int4.t) : Number.of_Z (Int4.z n) = Number.Finite (inject_Z (Int4.z n)).
Proof. apply of_Z_exact. pose proof (Int4_range n). lia. Qed.

(** ** The arithmetic of the handler *)

Lemma positive_cases (q : Number.t) :
  Number.ltb Number.zero q = true ->
  (exists v, q = Number.Finite v /\ 0 < v) \/ q = Number.Infinity false.
Proof.
  destruct q as [v|[]|]; [|discriminate|by right|discriminate].
  intros H%ltb_Finite. left. by exists v.
Qed.

Lemma sub_Finite (a v : Q) :
  exists t, t == a - v /\ Number.sub (Number.Finite a) (Number.Finite v) = Number.round t.
Proof.
  exists (a + Qred (- v)). split; [|reflexivity]. rewrite Qred_correct. ring.
Qed.

Lemma sub_whole (n z : Z) :
  (- 2 ^ 32 < n - z < 2 ^ 32)%Z ->
  Number.sub (Number.Finite (inject_Z n)) (Number.Finite (inject_Z z))
  = Number.Finite (inject_Z (n - z)).
Proof.
  intros H. destruct (sub_Finite (inject_Z n) (inject_Z z)) as (t & Ht & ->).
  apply round_exact_Z; [lia|]. rewrite Ht. unfold Zminus.
  rewrite inject_Z_plus, inject_Z_opp. ring.
Qed.

Lemma add_whole (n z : Z) :
  (- 2 ^ 32 < n + z < 2 ^ 33)%Z ->
  Number.add (Number.Finite (inject_Z n)) (Number.Finite (inject_Z z))
  = Number.Finite (inject_Z (n + z)).
Proof.
  intros H. cbn [Number.add]. apply round_exact_Z; [lia|]. by rewrite inject_Z_plus.
Qed.

Lemma ltb_whole (n z : Z) :
  Number.ltb (Number.Finite (inject_Z n)) (Number.Finite (inject_Z z)) = (n <? z)%Z.
Proof.
  destruct (Z.ltb_spec n z) as [H|H].
  - apply ltb_Finite. by apply inject_Z_lt.
  - apply ltb_Finite_false. by apply inject_Z_le.
Qed.

(** A decrement that the column takes: the stock test had passed, and what
    is written is a whole number between 0 and the stock. *)
Lemma accepted_decrement (n z' : Int4.t) (written : Q) :
  let quantity := Number.round written in
  let stock := Number.of_Z (Int4.z n) in
  Number.ltb Number.zero quantity = true ->
  Int4.of_number (Number.sub stock quantity) = Some z' -> (0 <= Int4.z z')%Z ->
  Number.ltb stock quantity = false /\ (Int4.z z' <= Int4.z n)%Z /\
  Number.sub stock quantity = Number.Finite (inject_Z (Int4.z z')).
Proof.
  intros quantity stock' Hpos Hwrite Hz'. subst stock'. rewrite stock_number in *.
  pose proof (Int4_range n) as Hn.
  pose proof (Int4_of_number_Some _ _ (sub_canonical _ _) Hwrite) as Hsub.
  pose proof (round_fine written) as Hfine. fold quantity in Hfine.
  destruct (positive_cases _ Hpos) as [(v & Hq & Hv)|Hq]; rewrite Hq in *; [|discriminate].
  split; [|split; [|exact Hsub]].
  - apply ltb_Finite_false. apply Qnot_lt_le. intros Hlt.
    destruct (sub_Finite (inject_Z (Int4.z n)) v) as (t & Ht & Hst). rewrite Hst in Hsub.
    assert (t < 0) as Hneg by lra.
    assert (Number.pow2 (-1074) <= - t) as Htiny.
    { apply fine_pos; [|lra]. destruct (fine_sub v (inject_Z (Int4.z n)) Hfine (fine_Z _))
        as [k Hk]. exists k. rewrite <-Hk, Ht. ring. }
    rewrite (round_neg_case t Hneg) in Hsub.
    pose proof (grid_ge (- t) (Number.pow2 (-1074)) ltac:(lra) Htiny
                  (on_grid_pow2 (-1074) ltac:(lia))) as Hg.
    destruct (Number.round_pos (- t)) as [r|]; [|discriminate].
    injection Hsub as Hr. apply (f_equal (fun x => Qred x)) in Hr.
    rewrite Qred_involutive, Qred_inject_Z in Hr.
    assert (- r == inject_Z (Int4.z z')) as Hr' by (by rewrite <-Hr, Qred_correct).
    pose proof (pow2_pos (-1074)).
    apply inject_Z_le in Hz'. change (inject_Z 0) with 0 in Hz'. lra.
  - destruct (sub_Finite (inject_Z (Int4.z n)) v) as (t & Ht & Hst). rewrite Hst in Hsub.
    pose proof (round_le_Z t (Int4.z n) ltac:(lia) ltac:(lra)) as Hle.
    rewrite Hsub in Hle. apply leb_Finite in Hle. by apply inject_Z_le_inv.
Qed.

(** An increment that the column takes: what is written is a whole number
    at least the stock. *)
Lemma accepted_increment (n z' : Int4.t) (quantity : Number.t) :
  let stock := Number.of_Z (Int4.z n) in
  Number.ltb Number.zero quantity = true ->
  Int4.of_number (Number.add stock quantity) = Some z' ->
  (Int4.z n <= Int4.z z')%Z /\
  Number.add stock quantity = Number.Finite (inject_Z (Int4.z z')).
Proof.
  intros stock' Hpos Hwrite. subst stock'. rewrite stock_number in *.
  pose proof (Int4_range n) as Hn.
  pose proof (Int4_of_number_Some _ _ (add_canonical _ _) Hwrite) as Hadd.
  split; [|exact Hadd].
  destruct (positive_cases _ Hpos) as [(v & Hq & Hv)|Hq]; rewrite Hq in *; [|discriminate].
  cbn [Number.add] in Hadd.
  pose proof (round_ge_Z (inject_Z (Int4.z n) + v) (Int4.z n) ltac:(lia) ltac:(lra)) as Hge.
  rewrite Hadd in Hge. apply leb_Finite in Hge. by apply inject_Z_le_inv.
Qed.

(** What the handler asks to write is not negative. *)
Lemma sub_nonneg (n : Int4.t) (quantity : Number.t) :
  let stock := Number.of_Z (Int4.z n) in
  Number.ltb Number.zero quantity = true -> Number.ltb stock quantity = false ->
  Number.leb Number.zero (Number.sub stock quantity) = true.
Proof.
  intros stock' Hpos Hge. subst stock'. rewrite stock_number in *.
  destruct (positive_cases _ Hpos) as [(v & -> & Hv)| ->]; [|discriminate].
  apply ltb_Finite_false in Hge.
  destruct (sub_Finite (inject_Z (Int4.z n)) v) as (t & Ht & ->).
  apply (round_ge_Z t 0); [lia|]. change (inject_Z 0) with 0. lra.
Qed.

Lemma add_nonneg (n : Int4.t) (quantity : Number.t) :
  let stock := Number.of_Z (Int4.z n) in
  (0 <= Int4.z n)%Z -> Number.ltb Number.zero quantity = true ->
  Number.leb Number.zero (Number.add stock quantity) = true.
Proof.
  intros stock' Hn Hpos. subst stock'. rewrite stock_number.
  destruct (positive_cases _ Hpos) as [(v & -> & Hv)| ->]; [|done].
  cbn [Number.add]. apply (round_ge_Z _ 0); [lia|].
  apply inject_Z_le in Hn. change (inject_Z 0) with 0 in *. lra.
Qed.

Lemma stock_nonneg (n : Int4.t) :
  (0 <= Int4.z n)%Z -> Number.leb Number.zero (Number.of_Z (Int4.z n)) = true.
Proof.
  intros Hn. rewrite stock_number. apply leb_Finite.
  apply inject_Z_le in Hn. by change (inject_Z 0) with 0 in Hn.
Qed.

Local Close Scope Q_scope.

(** ** Tactics *)

(** Case analysis on the answer of the store to the call at hand. *)
Ltac case_answer :=
  match goal with
  | |- context [match (if refused ?w then None else ?x) with _ => _ end] =>
      destruct (refused w) eqn:?; [|destruct x eqn:?]
  end.

Ltac case_answer_as Hrefused Hanswer :=
  match goal with
  | |- context [match (if refused ?w then None else ?x) with _ => _ end] =>
      destruct (refused w) eqn:Hrefused; [|destruct x eqn:Hanswer]
  end.

Ltac no_calls := exists []; split; [by rewrite app_nil_r|by constructor].
Ltac these_calls :=
  eexists; split; [cbn [run fst snd trace logged]; rewrite <-?app_assoc; reflexivity|];
  unfold writes_nonneg;
  repeat (apply Forall_cons; split;
          [let Hw := fresh in
           intros ? Hw; cbn [requested_write] in Hw;
           first [discriminate Hw | injection Hw as <- <-]|]);
  try (by apply Forall_nil).

(** ** The binary64 of the Standard Library *)

(** [Number.round] is the rounding of IEEE 754 division, here on a few
    rationals: a price, a tie, a subnormal, an overflow. *)
Example round_as_SpecFloat :
  Forall (fun '(n, d) => Number.round (n # d) = SpecFloat_number (SpecFloat_div n d))
         [(299, 100%positive); (-7, 10%positive); (1, 3%positive);
          (2 ^ 53 + 1, 1%positive); (2 ^ 53 + 3, 1%positive);
          (3, (2 ^ 1075)%positive); (1, (2 ^ 1075)%positive);
          (2 ^ 1024 - 2 ^ 970, 1%positive); (2 ^ 1024 - 2 ^ 970 - 1, 1%positive)].
Proof. repeat (apply Forall_cons; split; [vm_compute; reflexivity|]). by apply Forall_nil. Qed.

(** The arithmetic of the handler as the Standard Library's IEEE 754
    operations have it, on the numbers of the scenarios: 5 less
    1.0000000000000002, 5 and 0.00000000000000001, 2.99 by 3, 2.49 by 3. *)
Example operations_as_SpecFloat :
  let five := SpecFloat_div 5 1 in
  let three := SpecFloat_div 3 1 in
  SpecFloat_number (SFsub 53 1024 five (SpecFloat_div 4503599627370497 4503599627370496))
    = Number.sub (Number.of_Z 5) (Number.round Scenario.one_and_a_bit) /\
  SpecFloat_number (SFadd 53 1024 five (SpecFloat_div 1 100000000000000000))
    = Number.add (Number.of_Z 5) (Number.round Scenario.a_speck) /\
  SpecFloat_number (SFmul 53 1024 (SpecFloat_div 299 100) three)
    = Number.mul (Number.of_cents 299) (Number.of_Z 3) /\
  SpecFloat_number (SFmul 53 1024 (SpecFloat_div 249 100) three)
    = Number.mul (Number.of_cents 249) (Number.of_Z 3).
Proof. repeat split; vm_compute; reflexivity. Qed.

(** ** The guard *)

Lemma validate_Some (r : PurchaseRequest.t) (sweetId : string) (quantity : Number.t) :
  validate r = Some (sweetId, quantity) <->
  exists written,
    PurchaseRequest.sweetId r = Some sweetId /\ PurchaseRequest.quantity r = Some written /\
    sweetId ≠ "" /\ quantity = Number.round written /\
    Number.ltb Number.zero quantity = true.
Proof.
  assert (forall q, Number.falsy q || Number.leb q Number.zero = false
                    <-> Number.ltb Number.zero q = true) as Hguard.
  { intros [v|[]|]; cbn; try (split; congruence).
    rewrite orb_false_iff, negb_true_iff. split; [tauto|]. intros Hle. split; [|done].
    apply Z.eqb_neq. intros H%Qnum_zero_inv.
    assert (Qle_bool v 0 = true) as E; [|congruence]. apply Qle_bool_iff. by rewrite H. }
  unfold validate. destruct r as [[id|] [written|]]; cbn [PurchaseRequest.sweetId
    PurchaseRequest.quantity]; [|split; [discriminate|intros (?&?&?&_); discriminate]..].
  rewrite <-orb_assoc. split.
  - case_bool_decide as Hid; [discriminate|]. cbn [orb].
    destruct (_ || _) eqn:Hg; [discriminate|]. apply Hguard in Hg.
    intros [= <- <-]. by exists written.
  - intros (written' & [= ->] & [= <-] & Hid & -> & Hpos).
    rewrite (bool_decide_eq_false_2 _ Hid). cbn [orb].
    by rewrite (proj2 (Hguard _) Hpos).
Qed.

Lemma validate_round (sweetId : string) (written : Q) :
  sweetId ≠ "" -> Number.ltb Number.zero (Number.round written) = true ->
  validate (PurchaseRequest.mk (Some sweetId) (Some written))
  = Some (sweetId, Number.round written).
Proof. intros Hid Hpos. apply validate_Some. by exists written. Qed.

Lemma round_whole (k : Z) :
  -2147483648 <= k <= 2147483647 ->
  Number.round (inject_Z k) = Number.Finite (inject_Z k).
Proof. intros Hk. apply (of_Z_exact k). lia. Qed.

Lemma positive_whole (k : Z) :
  0 < k -> Number.ltb Number.zero (Number.Finite (inject_Z k)) = true.
Proof. intros Hk. apply ltb_Finite. by apply (inject_Z_lt 0). Qed.

Lemma validate_of_Z (sweetId : string) (k : Z) :
  sweetId ≠ "" -> 0 < k <= 2147483647 ->
  validate (PurchaseRequest.mk (Some sweetId) (Some (inject_Z k)))
  = Some (sweetId, Number.Finite (inject_Z k)).
Proof.
  intros Hid Hk. rewrite <-(round_whole k) by lia. apply validate_round; [done|].
  rewrite round_whole by lia. apply positive_whole. lia.
Qed.

(** ** Outages *)

Lemma served_refused (n : nat) (w : World) : served (S n) w -> refused w = false.
Proof.
  intros H. specialize (H 0%nat ltac:(lia)). unfold refused.
  destruct (outages w) as [|[] ?]; simpl in *; congruence.
Qed.

Lemma served_logged {X : Type} (c : Call X) (d : Db) (n : nat) (w : World) :
  served (S n) w -> served n (logged c d w).
Proof.
  intros H i Hi. specialize (H (S i) ltac:(lia)). simpl.
  destruct (outages w); simpl in *; [by rewrite lookup_nil|done].
Qed.

Lemma served_quiet (n : nat) (d : Db) : served n (Scenario.quiet d).
Proof. intros i _. cbn. rewrite lookup_nil. discriminate. Qed.

Lemma refused_second {X1 : Type} (c1 : Call X1) (d1 : Db) (w : World) :
  refused (logged c1 d1 w) = nth 1 (outages w) false.
Proof. unfold refused. cbn. by destruct (outages w) as [|? [|? ?]]. Qed.

Lemma refused_third {X1 X2 : Type} (c1 : Call X1) (c2 : Call X2) (d1 d2 : Db) (w : World) :
  refused (logged c2 d2 (logged c1 d1 w)) = nth 2 (outages w) false.
Proof. unfold refused. cbn. by destruct (outages w) as [|? [|? [|? ?]]]. Qed.

Lemma refused_fourth {X1 X2 X3 : Type} (c1 : Call X1) (c2 : Call X2) (c3 : Call X3)
    (d1 d2 d3 : Db) (w : World) :
  refused (logged c3 d3 (logged c2 d2 (logged c1 d1 w))) = nth 3 (outages w) false.
Proof. unfold refused. cbn. by destruct (outages w) as [|? [|? [|? [|? ?]]]]. Qed.

Lemma served_three {X1 X2 : Type} (c1 : Call X1) (c2 : Call X2) (d1 d2 : Db) (w : World) :
  refused w = false -> refused (logged c1 d1 w) = false ->
  refused (logged c2 d2 (logged c1 d1 w)) = false -> served 3 w.
Proof.
  unfold refused. cbn. intros H0 H1 H2 i Hi.
  destruct (outages w) as [|a [|b [|c l]]]; cbn in *; subst;
    destruct i as [|[|[|i]]]; cbn; try done; lia.
Qed.

(** ** Routing *)

(** An authenticated request whose path names [/purchase] is a purchase by
    the user of the token; one that names [/restock] (and not [/purchase])
    is a restock. *)
Lemma serve_dispatch (req : Request) (authHeader user : string) (w : World) :
  method req ≠ "OPTIONS" ->
  authorization req = Some authHeader -> authHeader ≠ "" ->
  served 1 w ->
  sessions (db w) !! remove_first "Bearer " authHeader = Some user ->
  let w' := logged (GetUser (remove_first "Bearer " authHeader)) (db w) w in
  (includes "/purchase" (pathname req) = true ->
     run (serve req) w = run (purchase user req) w') /\
  (includes "/purchase" (pathname req) = false ->
   includes "/restock" (pathname req) = true ->
     run (serve req) w = run (restock user req) w').
Proof.
  intros Hmethod Hauth Hne Hup%served_refused Huser w'. unfold serve.
  rewrite (bool_decide_eq_false_2 _ Hmethod), Hauth, (bool_decide_eq_false_2 _ Hne).
  cbn [run exec]. rewrite Hup, Huser. fold w'.
  split; [intros ->; reflexivity|intros -> ->; reflexivity].
Qed.

Lemma serve_unauthenticated (req : Request) (w : World) :
  method req ≠ "OPTIONS" -> authorization req = None ->
  run (serve req) w = (mkResponse 401 (Error "Missing authorization header"), w).
Proof.
  intros Hmethod Hauth. unfold serve.
  by rewrite (bool_decide_eq_false_2 _ Hmethod), Hauth.
Qed.

Example serve_scenario :
  status (run (serve (Scenario.buy 3)) (Scenario.quiet Scenario.shop)).1 = 200%nat /\
  status (run (serve (Scenario.refill 10)) (Scenario.quiet Scenario.shop)).1 = 403%nat.
Proof. split; vm_compute; reflexivity. Qed.

(** ** Writes and inserts of whole numbers *)

Lemma write_quantity_Some (id : string) (v : Number.t) (d d' : Db) (s : Sweet.t) :
  write_quantity id v d = Some d' -> sweets d !! id = Some s ->
  exists z, Int4.of_number v = Some z /\ 0 <= Int4.z z /\
            d' = set_sweets (insert id (Sweet.set_quantity z s)) d.
Proof.
  unfold write_quantity. intros H Hs. rewrite Hs in H.
  destruct (Int4.of_number v) as [z|] eqn:Hz; [|discriminate].
  destruct (Z.leb_spec 0 (Int4.z z)); [|discriminate].
  injection H as <-. by exists z.
Qed.

Lemma write_quantity_whole (id : string) (z : Int4.t) (d : Db) (s : Sweet.t) :
  sweets d !! id = Some s -> 0 <= Int4.z z ->
  write_quantity id (Number.Finite (inject_Z (Int4.z z))) d
  = Some (set_sweets (insert id (Sweet.set_quantity z s)) d).
Proof.
  intros Hs Hz. unfold write_quantity. rewrite Int4_of_number_Z, Int4_of_Z_z, Hs.
  by destruct (Z.leb_spec 0 (Int4.z z)); [|lia].
Qed.

Lemma write_quantity_above (id : string) (z : Z) (d : Db) :
  2147483647 < z -> write_quantity id (Number.Finite (inject_Z z)) d = None.
Proof. intros Hz. unfold write_quantity. by rewrite Int4_of_number_Z, Int4_of_Z_None. Qed.

Lemma set_quantity_back (s : Sweet.t) (z : Int4.t) :
  Sweet.set_quantity (Sweet.quantity s) (Sweet.set_quantity z s) = s.
Proof. by destruct s. Qed.

Lemma set_sweets_restore (id : string) (s s' : Sweet.t) (z : Int4.t) (d : Db) :
  sweets d !! id = Some s ->
  set_sweets (insert id (Sweet.set_quantity (Sweet.quantity s) (Sweet.set_quantity z s)))
             (set_sweets (insert id s') d) = d.
Proof.
  intros Hs. destruct d as [se pr sw pu]. unfold set_sweets; simpl in *.
  f_equal. rewrite insert_insert_eq, set_quantity_back. by apply insert_id.
Qed.

(** The write that undoes a decrement, when it is served, puts the tables
    back. *)
Lemma undo_accepted (id : string) (s : Sweet.t) (z : Int4.t) (d : Db) :
  sweets d !! id = Some s -> 0 <= Int4.z (Sweet.quantity s) ->
  write_quantity id (Number.of_Z (Int4.z (Sweet.quantity s)))
                 (set_sweets (insert id (Sweet.set_quantity z s)) d)
  = Some d.
Proof.
  intros Hs Hn. rewrite stock_number.
  rewrite (write_quantity_whole id _ _ (Sweet.set_quantity z s)); [|by cbn [sweets set_sweets];
    rewrite lookup_insert_eq|done].
  f_equal. by apply set_sweets_restore.
Qed.

Lemma insert_purchase_Some (uid id : string) (q total : Number.t)
    (d d' : Db) (p : Purchase.t) :
  insert_purchase uid id q total d = Some (p, d') ->
  exists (z : Int4.t) (c : Z),
    Int4.of_number q = Some z /\ 0 < Int4.z z /\
    Numeric.of_number total = Some c /\ 0 <= c /\ is_Some (sweets d !! id) /\
    p = Purchase.mk uid id (Int4.z z) c /\ d' = add_purchase p d.
Proof.
  unfold insert_purchase. destruct (Int4.of_number q) as [z|]; [|discriminate].
  destruct (Numeric.of_number total) as [c|]; [|discriminate].
  destruct (Z.ltb_spec 0 (Int4.z z)); [|discriminate].
  destruct (Z.leb_spec 0 c); [|discriminate].
  case_bool_decide; [|discriminate]. intros [= <- <-]. by exists z, c.
Qed.

(** The insert of a whole count at a price: the row holds the count and the
    exact total. *)
Lemma insert_purchase_whole (uid id : string) (price : Price.t) (q : Z) (d : Db) :
  0 < q <= 2147483647 -> is_Some (sweets d !! id) ->
  insert_purchase uid id (Number.Finite (inject_Z q))
    (Number.mul (Number.of_cents (Price.cents price)) (Number.Finite (inject_Z q))) d
  = if Price.cents price * q <? 10 ^ 10
    then let p := Purchase.mk uid id q (Price.cents price * q) in Some (p, add_purchase p d)
    else None.
Proof.
  intros Hq Hid. unfold insert_purchase.
  destruct (Int4_of_Z_fits q ltac:(lia)) as (z & Hz & Hzq).
  rewrite Int4_of_number_Z, Hz, <-(of_Z_exact q) by lia.
  assert (0 <= Price.cents price < 10 ^ 10) as Hp.
  { destruct price as [c Hc]. cbn. unfold Price.fits in Hc.
    apply Is_true_true, andb_true_iff in Hc as [?%Z.leb_le ?%Z.ltb_lt]. lia. }
  rewrite total_exact by lia.
  destruct (Z.ltb_spec (Price.cents price * q) (10 ^ 10)); [|done].
  rewrite Hzq. destruct (Z.ltb_spec 0 q); [|lia].
  destruct (Z.leb_spec 0 (Price.cents price * q)); [|nia].
  by rewrite bool_decide_eq_true_2.
Qed.

(** ** One purchase, one restock: the ways through *)

Lemma inject_Z_inj (a b : Z) : inject_Z a = inject_Z b -> a = b.
Proof. by intros [= ->]. Qed.

(** A purchase of a whole count that the product holds, at a total that the
    column takes, the store serving the three calls. *)
Lemma purchase_served
    (user sweetId : string) (sweet : Sweet.t) (q : Z) (z' : Int4.t)
    (req : Request) (r : PurchaseRequest.t) (w : World) :
  let n := Int4.z (Sweet.quantity sweet) in
  let price := Price.cents (Sweet.price sweet) in
  let totalPrice := Number.mul (Number.of_cents price) (Number.Finite (inject_Z q)) in
  let p := Purchase.mk user sweetId q (price * q) in
  let decremented := set_sweets (insert sweetId (Sweet.set_quantity z' sweet)) (db w) in
  json req = Some r -> validate r = Some (sweetId, Number.Finite (inject_Z q)) ->
  sweets (db w) !! sweetId = Some sweet -> 0 < q <= n -> Int4.z z' = n - q ->
  price * q < 10 ^ 10 -> served 3 w ->
  run (purchase user req) w
  = (mkResponse 200 (PurchaseSuccessful p (Number.Finite (inject_Z (n - q)))),
     logged (InsertPurchase user sweetId (Number.Finite (inject_Z q)) totalPrice)
       (add_purchase p decremented)
       (logged (UpdateQuantity sweetId (Number.Finite (inject_Z (n - q)))) decremented
          (logged (SelectSweet sweetId) (db w) w))).
Proof.
  intros n price totalPrice p decremented Hjson Hval Hsweet Hq Hz' Htotal Hup.
  pose proof (served_refused _ _ Hup) as H1.
  pose proof (served_logged (SelectSweet sweetId) (db w) _ _ Hup) as Hup1.
  pose proof (served_refused _ _ Hup1) as H2.
  pose proof (served_logged (UpdateQuantity sweetId (Number.Finite (inject_Z (n - q))))
                decremented _ _ Hup1) as Hup2.
  pose proof (served_refused _ _ Hup2) as H3.
  pose proof (Int4_range (Sweet.quantity sweet)) as Hn. fold n in Hn.
  unfold purchase. rewrite Hjson, Hval. cbn [run exec]. rewrite H1, Hsweet.
  rewrite stock_number. fold n. rewrite ltb_whole.
  destruct (Z.ltb_spec n q) as [|_]; [lia|].
  rewrite sub_whole by lia. cbn [run exec]. rewrite H2. cbn [db logged].
  rewrite <-Hz'. rewrite (write_quantity_whole _ _ _ _ Hsweet) by lia. rewrite Hz'.
  fold decremented. cbn [negb run exec]. rewrite H3. cbn [db logged].
  rewrite insert_purchase_whole; [|lia|].
  - destruct (Z.ltb_spec (Price.cents (Sweet.price sweet) * q) (10 ^ 10));
      [|unfold price in *; lia]. reflexivity.
  - unfold decremented. cbn [sweets set_sweets]. by rewrite lookup_insert_eq.
Qed.

Ltac untouched :=
  left; cbn [run fst snd status default from_option id negb]; split; [reflexivity|discriminate].

(** The tables after a purchase: as before (and the answer is not 200), or
    with the quantity lowered and the answer "Failed to record purchase"
    (the undoing write was refused), or with the quantity lowered by a whole
    count, the purchase recorded at the exact total, and the answer 200. *)
Lemma purchase_effect (user : string) (req : Request) (w : World) :
  (db (run (purchase user req) w).2 = db w /\ status (run (purchase user req) w).1 ≠ 200%nat)
  \/ exists (sweetId : string) (sweet : Sweet.t) (r : PurchaseRequest.t)
            (quantity : Number.t) (z' : Int4.t),
       json req = Some r /\ validate r = Some (sweetId, quantity) /\
       sweets (db w) !! sweetId = Some sweet /\
       let n := Int4.z (Sweet.quantity sweet) in
       let price := Price.cents (Sweet.price sweet) in
       Number.sub (Number.of_Z n) quantity = Number.Finite (inject_Z (Int4.z z')) /\
       0 <= Int4.z z' <= n /\
       let decremented := set_sweets (insert sweetId (Sweet.set_quantity z' sweet)) (db w) in
       ((run (purchase user req) w).1 = mkResponse 500 (Error "Failed to record purchase") /\
        db (run (purchase user req) w).2 = decremented /\
        served 2 w /\ nth 3 (outages w) false = true)
       \/ (exists q : Z,
             quantity = Number.Finite (inject_Z q) /\ 0 < q <= n /\ Int4.z z' = n - q /\
             price * q < 10 ^ 10 /\
             let p := Purchase.mk user sweetId q (price * q) in
             (run (purchase user req) w).1
               = mkResponse 200 (PurchaseSuccessful p (Number.Finite (inject_Z (n - q)))) /\
             db (run (purchase user req) w).2 = add_purchase p decremented /\
             served 3 w).
Proof.
  unfold purchase.
  destruct (json req) as [r|] eqn:Hjson; [|by left].
  destruct (validate r) as [[sweetId quantity]|] eqn:Hval; [|by left].
  pose proof Hval as (written & _ & _ & _ & Hround & Hpos)%validate_Some.
  cbn [run exec].
  destruct (refused w) eqn:Hr0; [by left|].
  destruct (sweets (db w) !! sweetId) as [sweet|] eqn:Hsweet; [|by left].
  destruct (Number.ltb (Number.of_Z _) quantity) eqn:Hlt; [untouched|].
  cbn [run exec]. case_answer_as Hr1 Hwrite; cbn [negb run exec]; [by left| |by left].
  cbn [db logged] in Hwrite.
  destruct (write_quantity_Some _ _ _ _ _ Hwrite Hsweet) as (z' & Hz' & Hz0 & ->).
  pose proof Hz' as Hdec. rewrite Hround in Hdec.
  apply accepted_decrement in Hdec as (_ & Hle & Hsub); [|by rewrite <-Hround|done].
  rewrite <-Hround in Hsub.
  pose proof (Int4_range (Sweet.quantity sweet)) as Hn.
  assert (served 2 w) as Hup2.
  { intros i Hi. unfold refused in Hr0, Hr1. cbn in Hr1.
    destruct (outages w) as [|a [|b l]]; cbn in *; subst;
      destruct i as [|[|i]]; cbn; try done; lia. }
  set (decremented := set_sweets (insert sweetId (Sweet.set_quantity z' sweet)) (db w)) in *.
  set (stock := Number.of_Z (Int4.z (Sweet.quantity sweet))) in *.
  set (total := Number.mul (Number.of_cents (Price.cents (Sweet.price sweet))) quantity).
  set (w3 := logged (InsertPurchase user sweetId quantity total) decremented
               (logged (UpdateQuantity sweetId (Number.sub stock quantity)) decremented
                  (logged (SelectSweet sweetId) (db w) w))).
  assert (
    let res := run (let* _ := await (UpdateQuantity sweetId stock) in
                    Ret (mkResponse 500 (Error "Failed to record purchase"))) w3 in
    (db res.2 = db w /\ status res.1 ≠ 200%nat) \/
    (res.1 = mkResponse 500 (Error "Failed to record purchase") /\
     db res.2 = decremented /\ nth 3 (outages w) false = true)) as Hundo.
  { unfold w3. cbn [run exec]. rewrite refused_fourth. cbn [db logged].
    destruct (nth 3 (outages w) false); [by right|].
    unfold decremented, stock. rewrite (undo_accepted _ _ _ _ Hsweet) by lia. by left. }
  case_answer_as Hr2 Hinsert.
  - destruct Hundo as [?|(?&?&?)]; [by left|].
    right. exists sweetId, sweet, r, quantity, z'. repeat split; [done..|lia|by left].
  - destruct p as [p d']. cbn [db logged] in Hinsert.
    destruct (insert_purchase_Some _ _ _ _ _ _ _ Hinsert)
      as (zq & c & Hzq & Hzq0 & Hc & _ & _ & -> & ->).
    rewrite Hround in Hzq. apply Int4_of_number_Some in Hzq; [|apply round_canonical].
    rewrite <-Hround in Hzq. clear Hround Hundo. subst total w3. subst quantity.
    pose proof (Int4_range zq) as Hzqr.
    unfold stock in *.
    rewrite stock_number, sub_whole in Hsub by lia.
    injection Hsub as Hsub.
    pose proof (Price_range (Sweet.price sweet)) as Hp.
    rewrite <-(of_Z_exact (Int4.z zq)), total_exact in Hc by lia.
    destruct (Z.ltb_spec (Price.cents (Sweet.price sweet) * Int4.z zq) (10 ^ 10));
      [|discriminate].
    injection Hc as <-.
    right. exists sweetId, sweet, r, (Number.Finite (inject_Z (Int4.z zq))), z'.
    repeat split; [done..|by rewrite stock_number, sub_whole, Hsub by lia|done|lia|right].
    exists (Int4.z zq). rewrite stock_number, sub_whole by lia.
    cbn [run fst snd db logged]. repeat split; [lia..|].
    eapply served_three; eassumption.
  - destruct Hundo as [?|(?&?&?)]; [by left|].
    right. exists sweetId, sweet, r, quantity, z'. repeat split; [done..|lia|by left].
Qed.


(** The tables after a restock: as before (and the answer is not 200), or
    with the quantity raised to the whole number that the sum rounds to,
    for an administrator, and the answer 200. *)
Lemma restock_effect (user : string) (req : Request) (w : World) :
  (db (run (restock user req) w).2 = db w /\ status (run (restock user req) w).1 ≠ 200%nat)
  \/ exists (sweetId : string) (sweet : Sweet.t) (r : PurchaseRequest.t)
            (quantity : Number.t) (z' : Int4.t),
       user_profiles (db w) !! user = Some true /\
       json req = Some r /\ validate r = Some (sweetId, quantity) /\
       sweets (db w) !! sweetId = Some sweet /\
       let n := Int4.z (Sweet.quantity sweet) in
       Number.add (Number.of_Z n) quantity = Number.Finite (inject_Z (Int4.z z')) /\
       0 <= Int4.z z' /\ n <= Int4.z z' /\ served 3 w /\
       (run (restock user req) w).1
         = mkResponse 200 (RestockSuccessful (Sweet.set_quantity z' sweet)
                                             (Number.Finite (inject_Z (Int4.z z')))) /\
       db (run (restock user req) w).2
         = set_sweets (insert sweetId (Sweet.set_quantity z' sweet)) (db w).
Proof.
  unfold restock. cbn [run exec].
  destruct (refused w) eqn:Hr0; [untouched|].
  destruct (user_profiles (db w) !! user) as [[]|] eqn:Hadmin;
    cbn [default from_option id negb]; [|untouched..].
  destruct (json req) as [r|] eqn:Hjson; [|untouched].
  destruct (validate r) as [[sweetId quantity]|] eqn:Hval; [|untouched].
  pose proof Hval as (written & _ & _ & _ & Hround & Hpos)%validate_Some.
  cbn [run exec]. destruct (refused (logged _ _ _)) eqn:Hr1; [untouched|]. cbn [db logged].
  destruct (sweets (db w) !! sweetId) as [sweet|] eqn:Hsweet; [|untouched].
  cbn [fmap option_fmap option_map run exec].
  case_answer_as Hr2 Hwrite; [untouched| |untouched].
  cbn [db logged] in Hwrite.
  destruct (write_quantity_Some _ _ _ _ _ Hwrite Hsweet) as (z' & Hz' & Hz0 & ->).
  destruct (accepted_increment _ _ _ Hpos Hz') as [Hge Hadd].
  right. exists sweetId, sweet, r, quantity, z'. cbn [sweets set_sweets].
  rewrite lookup_insert_eq, Hadd. cbn [run fst snd db logged]. repeat split; try done.
  eapply served_three; eassumption.
Qed.

(** The ways of a request through [serve]. *)
Lemma serve_cases (req : Request) (w : World) :
  run (serve req) w = (mkResponse 200 Empty, w) /\ method req = "OPTIONS"
  \/ run (serve req) w = (mkResponse 401 (Error "Missing authorization header"), w)
  \/ exists authHeader,
       authorization req = Some authHeader /\ authHeader ≠ "" /\ method req ≠ "OPTIONS" /\
       let token := remove_first "Bearer " authHeader in
       let w' := logged (GetUser token) (db w) w in
       (refused w = true \/ sessions (db w) !! token = None) /\
         run (serve req) w = (mkResponse 401 (Error "Invalid authorization token"), w')
       \/ exists user,
            refused w = false /\ sessions (db w) !! token = Some user /\
            (includes "/purchase" (pathname req) = true /\
               run (serve req) w = run (purchase user req) w'
             \/ includes "/purchase" (pathname req) = false /\
                includes "/restock" (pathname req) = true /\
                  run (serve req) w = run (restock user req) w'
             \/ includes "/purchase" (pathname req) = false /\
                includes "/restock" (pathname req) = false /\
                  run (serve req) w = (mkResponse 404 (Error "Invalid endpoint"), w')).
Proof.
  unfold serve. case_bool_decide as Hmethod; [by left|]. right.
  destruct (authorization req) as [authHeader|] eqn:Hauth; [|by left].
  case_bool_decide as Hempty; [by left|]. right.
  exists authHeader. repeat split; [done..|]. cbn [run exec].
  destruct (refused w) eqn:Hr0; [left; split; [by left|done]|].
  destruct (sessions (db w) !! _) as [user|] eqn:Huser; [|left; split; [by right|done]].
  right. exists user. repeat split; [done..|].
  destruct (includes "/purchase" _); [by left|]. right.
  destruct (includes "/restock" _); [by left|by right].
Qed.

Lemma db_logged {X : Type} (c : Call X) (d : Db) (w : World) : db (logged c d w) = d.
Proof. reflexivity. Qed.

(** ** Restock *)

(** C10. A restock call by a caller who is not an administrator is answered
    403 "Admin access required" whatever its body (valid, invalid or not
    even JSON) and whether or not the product exists; the only call made is
    the profile lookup, so the product is not read, and the tables are left
    as they were. *)
Theorem restock_requires_admin (user : string) (req : Request) (w : World) :
  user_profiles (db w) !! user ≠ Some true ->
  (run (restock user req) w).1 = mkResponse 403 (Error "Admin access required") /\
  db (run (restock user req) w).2 = db w /\
  trace (run (restock user req) w).2 = trace w ++ [Log (SelectProfile user)].
Proof.
  intros Hadmin. unfold restock. cbn [run exec].
  destruct (refused w); [done|].
  destruct (user_profiles (db w) !! user) as [[]|]; [congruence|done..].
Qed.

Lemma restock_requires_admin_witness :
  (run (restock "ann" (Scenario.refill 10)) (Scenario.quiet Scenario.shop)).1
    = mkResponse 403 (Error "Admin access required") /\
  sweets (db (run (restock "ann" (Scenario.refill 10)) (Scenario.quiet Scenario.shop)).2) !! "p1"
    = Some Scenario.p1.
Proof.
  destruct (restock_requires_admin "ann" (Scenario.refill 10) (Scenario.quiet Scenario.shop))
    as (Hr & Hd & _).
  - vm_compute. discriminate.
  - split; [exact Hr|]. rewrite Hd. reflexivity.
Defined.




(** ** Purchase: the checks before any write *)

Lemma positive_above_stock (n : Int4.t) (quantity : Number.t) :
  0 <= Int4.z n -> Number.ltb (Number.of_Z (Int4.z n)) quantity = true ->
  Number.ltb Number.zero quantity = true.
Proof.
  intros Hn. rewrite stock_number. destruct quantity as [v|[]|]; try done.
  unfold Number.zero. rewrite !ltb_Finite. intros Hlt. eapply Qle_lt_trans; [|exact Hlt].
  by apply (inject_Z_le 0).
Qed.

(** C8. A purchase of more than an existing product holds is answered 400
    with [available] set to the quantity the product holds; nothing but the
    read of the product has happened. *)
Theorem purchase_insufficient_stock
    (user sweetId : string) (written : Q) (sweet : Sweet.t) (req : Request) (w : World) :
  json req = Some (PurchaseRequest.mk (Some sweetId) (Some written)) ->
  sweetId ≠ "" ->
  sweets (db w) !! sweetId = Some sweet -> 0 <= Int4.z (Sweet.quantity sweet) ->
  served 1 w ->
  Number.ltb (Number.of_Z (Int4.z (Sweet.quantity sweet))) (Number.round written) = true ->
  (run (purchase user req) w).1
    = mkResponse 400 (InsufficientStock (Int4.z (Sweet.quantity sweet))) /\
  db (run (purchase user req) w).2 = db w /\
  trace (run (purchase user req) w).2 = trace w ++ [Log (SelectSweet sweetId)].
Proof.
  intros Hjson Hid Hsweet Hn Hup%served_refused Hlt.
  pose proof (validate_round sweetId written Hid (positive_above_stock _ _ Hn Hlt)) as Hval.
  unfold purchase. rewrite Hjson, Hval. cbn [run exec]. by rewrite Hup, Hsweet, Hlt.
Qed.

Lemma purchase_insufficient_stock_witness :
  (run (purchase "ann" (Scenario.buy 5)) (Scenario.quiet Scenario.shop_left)).1
  = mkResponse 400 (InsufficientStock 2).
Proof.
  refine (proj1 (purchase_insufficient_stock "ann" "p1" (inject_Z 5)
                   Scenario.p1_left (Scenario.buy 5) _ _ _ _ _ _ _)).
  - reflexivity.
  - discriminate.
  - reflexivity.
  - simpl; lia.
  - apply served_quiet.
  - vm_compute. reflexivity.
Defined.




(** ** Purchase: quantities that are not positive integers *)






(** ** Purchase: the successful path *)

(** C2. A successful purchase (answer 200) of a positive whole count [q]
    from a product holding [n >= q], at a price of [price] cents: the row is
    the same product now holding [n - q], the answer carries
    [remainingStock = n - q], and exactly one row has been added to
    [purchases], of [q] units by the caller, whose [total_price] is
    [price * q] cents: the price read times [q], exactly.  The calls are one
    read, one write and one insert. *)
Theorem purchase_success
    (user sweetId : string) (sweet : Sweet.t) (q : Z) (req : Request) (w : World) :
  json req = Some (PurchaseRequest.mk (Some sweetId) (Some (inject_Z q))) ->
  0 < q ->
  sweets (db w) !! sweetId = Some sweet -> q <= Int4.z (Sweet.quantity sweet) ->
  status (run (purchase user req) w).1 = 200%nat ->
  let n := Int4.z (Sweet.quantity sweet) in
  let price := Price.cents (Sweet.price sweet) in
  let p := Purchase.mk user sweetId q (price * q) in
  exists sweet' : Sweet.t,
    Int4.z (Sweet.quantity sweet') = n - q /\ same_product sweet sweet' /\
    (run (purchase user req) w).1
      = mkResponse 200 (PurchaseSuccessful p (Number.Finite (inject_Z (n - q)))) /\
    sweets (db (run (purchase user req) w).2) = <[sweetId := sweet']> (sweets (db w)) /\
    purchases (db (run (purchase user req) w).2) = purchases (db w) ++ [p] /\
    trace (run (purchase user req) w).2
      = trace w ++ [Log (SelectSweet sweetId);
                    Log (UpdateQuantity sweetId (Number.Finite (inject_Z (n - q))));
                    Log (InsertPurchase user sweetId (Number.Finite (inject_Z q))
                           (Number.mul (Number.of_cents price) (Number.Finite (inject_Z q))))].
Proof.
  intros Hjson Hq Hsweet Hle Hstatus n price p.
  pose proof (Int4_range (Sweet.quantity sweet)) as Hn. fold n in Hn, Hle.
  destruct (purchase_effect user req w)
    as [[_ Hno]|(sweetId' & sweet0 & r & quantity & z' & Hjson' & Hval & Hsweet' & Hrest)];
    [done|].
  rewrite Hjson in Hjson'. injection Hjson' as <-.
  pose proof Hval as (written & [= <-] & [= <-] & _ & Hround & _)%validate_Some.
  rewrite round_whole in Hround by lia. subst quantity.
  rewrite Hsweet in Hsweet'. injection Hsweet' as <-.
  cbn zeta in Hrest. fold n price in Hrest.
  destruct Hrest as (_ & _ & [(Hanswer & _)|(q' & Hq' & Hq'n & Hz' & Htotal & _ & _ & Hup)]).
  { rewrite Hanswer in Hstatus. discriminate. }
  injection Hq' as <-.
  exists (Sweet.set_quantity z' sweet).
  rewrite (purchase_served user sweetId sweet q z' req _ w Hjson Hval Hsweet); try done.
  cbn [fst snd db trace logged sweets purchases set_sweets add_purchase
       Sweet.quantity Sweet.set_quantity].
  fold n price p. rewrite <-!app_assoc. by repeat split.
Qed.

Lemma purchase_success_witness :
  exists sweet' : Sweet.t,
    Int4.z (Sweet.quantity sweet') = 2 /\
    (run (purchase "ann" (Scenario.buy 3)) (Scenario.quiet Scenario.shop)).1
      = mkResponse 200 (PurchaseSuccessful (Purchase.mk "ann" "p1" 3 897) (Number.Finite 2)) /\
    purchases (db (run (purchase "ann" (Scenario.buy 3)) (Scenario.quiet Scenario.shop)).2)
      = [Purchase.mk "ann" "p1" 3 897].
Proof.
  destruct (purchase_success "ann" "p1" Scenario.p1 3 (Scenario.buy 3)
              (Scenario.quiet Scenario.shop))
    as (sweet' & Hq & _ & Ha & _ & Hp & _);
    [reflexivity|lia|reflexivity|cbn; lia|vm_compute; reflexivity|].
  exists sweet'. split; [exact Hq|]. split; [exact Ha|exact Hp].
Defined.

(** ** Purchase: the insert fails after the decrement *)

(** C3, as the code has it. A purchase that passes the checks, whose
    decrement is accepted by the store and whose insert is not (refused, or
    rejected by the table): the answer is 500 "Failed to record purchase" and
    the handler's last call is a write of the quantity it had read.  It does
    not look at the outcome of that call: if the call is served the tables
    are back to what they were before the purchase; if it is refused they
    stay with the decremented quantity and no purchase row. *)
Theorem purchase_compensates
    (user sweetId : string) (quantity : Number.t) (sweet : Sweet.t) (decremented : Db)
    (req : Request) (r : PurchaseRequest.t) (w : World) :
  let n := Number.of_Z (Int4.z (Sweet.quantity sweet)) in
  let totalPrice := Number.mul (Number.of_cents (Price.cents (Sweet.price sweet))) quantity in
  json req = Some r -> validate r = Some (sweetId, quantity) ->
  served 2 w ->
  sweets (db w) !! sweetId = Some sweet ->
  write_quantity sweetId (Number.sub n quantity) (db w) = Some decremented ->
  nth 2 (outages w) false = true
    \/ insert_purchase user sweetId quantity totalPrice decremented = None ->
  (run (purchase user req) w).1 = mkResponse 500 (Error "Failed to record purchase") /\
  trace (run (purchase user req) w).2
    = trace w ++ [Log (SelectSweet sweetId);
                  Log (UpdateQuantity sweetId (Number.sub n quantity));
                  Log (InsertPurchase user sweetId quantity totalPrice);
                  Log (UpdateQuantity sweetId n)] /\
  db (run (purchase user req) w).2
    = if nth 3 (outages w) false then decremented else db w.
Proof.
  intros n totalPrice Hjson Hval Hup Hsweet Hwrite Hinsert.
  pose proof (served_refused _ _ Hup) as Hup0.
  pose proof (served_refused _ _ (served_logged (SelectSweet sweetId) (db w) _ _ Hup)) as Hup1.
  destruct (write_quantity_Some _ _ _ _ _ Hwrite Hsweet) as (z' & Hz' & Hz0 & Hdec).
  pose proof Hval as (written & _ & _ & _ & Hround & Hpos)%validate_Some.
  subst n. rewrite Hround in Hz'.
  apply accepted_decrement in Hz' as (Hge & Hle & _); [|by rewrite <-Hround|done].
  rewrite <-Hround in Hge.
  unfold purchase. rewrite Hjson, Hval. cbn [run exec].
  rewrite Hup0, Hsweet, Hge. cbn [run exec].
  rewrite Hup1. cbn [db logged]. rewrite Hwrite. cbn [negb run exec].
  rewrite refused_third. fold totalPrice. cbn [db logged].
  assert ((if nth 2 (outages w) false then None
           else insert_purchase user sweetId quantity totalPrice decremented) = None) as ->.
  { destruct Hinsert as [->| ->]; [done|by destruct (nth 2 _ _)]. }
  cbn [run exec]. rewrite refused_fourth. cbn [db logged fst snd trace].
  destruct (nth 3 (outages w) false).
  - cbn. rewrite <-!app_assoc. done.
  - rewrite Hdec, (undo_accepted _ _ _ _ Hsweet) by lia.
    cbn. rewrite <-!app_assoc. done.
Qed.

Lemma purchase_compensates_witness :
  (run (purchase "ann" (Scenario.buy 3)) insert_refused).1
    = mkResponse 500 (Error "Failed to record purchase") /\
  db (run (purchase "ann" (Scenario.buy 3)) insert_refused).2 = Scenario.shop.
Proof.
  pose proof (validate_of_Z "p1" 3 ltac:(discriminate) ltac:(lia)) as Hval.
  assert (served 2 insert_refused) as Hup.
  { intros [|[|i]] Hi; [discriminate..|lia]. }
  destruct (purchase_compensates "ann" "p1" (Number.Finite (inject_Z 3)) Scenario.p1
              Scenario.shop_left
              (Scenario.buy 3) _ insert_refused eq_refl Hval Hup eq_refl eq_refl
              (or_introl eq_refl))
    as (Hanswer & _ & Hdb).
  split; [exact Hanswer|exact Hdb].
Defined.

(** C3, as stated, fails when the compensating write is refused too: the
    caller is told 500, the product holds 2 where it held 5, and no purchase
    is recorded. *)
Lemma purchase_not_restored :
  (run (purchase "ann" (Scenario.buy 3)) insert_and_undo_refused).1
    = mkResponse 500 (Error "Failed to record purchase") /\
  sweets (db insert_and_undo_refused) !! "p1" = Some Scenario.p1 /\
  stock "p1" (db insert_and_undo_refused) = Some 5 /\
  sweets (db (run (purchase "ann" (Scenario.buy 3)) insert_and_undo_refused).2) !! "p1"
    = Some Scenario.p1_left /\
  stock "p1" (db (run (purchase "ann" (Scenario.buy 3)) insert_and_undo_refused).2) = Some 2 /\
  purchases (db (run (purchase "ann" (Scenario.buy 3)) insert_and_undo_refused).2) = [] /\
  map is_read (trace (run (purchase "ann" (Scenario.buy 3)) insert_and_undo_refused).2)
    = [true; false; false; false].
Proof. repeat split; vm_compute; reflexivity. Qed.

(** ** Quantities stay non-negative *)

Lemma stocked_write_quantity (id id' : string) (v : Number.t) (d d' : Db) :
  write_quantity id' v d = Some d' -> stocked id d -> stocked id d'.
Proof.
  unfold write_quantity. destruct (Int4.of_number v) as [z|]; [|discriminate].
  destruct (sweets d !! id') as [s'|] eqn:Hs'; [|by intros [= <-]].
  destruct (Z.leb_spec 0 (Int4.z z)) as [Hz|]; [|discriminate].
  intros [= <-] Hd s. cbn [sweets set_sweets]. rewrite lookup_insert.
  case_decide; [|apply Hd]. by intros [= <-].
Qed.

Lemma sweets_insert_purchase (uid id : string) (q total : Number.t)
    (d d' : Db) (p : Purchase.t) :
  insert_purchase uid id q total d = Some (p, d') -> sweets d' = sweets d.
Proof. by intros (z & c & _ & _ & _ & _ & _ & _ & ->)%insert_purchase_Some. Qed.

Lemma stocked_insert_purchase (id uid id' : string) (q total : Number.t)
    (d d' : Db) (p : Purchase.t) :
  insert_purchase uid id' q total d = Some (p, d') -> stocked id d -> stocked id d'.
Proof. intros H%sweets_insert_purchase Hd s. rewrite H. apply Hd. Qed.

Lemma purchase_keeps_stock (id user : string) (req : Request) (w : World) :
  stocked id (db w) ->
  stocked id (db (run (purchase user req) w).2) /\
  exists calls, trace (run (purchase user req) w).2 = trace w ++ calls /\
                writes_nonneg id calls.
Proof.
  intros Hd. unfold purchase. destruct (json req) as [r|]; [|split; [done|no_calls]].
  destruct (validate r) as [[sweetId quantity]|] eqn:Hval; [|split; [done|no_calls]].
  apply validate_Some in Hval as (written & _ & _ & _ & _ & Hpos).
  cbn [run exec].
  destruct (if refused w then None else sweets (db w) !! sweetId) as [sweet|] eqn:Hsweet;
    [|split; [done|these_calls]].
  assert (sweets (db w) !! sweetId = Some sweet) as Hs by (by destruct (refused w)).
  destruct (Number.ltb (Number.of_Z _) quantity) eqn:Hlt; [split; [done|these_calls]|].
  pose proof (sub_nonneg _ _ Hpos Hlt) as Hsub.
  cbn [run exec].
  case_answer; cbn [negb run exec]; [split; [done|these_calls; done]| |split; [done|these_calls; done]].
  match goal with H : write_quantity _ _ _ = Some _ |- _ =>
    pose proof (stocked_write_quantity id _ _ _ _ H Hd) as Hd1 end.
  case_answer.
  - cbn [run exec]. case_answer; cbn [run fst snd db logged].
    + split; [done|these_calls; [done|]]. apply stock_nonneg. by apply Hd.
    + split; [by eapply stocked_write_quantity|these_calls; [done|]].
      apply stock_nonneg. by apply Hd.
    + split; [done|these_calls; [done|]]. apply stock_nonneg. by apply Hd.
  - destruct p as [p d'']. cbn [run fst snd db logged].
    split; [by eapply stocked_insert_purchase|these_calls; done].
  - cbn [run exec]. case_answer; cbn [run fst snd db logged].
    + split; [done|these_calls; [done|]]. apply stock_nonneg. by apply Hd.
    + split; [by eapply stocked_write_quantity|these_calls; [done|]].
      apply stock_nonneg. by apply Hd.
    + split; [done|these_calls; [done|]]. apply stock_nonneg. by apply Hd.
Qed.

Lemma restock_keeps_stock (id user : string) (req : Request) (w : World) :
  stocked id (db w) ->
  stocked id (db (run (restock user req) w).2) /\
  exists calls, trace (run (restock user req) w).2 = trace w ++ calls /\
                writes_nonneg id calls.
Proof.
  intros Hd. unfold restock. cbn [run exec].
  destruct (negb _); [split; [done|these_calls]|].
  destruct (json req) as [r|]; [|split; [done|these_calls]].
  destruct (validate r) as [[sweetId quantity]|] eqn:Hval; [|split; [done|these_calls]].
  apply validate_Some in Hval as (written & _ & _ & _ & _ & Hpos).
  cbn [run exec].
  destruct (if refused _ then None else _) as [n|] eqn:Hn; [|split; [done|these_calls]].
  assert (exists sweet, sweets (db w) !! sweetId = Some sweet /\ Sweet.quantity sweet = n)
    as (sweet & Hs & <-).
  { destruct (refused _); [discriminate|]. cbn [db logged] in Hn.
    destruct (sweets (db w) !! sweetId) as [sweet|]; [|discriminate].
    injection Hn as <-. by exists sweet. }
  cbn [run exec].
  assert (id = sweetId ->
          Number.leb Number.zero
            (Number.add (Number.of_Z (Int4.z (Sweet.quantity sweet))) quantity) = true) as Hv.
  { intros ->. apply add_nonneg; [by apply Hd|done]. }
  case_answer; cbn [run fst snd db logged].
  - split; [done|these_calls]. by apply Hv.
  - match goal with |- context [run (match ?x with _ => _ end)] => destruct x end;
      cbn [run fst snd db logged];
      (split; [by eapply stocked_write_quantity|these_calls; by apply Hv]).
  - split; [done|these_calls]. by apply Hv.
Qed.

(** C4. One purchase or one restock, whatever the request and whatever the
    store refuses, leaves a product whose quantity was non-negative with a
    non-negative quantity.  This does not rest on the check of the column
    alone: no write the handler asks for that product carries a negative
    value, since a purchase writes [quantity - q] only after the test
    [quantity < q] has failed (or writes back the quantity it read), and a
    restock writes [quantity + q] only for [q > 0]. *)
Theorem quantity_stays_nonneg (id user : string) (req : Request) (w : World) :
  stocked id (db w) ->
  (stocked id (db (run (purchase user req) w).2) /\
   exists calls, trace (run (purchase user req) w).2 = trace w ++ calls /\
                 writes_nonneg id calls) /\
  (stocked id (db (run (restock user req) w).2) /\
   exists calls, trace (run (restock user req) w).2 = trace w ++ calls /\
                 writes_nonneg id calls).
Proof.
  intros Hd. split; [by apply purchase_keeps_stock|by apply restock_keeps_stock].
Qed.

Lemma quantity_stays_nonneg_witness :
  stocked "p1" (db (run (purchase "ann" (Scenario.buy 5)) (Scenario.quiet Scenario.shop)).2) /\
  stocked "p1" (db (run (restock "root" (Scenario.refill 10)) (Scenario.quiet Scenario.shop)).2).
Proof.
  assert (stocked "p1" (db (Scenario.quiet Scenario.shop))) as Hd.
  { intros s. vm_compute. intros [= <-]. discriminate. }
  split.
  - exact (proj1 (proj1 (quantity_stays_nonneg "p1" "ann" (Scenario.buy 5) _ Hd))).
  - exact (proj1 (proj2 (quantity_stays_nonneg "p1" "root" (Scenario.refill 10) _ Hd))).
Defined.

(** ** The scenario: three units at 2.99 *)

(** C7. Buying 3 of a product priced 2.99 that holds 5 is answered 200 with
    [remainingStock] 2 and a purchase whose [total_price] is 8.97, the 897
    cents of the [numeric(10,2)] column, which is the row recorded; the
    product then holds 2.  The handler multiplies binary64 numbers: its
    product of 2.99 and 3 is the binary64 nearest to 8.97, it is handed to the
    column as the text 8.97, and the column holds the decimal.  So it is for
    every price and every positive count whose total the column can hold:
    what is recorded is the price times the count, to the cent. *)
Theorem scenario_purchase :
  let after := run (purchase "ann" (Scenario.buy 3)) (Scenario.quiet Scenario.shop) in
  let total := Number.mul (Number.of_cents 299) (Number.of_Z 3) in
  after.1 = mkResponse 200
              (PurchaseSuccessful (Purchase.mk "ann" "p1" 3 897) (Number.Finite 2)) /\
  purchases (db after.2) = [Purchase.mk "ann" "p1" 3 897] /\
  stock "p1" (db after.2) = Some 2 /\
  omap submitted_total (trace after.2) = [total] /\
  total = Number.of_cents 897 /\
  Numeric.of_number total = Some 897 /\
  forall (price : Price.t) (quantity : Int4.t),
    0 < Int4.z quantity -> Price.cents price * Int4.z quantity < 10 ^ 10 ->
    Numeric.of_number
      (Number.mul (Number.of_cents (Price.cents price)) (Number.of_Z (Int4.z quantity)))
    = Some (Price.cents price * Int4.z quantity).
Proof.
  do 6 (split; [vm_compute; reflexivity|]).
  intros price quantity Hq Htotal.
  pose proof (Price_range price). pose proof (Int4_range quantity).
  rewrite total_exact by lia. by rewrite (proj2 (Z.ltb_lt _ _) Htotal).
Qed.

Lemma scenario_purchase_witness :
  Numeric.of_number (Number.mul (Number.of_cents 249) (Number.of_Z 3)) = Some 747.
Proof.
  destruct scenario_purchase as (_ & _ & _ & _ & _ & _ & Hexact).
  exact (Hexact (Price.mk 249 I) (Int4.mk 3 I) ltac:(cbn; lia) ltac:(cbn; lia)).
Defined.

(** ** Two purchases in flight *)

Lemma interleave_cons (i : nat) (schedule : list nat) (st : list (Prog Response) * World) :
  interleave (i :: schedule) st = interleave schedule (step i st).
Proof. reflexivity. Qed.

Lemma step_alone {X : Type} (c : Call X) (k : X -> Prog Response) (w : World) :
  step 0 ([Vis c k], w) = ([k (exec c w).1], (exec c w).2).
Proof. unfold step. cbn. by destruct (exec c w). Qed.

Lemma run_Vis {A X : Type} (c : Call X) (k : X -> Prog A) (w : World) :
  run (Vis c k) w = run (k (exec c w).1) (exec c w).2.
Proof. cbn. by destruct (exec c w). Qed.

(** A request stepped alone goes through [run]. *)
Lemma interleave_alone (p : Prog Response) (w : World) :
  exists n, interleave (replicate n 0%nat) ([p], w) = ([Ret (run p w).1], (run p w).2).
Proof.
  revert w. induction p as [r|X c k IH]; intros w.
  - by exists 0%nat.
  - destruct (IH (exec c w).1 (exec c w).2) as [n Hn]. exists (S n).
    cbn [replicate]. by rewrite interleave_cons, step_alone, run_Vis.
Qed.

(** One after the other, the second buyer is told the stock is gone. *)
Lemma purchases_in_turn :
  let st := interleave [0; 0; 0; 1; 1; 1]%nat (two_buyers, Scenario.quiet Scenario.shop) in
  map finished st.1
    = [Some (mkResponse 200
               (PurchaseSuccessful (Purchase.mk "ann" "p1" 5 1495) (Number.Finite 0)));
       Some (mkResponse 400 (InsufficientStock 0))] /\
  stock "p1" (db st.2) = Some 0 /\
  map Purchase.quantity (purchases (db st.2)) = [5].
Proof. repeat split; vm_compute; reflexivity. Qed.

(** C1 on the code. The product holds 5; two purchases of 5 each read the
    product before either writes.  The write names the row by its id only,
    so both are served: both callers are answered 200, two purchases of 5
    are recorded, and the row holds 0 (each wrote the 0 it had computed from
    the 5 it had read). *)
Theorem purchases_interleaved_both_succeed :
  let st := interleave [0; 1; 0; 1; 0; 1]%nat (two_buyers, Scenario.quiet Scenario.shop) in
  statuses st.1 = [Some 200%nat; Some 200%nat] /\
  stock "p1" (db st.2) = Some 0 /\
  map Purchase.quantity (purchases (db st.2)) = [5; 5] /\
  map Purchase.user_id (purchases (db st.2)) = ["ann"; "bob"] /\
  omap requested_write (trace st.2) = [("p1", Number.Finite 0); ("p1", Number.Finite 0)].
Proof. repeat split; vm_compute; reflexivity. Qed.

(** * Beyond single purchases and restocks *)

(** ** What any call, any request and any schedule keep *)

Lemma exec_db {X : Type} (c : Call X) (w : World) :
  db (exec c w).2 = db w \/
  (exists id v, write_quantity id v (db w) = Some (db (exec c w).2)) \/
  (exists uid id q total p,
     insert_purchase uid id q total (db w) = Some (p, db (exec c w).2)).
Proof.
  destruct c; cbn [exec]; try (by left).
  - destruct (refused w); [by left|].
    destruct (write_quantity id v (db w)) eqn:Hw; [|by left]. right; left. by exists id, v.
  - destruct (refused w); [by left|].
    destruct (write_quantity id v (db w)) eqn:Hw; [|by left]. right; left. by exists id, v.
  - destruct (refused w); [by left|].
    destruct (insert_purchase uid id q total (db w)) as [[p d]|] eqn:Hi; [|by left].
    right; right. by exists uid, id, q, total, p.
Qed.

Section Invariant.
Variable P : Db -> Prop.
Hypothesis P_write : forall id v d d', write_quantity id v d = Some d' -> P d -> P d'.
Hypothesis P_insert :
  forall uid id q total d p d', insert_purchase uid id q total d = Some (p, d') -> P d -> P d'.

Lemma exec_invariant {X : Type} (c : Call X) (w : World) : P (db w) -> P (db (exec c w).2).
Proof.
  intros HP. destruct (exec_db c w) as [->|[(id & v & Hw)|(uid & id & q & total & p & Hi)]];
    eauto.
Qed.

Lemma run_invariant {A : Type} (p : Prog A) (w : World) : P (db w) -> P (db (run p w).2).
Proof.
  revert w. induction p as [a|X c k IH]; intros w HP; [done|].
  rewrite run_Vis. by apply IH, exec_invariant.
Qed.

Lemma step_invariant (i : nat) (st : list (Prog Response) * World) :
  P (db st.2) -> P (db (step i st).2).
Proof.
  intros HP. unfold step. destruct (st.1 !! i) as [[r|X c k]|]; [done| |done].
  pose proof (exec_invariant c st.2 HP). by destruct (exec c st.2).
Qed.

Lemma interleave_invariant (schedule : list nat) (st : list (Prog Response) * World) :
  P (db st.2) -> P (db (interleave schedule st).2).
Proof.
  revert st. induction schedule as [|i schedule IH]; intros st HP; [done|].
  rewrite interleave_cons. by apply IH, step_invariant.
Qed.
End Invariant.

Lemma same_product_refl (s : Sweet.t) : same_product s s.
Proof. by repeat split. Qed.

Lemma same_product_trans (s1 s2 s3 : Sweet.t) :
  same_product s1 s2 -> same_product s2 s3 -> same_product s1 s3.
Proof. intros (?&?&?) (?&?&?). repeat split; congruence. Qed.

Lemma kept_refl (d : Db) : kept d d.
Proof.
  repeat split; [|done]. intros id.
  destruct (sweets d !! id); constructor. apply same_product_refl.
Qed.

Lemma kept_trans (d1 d2 d3 : Db) : kept d1 d2 -> kept d2 d3 -> kept d1 d3.
Proof.
  intros (Hs1 & Hp1 & Hw1 & Hl1) (Hs2 & Hp2 & Hw2 & Hl2).
  repeat split; [congruence..| |by etrans].
  intros id. specialize (Hw1 id). specialize (Hw2 id).
  destruct Hw1 as [s1 s2 H12|]; inversion Hw2; subst; constructor.
  by eapply same_product_trans.
Qed.

Lemma write_quantity_kept (id : string) (v : Number.t) (d d' : Db) :
  write_quantity id v d = Some d' -> kept d d'.
Proof.
  unfold write_quantity. destruct (Int4.of_number v) as [z|]; [|discriminate].
  destruct (sweets d !! id) as [s|] eqn:Hs; [|intros [= <-]; apply kept_refl].
  destruct (0 <=? Int4.z z); [|discriminate]. intros [= <-].
  repeat split; [|done]. intros id'. cbn [sweets set_sweets]. rewrite lookup_insert.
  case_decide as Hid.
  - subst id'. rewrite Hs. constructor. by repeat split.
  - destruct (sweets d !! id'); constructor. apply same_product_refl.
Qed.

Lemma insert_purchase_kept (uid id : string) (q total : Number.t)
    (d d' : Db) (p : Purchase.t) :
  insert_purchase uid id q total d = Some (p, d') -> kept d d'.
Proof.
  intros (z & c & _ & _ & _ & _ & _ & _ & ->)%insert_purchase_Some.
  repeat split; [|by apply prefix_app_r].
  intros id'. cbn [sweets add_purchase]. destruct (sweets d !! id'); constructor.
  apply same_product_refl.
Qed.

Lemma kept_is_Some (d d' : Db) (id : string) :
  kept d d' -> is_Some (sweets d !! id) -> is_Some (sweets d' !! id).
Proof.
  intros (_ & _ & Hw & _) [s Hs]. specialize (Hw id). rewrite Hs in Hw.
  inversion Hw. by eexists.
Qed.

Lemma ledger_sound_kept (d d' : Db) :
  kept d d' -> purchases d' = purchases d -> ledger_sound d -> ledger_sound d'.
Proof.
  intros Hk Hp Hl. unfold ledger_sound in *. rewrite Hp.
  eapply Forall_impl; [exact Hl|]. intros p (?&?&?). repeat split; auto.
  by eapply kept_is_Some.
Qed.

Lemma write_quantity_purchases (id : string) (v : Number.t) (d d' : Db) :
  write_quantity id v d = Some d' -> purchases d' = purchases d.
Proof.
  unfold write_quantity. destruct (Int4.of_number v); [|discriminate].
  destruct (sweets d !! id); [|by intros [= <-]].
  destruct (0 <=? _); [|discriminate]. by intros [= <-].
Qed.

Lemma ledger_sound_write (id : string) (v : Number.t) (d d' : Db) :
  write_quantity id v d = Some d' -> ledger_sound d -> ledger_sound d'.
Proof.
  intros Hw. eapply ledger_sound_kept;
    [by eapply write_quantity_kept|by eapply write_quantity_purchases].
Qed.

Lemma ledger_sound_insert (uid id : string) (q total : Number.t)
    (d : Db) (p : Purchase.t) (d' : Db) :
  insert_purchase uid id q total d = Some (p, d') -> ledger_sound d -> ledger_sound d'.
Proof.
  intros (z & c & _ & Hz & _ & Hc & Hid & -> & ->)%insert_purchase_Some Hl.
  unfold ledger_sound. cbn [purchases sweets add_purchase]. apply Forall_app. split; [done|].
  apply Forall_singleton. by repeat split.
Qed.

(** X1. In any interleaving of any requests, a product whose quantity was
    non-negative never holds a negative quantity. *)
Theorem interleave_stock_nonneg
    (id : string) (schedule : list nat) (pool : list (Prog Response)) (w : World) :
  stocked id (db w) -> stocked id (db (interleave schedule (pool, w)).2).
Proof.
  refine (interleave_invariant (stocked id) _ _ schedule (pool, w)).
  - intros id' v d d'. apply stocked_write_quantity.
  - intros uid id' q total d p d'. apply stocked_insert_purchase.
Qed.

Lemma interleave_stock_nonneg_witness :
  stocked "p1" (db (interleave [0; 1; 0; 1; 0; 1]%nat (two_buyers, Scenario.quiet Scenario.shop)).2).
Proof.
  apply interleave_stock_nonneg.
  intros s. vm_compute. intros [= <-]. discriminate.
Defined.

(** X2. In any interleaving of any requests the function only ever changes
    quantities and adds purchases: the sessions and the profiles are the
    same, no product appears or disappears, every product keeps its name,
    category and price, and the purchases recorded before are still there,
    in order, at the head of the list. *)
Theorem interleave_kept (schedule : list nat) (pool : list (Prog Response)) (w : World) :
  kept (db w) (db (interleave schedule (pool, w)).2).
Proof.
  refine (interleave_invariant (kept (db w)) _ _ schedule (pool, w) (kept_refl _)).
  - intros id v d d' Hw Hk. eapply kept_trans; [exact Hk|by eapply write_quantity_kept].
  - intros uid id q total d p d' Hi Hk.
    eapply kept_trans; [exact Hk|by eapply insert_purchase_kept].
Qed.

(** X3. In any interleaving of any requests the ledger stays sound: every
    purchase on record is of a positive whole count, has a non-negative
    total and names a product that is in the table. *)
Theorem interleave_ledger_sound
    (schedule : list nat) (pool : list (Prog Response)) (w : World) :
  ledger_sound (db w) -> ledger_sound (db (interleave schedule (pool, w)).2).
Proof.
  refine (interleave_invariant ledger_sound _ _ schedule (pool, w)).
  - intros id v d d'. apply ledger_sound_write.
  - intros uid id q total d p d'. apply ledger_sound_insert.
Qed.

Lemma interleave_ledger_sound_witness :
  ledger_sound (db (interleave [0; 1; 0; 1; 0; 1]%nat (two_buyers, Scenario.quiet Scenario.shop)).2).
Proof. apply interleave_ledger_sound. by constructor. Defined.

(** ** What one purchase, one restock, one request do to the tables *)

(** X4. A request other than OPTIONS that carries no Authorization header, an
    empty one, or a token that the auth service does not resolve (or cannot
    be asked about) is answered 401; the tables are untouched and no call
    is made beyond the lookup of the token. *)
Theorem serve_requires_session (req : Request) (w : World) :
  method req ≠ "OPTIONS" ->
  match authorization req with
  | None => True
  | Some authHeader =>
      authHeader = "" \/ refused w = true
      \/ sessions (db w) !! remove_first "Bearer " authHeader = None
  end ->
  status (run (serve req) w).1 = 401%nat /\
  db (run (serve req) w).2 = db w /\
  (trace (run (serve req) w).2 = trace w \/
   exists token, trace (run (serve req) w).2 = trace w ++ [Log (GetUser token)]).
Proof.
  intros Hmethod Hauth.
  destruct (serve_cases req w) as [[_ ?]|[->|(authHeader & Hh & Hne & _ & Hcases)]];
    [done|by repeat split; [..|left]|].
  rewrite Hh in Hauth.
  destruct Hcases as [[_ ->]|(user & Hr0 & Huser & _)].
  - repeat split. right. by eexists.
  - destruct Hauth as [?|[?|?]]; congruence.
Qed.

Lemma serve_requires_session_witness :
  status (run (serve (mkRequest "POST" (Some "Bearer forged") "/purchase"
                        (Some (PurchaseRequest.mk (Some "p1") (Some 1%Q)))))
              (Scenario.quiet Scenario.shop)).1 = 401%nat.
Proof.
  refine (proj1 (serve_requires_session _ (Scenario.quiet Scenario.shop) _ _)).
  - discriminate.
  - right; right. reflexivity.
Defined.

(** X5. The tables change only when the answer is 200 or is 500 "Failed to
    record purchase": every other answer (400, 401, 403, 404, the other
    500s) leaves them exactly as they were. *)
Theorem serve_changes_only_on (req : Request) (w : World) :
  db (run (serve req) w).2 = db w
  \/ status (run (serve req) w).1 = 200%nat
  \/ (run (serve req) w).1 = mkResponse 500 (Error "Failed to record purchase").
Proof.
  destruct (serve_cases req w) as [[-> _]|[->|(authHeader & _ & _ & _ & Hcases)]];
    [by left..|].
  destruct Hcases as [[_ ->]|(user & _ & _ & [[_ ->]|[(_ & _ & ->)|(_ & _ & ->)]])];
    [by left| | |by left].
  - destruct (purchase_effect user req (logged (GetUser (remove_first "Bearer " authHeader))
                                          (db w) w))
      as [[-> _]|(sweetId & sweet & r & quantity & z' & _ & _ & _ & _ & _
                  & [(-> & _)|(q & _ & _ & _ & _ & -> & _)])];
      [by left|by right; right|by right; left].
  - destruct (restock_effect user req (logged (GetUser (remove_first "Bearer " authHeader))
                                         (db w) w))
      as [[-> _]|(sweetId & sweet & r & quantity & z' & _ & _ & _ & _ & _ & _ & _ & _ & -> & _)];
      [by left|by right; left].
Qed.

(** X6. A request raises the quantity of a product only if it is a restock
    (its path names /restock and not /purchase) sent with the token of an
    administrator. *)
Theorem serve_raise_needs_admin (req : Request) (w : World) (id : string) (s s' : Sweet.t) :
  sweets (db w) !! id = Some s ->
  sweets (db (run (serve req) w).2) !! id = Some s' ->
  Int4.z (Sweet.quantity s) < Int4.z (Sweet.quantity s') ->
  exists authHeader user,
    authorization req = Some authHeader /\
    sessions (db w) !! remove_first "Bearer " authHeader = Some user /\
    user_profiles (db w) !! user = Some true /\
    includes "/purchase" (pathname req) = false /\
    includes "/restock" (pathname req) = true.
Proof.
  intros Hs Hs' Hlt.
  assert (db (run (serve req) w).2 = db w -> False) as Hsame.
  { intros Hd. rewrite Hd, Hs in Hs'. injection Hs' as <-. lia. }
  destruct (serve_cases req w) as [[Hrun _]|[Hrun|(authHeader & Hh & _ & _ & Hcases)]];
    [by rewrite Hrun in Hsame..|].
  destruct Hcases as [[_ Hrun]|(user & _ & Huser & [[_ Hrun]|[(Hp & Hr & Hrun)|(_ & _ & Hrun)]])];
    [by rewrite Hrun in Hsame| | |by rewrite Hrun in Hsame].
  - exfalso. rewrite Hrun in Hs', Hsame.
    destruct (purchase_effect user req (logged (GetUser (remove_first "Bearer " authHeader))
                                          (db w) w))
      as [[Hd _]|(sweetId & sweet & r & quantity & z' & _ & _ & Hsweet & _ & Hz' & Hcase)];
      [done|].
    rewrite db_logged in Hsweet.
    assert (sweets (set_sweets (insert sweetId (Sweet.set_quantity z' sweet)) (db w)) !! id
            = Some s') as Hlook.
    { destruct Hcase as [(_ & Hd & _)|(q & _ & _ & _ & _ & _ & Hd & _)];
        by rewrite Hd in Hs'. }
    cbn [sweets set_sweets] in Hlook. rewrite lookup_insert in Hlook.
    case_decide; [|rewrite Hs in Hlook; injection Hlook as <-; lia].
    subst sweetId. injection Hlook as <-.
    rewrite Hs in Hsweet. injection Hsweet as <-. cbn in Hlt. lia.
  - rewrite Hrun in Hs', Hsame.
    destruct (restock_effect user req (logged (GetUser (remove_first "Bearer " authHeader))
                                         (db w) w))
      as [[Hd _]|(sweetId & sweet & r & quantity & z' & Hadmin & _)]; [done|].
    by exists authHeader, user.
Qed.

Lemma serve_raise_needs_admin_witness :
  exists authHeader user,
    authorization (mkRequest "POST" (Some "Bearer t-root") "/restock"
                     (Some (PurchaseRequest.mk (Some "p1") (Some (inject_Z 10)))))
      = Some authHeader /\
    sessions Scenario.shop !! remove_first "Bearer " authHeader = Some user /\
    user_profiles Scenario.shop !! user = Some true.
Proof.
  destruct (serve_raise_needs_admin
              (mkRequest "POST" (Some "Bearer t-root") "/restock"
                 (Some (PurchaseRequest.mk (Some "p1") (Some (inject_Z 10)))))
              (Scenario.quiet Scenario.shop) "p1" Scenario.p1
              (Sweet.set_quantity (Int4.mk 15 I) Scenario.p1))
    as (authHeader & user & H1 & H2 & H3 & _).
  - reflexivity.
  - vm_compute. reflexivity.
  - cbn. lia.
  - by exists authHeader, user.
Defined.

(** X7. The ledger and the answers agree: an answer 200 "Purchase successful"
    means that the row it carries, and no other, has been added at the end
    of [purchases], in the name of the user the token resolves to; and the
    ledger changes in no other case. *)
Theorem serve_ledger (req : Request) (w : World) :
  (forall p remainingStock,
     (run (serve req) w).1 = mkResponse 200 (PurchaseSuccessful p remainingStock) ->
     purchases (db (run (serve req) w).2) = purchases (db w) ++ [p] /\
     exists authHeader,
       authorization req = Some authHeader /\
       sessions (db w) !! remove_first "Bearer " authHeader = Some (Purchase.user_id p)) /\
  (purchases (db (run (serve req) w).2) ≠ purchases (db w) ->
   exists p remainingStock,
     (run (serve req) w).1 = mkResponse 200 (PurchaseSuccessful p remainingStock)).
Proof.
  destruct (serve_cases req w) as [[-> _]|[->|(authHeader & Hh & _ & _ & Hcases)]];
    [by split..|].
  destruct Hcases as [[_ ->]|(user & _ & Huser & [[_ ->]|[(_ & _ & ->)|(_ & _ & ->)]])];
    [by split| | |by split].
  - destruct (purchase_effect user req (logged (GetUser (remove_first "Bearer " authHeader))
                                          (db w) w))
      as [[Hd Hst]|(sweetId & sweet & r & quantity & z' & _ & _ & _ & _ & _
                    & [(Hr & Hd & _)|(q & _ & _ & _ & _ & Hr & Hd & _)])];
      rewrite Hd, ?db_logged.
    + split; [|done]. intros p rem Hr. by rewrite Hr in Hst.
    + split; [|done]. intros p rem Hr'. by rewrite Hr in Hr'.
    + split.
      * intros p rem Hr'. rewrite Hr in Hr'. injection Hr' as <- _.
        split; [done|]. by exists authHeader.
      * intros _. eauto.
  - destruct (restock_effect user req (logged (GetUser (remove_first "Bearer " authHeader))
                                         (db w) w))
      as [[Hd Hst]|(sweetId & sweet & r & quantity & z' & _ & _ & _ & _ & _ & _ & _ & _
                    & Hr & Hd)];
      rewrite Hd, ?db_logged.
    + split; [|done]. intros p rem Hr. by rewrite Hr in Hst.
    + split; [|done]. intros p rem Hr'. by rewrite Hr in Hr'.
Qed.

Lemma serve_ledger_witness :
  purchases (db (run (serve (Scenario.buy 3)) (Scenario.quiet Scenario.shop)).2)
  = [Purchase.mk "ann" "p1" 3 897].
Proof.
  refine (proj1 (proj1 (serve_ledger (Scenario.buy 3) (Scenario.quiet Scenario.shop))
                   (Purchase.mk "ann" "p1" 3 897) (Number.Finite 2) _)).
  vm_compute. reflexivity.
Defined.

(** X8. A purchase is answered 200 only if the body names a product of the
    table and asks for a quantity that reads as a positive whole count that
    the product holds, and the store has served the three calls.  The
    [remainingStock] of the answer is then the quantity that the row holds
    after the call, and the purchase recorded is of that count at the price
    of the product times the count. *)
Theorem purchase_sold_from_stock (user : string) (req : Request) (w : World) :
  status (run (purchase user req) w).1 = 200%nat ->
  exists (sweetId : string) (sweet : Sweet.t) (written : Q) (q : Z) (p : Purchase.t),
    json req = Some (PurchaseRequest.mk (Some sweetId) (Some written)) /\
    Number.round written = Number.Finite (inject_Z q) /\
    sweetId ≠ "" /\
    sweets (db w) !! sweetId = Some sweet /\ 0 < q <= Int4.z (Sweet.quantity sweet) /\
    served 3 w /\
    (run (purchase user req) w).1
      = mkResponse 200 (PurchaseSuccessful p
                          (Number.Finite (inject_Z (Int4.z (Sweet.quantity sweet) - q)))) /\
    Purchase.quantity p = q /\
    Purchase.total_price p = Price.cents (Sweet.price sweet) * q /\
    stock sweetId (db (run (purchase user req) w).2)
      = Some (Int4.z (Sweet.quantity sweet) - q).
Proof.
  intros Hstatus.
  destruct (purchase_effect user req w)
    as [[_ ?]|(sweetId & sweet & r & quantity & z' & Hjson & Hval & Hsweet & _ & _
               & [(Hr & _)|(q & Hq & Hqn & Hz' & _ & Hr & Hd & Hup)])];
    [done|by rewrite Hr in Hstatus|].
  apply validate_Some in Hval as (written & Hid & Hquantity & Hne & Hround & _).
  eexists sweetId, sweet, written, q, _.
  repeat split; [|congruence|done|done|lia|lia|done|exact Hr|done|done|].
  - rewrite Hjson. destruct r; cbn in *. by subst.
  - rewrite Hd. unfold stock. cbn [sweets add_purchase set_sweets].
    rewrite lookup_insert_eq. cbn. by rewrite Hz'.
Qed.

Lemma purchase_sold_from_stock_witness :
  exists (sweetId : string) (sweet : Sweet.t) (q : Z),
    sweets Scenario.shop !! sweetId = Some sweet /\ 0 < q <= Int4.z (Sweet.quantity sweet).
Proof.
  destruct (purchase_sold_from_stock "ann" (Scenario.buy 3) (Scenario.quiet Scenario.shop))
    as (sweetId & sweet & written & q & p & _ & _ & _ & Hsweet & Hq & _).
  - vm_compute. reflexivity.
  - by exists sweetId, sweet, q.
Defined.

Lemma units_sold_app (id : string) (l1 l2 : list Purchase.t) :
  units_sold id (l1 ++ l2) = units_sold id l1 + units_sold id l2.
Proof.
  induction l1 as [|p l1 IH]; cbn [units_sold foldr app]; [done|].
  fold (units_sold id (l1 ++ l2)). fold (units_sold id l1). lia.
Qed.

(** The units of a product over one purchase. *)
Lemma purchase_units (user : string) (req : Request) (w : World) (id : string) (s : Sweet.t) :
  sweets (db w) !! id = Some s ->
  exists s', sweets (db (run (purchase user req) w).2) !! id = Some s' /\
    (Int4.z (Sweet.quantity s') + units_sold id (purchases (db (run (purchase user req) w).2))
       = Int4.z (Sweet.quantity s) + units_sold id (purchases (db w))
     \/ (run (purchase user req) w).1 = mkResponse 500 (Error "Failed to record purchase") /\
        nth 3 (outages w) false = true /\
        Int4.z (Sweet.quantity s') < Int4.z (Sweet.quantity s) /\
        purchases (db (run (purchase user req) w).2) = purchases (db w)).
Proof.
  intros Hs.
  destruct (purchase_effect user req w)
    as [[Hd _]|(sweetId & sweet & r & quantity & z' & _ & Hval & Hsweet & Hsub & Hz'
                & [(Hr & Hd & _ & Ho)|(q & Hq & Hqn & Hzq & _ & Hr & Hd & _)])];
    rewrite Hd.
  - exists s. by split; [|left].
  - cbn [sweets purchases set_sweets]. rewrite lookup_insert. case_decide as Hid.
    + subst sweetId. rewrite Hs in Hsweet. injection Hsweet as <-.
      cbn [Sweet.quantity Sweet.set_quantity] in Hz'.
      destruct (Z.eq_dec (Int4.z z') (Int4.z (Sweet.quantity s))) as [Heq|].
      * eexists. split; [done|]. left. cbn [Sweet.quantity Sweet.set_quantity]. lia.
      * eexists. split; [done|]. right. repeat split; [done..|].
        cbn [Sweet.quantity Sweet.set_quantity]. lia.
    + exists s. by split; [|left].
  - cbn [sweets purchases set_sweets add_purchase]. rewrite lookup_insert, units_sold_app.
    cbn [units_sold foldr Purchase.sweet_id Purchase.quantity]. case_decide as Hid.
    + subst sweetId. rewrite Hs in Hsweet. injection Hsweet as <-.
      eexists. split; [done|]. left. rewrite bool_decide_eq_true_2 by done. cbn. lia.
    + exists s. split; [done|]. left. rewrite bool_decide_eq_false_2 by done. lia.
Qed.

(** X9. One purchase conserves the units of every product: what the row
    holds plus what the ledger has of it is the same before and after.  The
    one exception is the answer 500 "Failed to record purchase" when the
    undoing write was refused: then the row holds less and the ledger is as
    before. *)
Theorem purchase_conserves_units
    (user : string) (req : Request) (w : World) (id : string) (s : Sweet.t) :
  sweets (db w) !! id = Some s ->
  exists s', sweets (db (run (purchase user req) w).2) !! id = Some s' /\
    (Int4.z (Sweet.quantity s') + units_sold id (purchases (db (run (purchase user req) w).2))
       = Int4.z (Sweet.quantity s) + units_sold id (purchases (db w))
     \/ (run (purchase user req) w).1 = mkResponse 500 (Error "Failed to record purchase") /\
        nth 3 (outages w) false = true /\
        Int4.z (Sweet.quantity s') < Int4.z (Sweet.quantity s) /\
        purchases (db (run (purchase user req) w).2) = purchases (db w)).
Proof. apply purchase_units. Qed.

Lemma purchase_conserves_units_witness :
  let d' := db (run (purchase "ann" (Scenario.buy 3)) (Scenario.quiet Scenario.shop)).2 in
  exists s', sweets d' !! "p1" = Some s' /\
             Int4.z (Sweet.quantity s') + units_sold "p1" (purchases d') = 5.
Proof.
  destruct (purchase_conserves_units "ann" (Scenario.buy 3) (Scenario.quiet Scenario.shop)
              "p1" Scenario.p1 eq_refl) as (s' & Hs' & [Hsum|(_ & Hout & _)]).
  - exists s'. split; [exact Hs'|exact Hsum].
  - discriminate Hout.
Defined.

(** ** The failures of the store *)

(** X10. A purchase that passes the three checks but whose decrement is not
    accepted (the store refuses the call, or the table rejects the value
    that the handler computed) is answered 500 "Failed to update inventory";
    the tables are untouched and no insert is attempted. *)
Theorem purchase_update_failure
    (user sweetId : string) (quantity : Number.t) (sweet : Sweet.t)
    (req : Request) (r : PurchaseRequest.t) (w : World) :
  let sweet_quantity := Number.of_Z (Int4.z (Sweet.quantity sweet)) in
  json req = Some r -> validate r = Some (sweetId, quantity) ->
  served 1 w -> sweets (db w) !! sweetId = Some sweet ->
  Number.ltb sweet_quantity quantity = false ->
  nth 1 (outages w) false = true
    \/ write_quantity sweetId (Number.sub sweet_quantity quantity) (db w) = None ->
  (run (purchase user req) w).1 = mkResponse 500 (Error "Failed to update inventory") /\
  db (run (purchase user req) w).2 = db w /\
  trace (run (purchase user req) w).2
    = trace w ++ [Log (SelectSweet sweetId);
                  Log (UpdateQuantity sweetId (Number.sub sweet_quantity quantity))].
Proof.
  intros sweet_quantity Hjson Hval Hup%served_refused Hsweet Hge Hfail.
  unfold purchase. rewrite Hjson, Hval. cbn [run exec].
  rewrite Hup, Hsweet. fold sweet_quantity. rewrite Hge. cbn [run exec].
  rewrite refused_second. cbn [db logged].
  assert ((if nth 1 (outages w) false then None
           else write_quantity sweetId (Number.sub sweet_quantity quantity) (db w))
          = None) as ->.
  { destruct Hfail as [->| ->]; [done|by destruct (nth 1 _ _)]. }
  cbn. by rewrite <-app_assoc.
Qed.

Lemma purchase_update_failure_witness :
  (run (purchase "ann" (Scenario.buy 3))
       {| db := Scenario.shop; outages := [false; true]; trace := [] |}).1
    = mkResponse 500 (Error "Failed to update inventory") /\
  db (run (purchase "ann" (Scenario.buy 3))
          {| db := Scenario.shop; outages := [false; true]; trace := [] |}).2 = Scenario.shop.
Proof.
  pose proof (validate_of_Z "p1" 3 ltac:(discriminate) ltac:(lia)) as Hval.
  destruct (purchase_update_failure "ann" "p1" (Number.Finite (inject_Z 3)) Scenario.p1
              (Scenario.buy 3) _
              {| db := Scenario.shop; outages := [false; true]; trace := [] |}
              eq_refl Hval) as (Hr & Hd & _).
  - intros [|i] Hi; [discriminate|lia].
  - reflexivity.
  - vm_compute. reflexivity.
  - by left.
  - by split.
Defined.

(** X11. An administrator's restock that cannot go through is answered
    without touching the tables: 500 with the parser's message when the body
    is not JSON, 400 when the guard on the body fires (both after the
    profile lookup and before any other call), 404 when the product is not
    found, and 500 "Failed to restock" when the write of the sum that the
    handler computed is not accepted. *)
Theorem restock_rejects (user : string) (req : Request) (w : World) :
  user_profiles (db w) !! user = Some true -> served 1 w ->
  let w1 := logged (SelectProfile user) (db w) w in
  (json req = None -> run (restock user req) w = (mkResponse 500 Thrown, w1)) /\
  (forall r, json req = Some r ->
     (validate r = None ->
        run (restock user req) w
          = (mkResponse 400 (Error "Invalid sweetId or quantity"), w1)) /\
     (forall sweetId quantity, validate r = Some (sweetId, quantity) ->
        let w2 := logged (SelectQuantity sweetId) (db w) w1 in
        (nth 1 (outages w) false = true \/ sweets (db w) !! sweetId = None ->
           run (restock user req) w = (mkResponse 404 (Error "Sweet not found"), w2)) /\
        (forall sweet, nth 1 (outages w) false = false ->
           sweets (db w) !! sweetId = Some sweet ->
           let newQuantity :=
             Number.add (Number.of_Z (Int4.z (Sweet.quantity sweet))) quantity in
           nth 2 (outages w) false = true
             \/ write_quantity sweetId newQuantity (db w) = None ->
           run (restock user req) w
             = (mkResponse 500 (Error "Failed to restock"),
                logged (UpdateQuantityReturning sweetId newQuantity) (db w) w2)))).
Proof.
  intros Hadmin Hup%served_refused w1. subst w1. unfold restock. cbn [run exec].
  rewrite Hup, Hadmin. cbn [default from_option id negb].
  split; [by intros ->|]. intros r ->. split; [by intros ->|].
  intros sweetId quantity ->. cbn [run exec]. rewrite refused_second.
  cbn [db logged]. split.
  - intros [->| ->]; [done|by destruct (nth 1 _ _)].
  - intros sweet -> -> Hfail. cbn [fmap option_fmap option_map run exec].
    rewrite refused_third. cbn [db logged].
    assert ((if nth 2 (outages w) false then None
             else write_quantity sweetId
                    (Number.add (Number.of_Z (Int4.z (Sweet.quantity sweet))) quantity) (db w))
            = None) as ->.
    { destruct Hfail as [->| ->]; [done|by destruct (nth 2 _ _)]. }
    reflexivity.
Qed.

Lemma restock_rejects_witness :
  run (restock "root" (Scenario.refill 0)) (Scenario.quiet Scenario.shop)
  = (mkResponse 400 (Error "Invalid sweetId or quantity"),
     logged (SelectProfile "root") Scenario.shop (Scenario.quiet Scenario.shop)).
Proof.
  refine (proj1 (proj2 (restock_rejects "root" (Scenario.refill 0)
                          (Scenario.quiet Scenario.shop) eq_refl _) _ eq_refl) _).
  - apply served_quiet.
  - reflexivity.
Defined.

(** X12. The guard of a restock does not look at whether the count is whole:
    an administrator's restock of an existing product by a positive quantity
    that is not a whole number reaches the write, of the sum as the handler
    computes it.  If that sum is not a whole number of the [integer] range
    the column refuses it: the answer is 500 "Failed to restock", not 400,
    and the tables are untouched.  If the sum rounds to a whole number (as
    5 + 0.00000000000000001 does, to 5) it is written and the answer is
    200. *)
Theorem restock_fraction
    (user sweetId : string) (written : Q) (sweet : Sweet.t)
    (req : Request) (w : World) :
  user_profiles (db w) !! user = Some true ->
  json req = Some (PurchaseRequest.mk (Some sweetId) (Some written)) ->
  sweetId ≠ "" -> Number.ltb Number.zero (Number.round written) = true ->
  Int4.of_number (Number.round written) = None ->
  sweets (db w) !! sweetId = Some sweet -> 0 <= Int4.z (Sweet.quantity sweet) ->
  served 3 w ->
  let newQuantity :=
    Number.add (Number.of_Z (Int4.z (Sweet.quantity sweet))) (Number.round written) in
  omap requested_write (drop (length (trace w)) (trace (run (restock user req) w).2))
    = [(sweetId, newQuantity)] /\
  (Int4.of_number newQuantity = None ->
     (run (restock user req) w).1 = mkResponse 500 (Error "Failed to restock") /\
     db (run (restock user req) w).2 = db w) /\
  (forall z', Int4.of_number newQuantity = Some z' ->
     (run (restock user req) w).1
       = mkResponse 200 (RestockSuccessful (Sweet.set_quantity z' sweet) newQuantity) /\
     sweets (db (run (restock user req) w).2)
       = <[sweetId := Sweet.set_quantity z' sweet]> (sweets (db w))).
Proof.
  intros Hadmin Hjson Hid Hpos Hfrac Hsweet Hn Hup newQuantity.
  pose proof (served_refused _ _ Hup) as Hr0.
  pose proof (served_logged (SelectProfile user) (db w) _ _ Hup) as Hup1.
  pose proof (served_refused _ _ Hup1) as Hr1.
  pose proof (served_logged (SelectQuantity sweetId) (db w) _ _ Hup1) as Hup2.
  pose proof (served_refused _ _ Hup2) as Hr2.
  pose proof (validate_round sweetId written Hid Hpos) as Hval.
  unfold restock. cbn [run exec]. rewrite Hr0, Hadmin, Hjson, Hval.
  cbn [default from_option id negb run exec]. rewrite Hr1. cbn [db logged].
  rewrite Hsweet. cbn [fmap option_fmap option_map run exec]. fold newQuantity.
  rewrite Hr2. cbn [db logged]. unfold write_quantity.
  destruct (Int4.of_number newQuantity) as [z'|] eqn:Hz'.
  - destruct (accepted_increment _ _ _ Hpos Hz') as [Hge _].
    rewrite Hsweet. destruct (Z.leb_spec 0 (Int4.z z')); [|lia].
    cbn [sweets set_sweets]. rewrite lookup_insert_eq. cbn [run fst snd db trace logged sweets].
    rewrite <-!app_assoc, drop_app_length.
    split; [done|]. split; [done|]. by intros ? [= <-].
  - cbn [run fst snd db trace logged]. rewrite <-!app_assoc, drop_app_length.
    by repeat split.
Qed.

Lemma restock_fraction_witness :
  (run (restock "root" (Scenario.post "/restock" "p1" Scenario.two_and_a_half))
       (Scenario.quiet Scenario.shop)).1
    = mkResponse 500 (Error "Failed to restock") /\
  (run (restock "root" (Scenario.post "/restock" "p1" Scenario.a_speck))
       (Scenario.quiet Scenario.shop)).1
    = mkResponse 200 (RestockSuccessful Scenario.p1 (Number.Finite 5)).
Proof.
  split.
  - destruct (restock_fraction "root" "p1" Scenario.two_and_a_half Scenario.p1
                (Scenario.post "/restock" "p1" Scenario.two_and_a_half)
                (Scenario.quiet Scenario.shop)) as (_ & Hrefused & _);
      [reflexivity|reflexivity|discriminate|vm_compute; reflexivity|vm_compute; reflexivity|
       reflexivity|cbn; lia|apply served_quiet|].
    apply Hrefused. vm_compute. reflexivity.
  - destruct (restock_fraction "root" "p1" Scenario.a_speck Scenario.p1
                (Scenario.post "/restock" "p1" Scenario.a_speck)
                (Scenario.quiet Scenario.shop)) as (_ & _ & Haccepted);
      [reflexivity|reflexivity|discriminate|vm_compute; reflexivity|vm_compute; reflexivity|
       reflexivity|cbn; lia|apply served_quiet|].
    destruct (Haccepted (Sweet.quantity Scenario.p1)) as [Hanswer _];
      [vm_compute; reflexivity|].
    rewrite Hanswer. vm_compute. reflexivity.
Defined.

(** ** One request after another *)






(** X15. What a buyer is told remains is what the next buyer is offered: after
    an answer 200 with [remainingStock], a purchase of the same product that
    asks for more than that is answered 400 "Insufficient stock" with
    [available] equal to that [remainingStock]. *)
Theorem next_buyer_sees_remaining
    (user user' : string) (req req' : Request) (r' : PurchaseRequest.t)
    (p : Purchase.t) (remainingStock quantity' : Number.t) (w : World) :
  (run (purchase user req) w).1 = mkResponse 200 (PurchaseSuccessful p remainingStock) ->
  json req' = Some r' -> validate r' = Some (Purchase.sweet_id p, quantity') ->
  served 1 (run (purchase user req) w).2 ->
  Number.ltb remainingStock quantity' = true ->
  exists available,
    (run (purchase user' req') (run (purchase user req) w).2).1
      = mkResponse 400 (InsufficientStock available) /\
    Number.Finite (inject_Z available) = remainingStock /\
    db (run (purchase user' req') (run (purchase user req) w).2).2
      = db (run (purchase user req) w).2.
Proof.
  intros Hanswer Hjson' Hval' Hup%served_refused Hlt.
  destruct (purchase_effect user req w)
    as [[_ Hst]|(sweetId & sweet & r & quantity & z' & _ & _ & Hsweet & _ & _
                 & [(Hr & _)|(q & Hq & Hqn & Hz' & _ & Hr & Hd & _)])].
  - by rewrite Hanswer in Hst.
  - by rewrite Hr in Hanswer.
  - rewrite Hr in Hanswer. injection Hanswer as <- <-. cbn [Purchase.sweet_id] in Hval'.
    exists (Int4.z (Sweet.quantity sweet) - q). unfold purchase at 1 3. rewrite Hjson', Hval'.
    cbn [run exec]. rewrite Hup, Hd. cbn [sweets add_purchase set_sweets].
    rewrite lookup_insert_eq. cbn [Sweet.quantity Sweet.set_quantity].
    by rewrite stock_number, Hz', Hlt.
Qed.

Lemma next_buyer_sees_remaining_witness :
  exists available,
    (run (purchase "bob" (Scenario.buy 3))
         (run (purchase "ann" (Scenario.buy 3)) (Scenario.quiet Scenario.shop)).2).1
      = mkResponse 400 (InsufficientStock available) /\
    Number.Finite (inject_Z available) = Number.Finite 2.
Proof.
  destruct (next_buyer_sees_remaining "ann" "bob" (Scenario.buy 3) (Scenario.buy 3)
              (PurchaseRequest.mk (Some "p1") (Some (inject_Z 3)))
              (Purchase.mk "ann" "p1" 3 897)
              (Number.Finite 2) (Number.Finite (inject_Z 3)) (Scenario.quiet Scenario.shop))
    as (available & Hr & Ha & _).
  - vm_compute. reflexivity.
  - reflexivity.
  - exact (validate_of_Z "p1" 3 ltac:(discriminate) ltac:(lia)).
  - intros i _. vm_compute. destruct i as [|[|[|i]]]; discriminate.
  - vm_compute. reflexivity.
  - exists available. split; [exact Hr|exact Ha].
Defined.

(** ** Purchases served in turn *)

Lemma exec_outages {X : Type} (c : Call X) (w : World) :
  outages (exec c w).2 = tl (outages w).
Proof.
  destruct c; cbn [exec]; try reflexivity.
  - by destruct (if refused w then None else write_quantity id v (db w)).
  - by destruct (if refused w then None else write_quantity id v (db w)).
  - by destruct (if refused w then None else insert_purchase uid id q total (db w))
      as [[? ?]|].
Qed.

Lemma run_quiet {A : Type} (p : Prog A) (w : World) :
  outages w = [] -> outages (run p w).2 = [].
Proof.
  revert w. induction p as [a|X c k IH]; intros w Hw; [done|].
  rewrite run_Vis. apply IH. by rewrite exec_outages, Hw.
Qed.

Lemma run_all_cons (p : Prog Response) (pool : list (Prog Response)) (w : World) :
  (run_all (p :: pool) w).2 = (run_all pool (run p w).2).2.
Proof.
  cbn [run_all]. destruct (run p w) as [r w1]. cbn [snd].
  by destruct (run_all pool w1).
Qed.

(** X16. Purchases served one after the other by a store that refuses no
    call never oversell: for every product, what the row holds plus what the
    ledger has of it is the same after any number of purchases as before,
    so a product that held [n >= 0] has had at most [n] units sold. *)
Theorem purchases_in_turn_conserve_units
    (buyers : list (string * Request)) (w : World) (id : string) (s : Sweet.t) :
  outages w = [] ->
  sweets (db w) !! id = Some s -> 0 <= Int4.z (Sweet.quantity s) ->
  let after := db (run_all (map (fun b => purchase b.1 b.2) buyers) w).2 in
  exists s', sweets after !! id = Some s' /\
    Int4.z (Sweet.quantity s') + units_sold id (purchases after)
      = Int4.z (Sweet.quantity s) + units_sold id (purchases (db w)) /\
    units_sold id (purchases after) - units_sold id (purchases (db w))
      <= Int4.z (Sweet.quantity s).
Proof.
  intros Hquiet Hs Hn after. subst after.
  assert (exists s', sweets (db (run_all (map (fun b => purchase b.1 b.2) buyers) w).2) !! id
                     = Some s' /\
            Int4.z (Sweet.quantity s')
              + units_sold id (purchases
                                 (db (run_all (map (fun b => purchase b.1 b.2) buyers) w).2))
            = Int4.z (Sweet.quantity s) + units_sold id (purchases (db w)) /\
            0 <= Int4.z (Sweet.quantity s')) as (s' & Hs' & Hsum & Hn');
    [|exists s'; repeat split; [done|lia|lia]].
  revert w s Hquiet Hs Hn.
  induction buyers as [|[user req] buyers IH]; intros w s Hquiet Hs Hn; [by exists s|].
  cbn [map fst snd]. rewrite run_all_cons.
  destruct (purchase_units user req w id s Hs) as (s1 & Hs1 & [Hsum|(_ & Hout & _)]);
    [|by rewrite Hquiet in Hout].
  assert (stocked id (db w)) as Hd by (intros s0; rewrite Hs; by intros [= <-]).
  destruct (purchase_keeps_stock id user req w Hd) as [Hd1 _].
  destruct (IH (run (purchase user req) w).2 s1 (run_quiet _ _ Hquiet) Hs1 (Hd1 _ Hs1))
    as (s' & Hs' & Hsum' & Hn').
  exists s'. repeat split; [done|lia|done].
Qed.

Lemma purchases_in_turn_conserve_units_witness :
  let after := db (run_all [purchase "ann" (Scenario.buy 5); purchase "bob" (Scenario.buy 5)]
                           (Scenario.quiet Scenario.shop)).2 in
  exists s', sweets after !! "p1" = Some s' /\
             Int4.z (Sweet.quantity s') + units_sold "p1" (purchases after) = 5 /\
             units_sold "p1" (purchases after) <= 5.
Proof.
  destruct (purchases_in_turn_conserve_units
              [("ann", Scenario.buy 5); ("bob", Scenario.buy 5)]
              (Scenario.quiet Scenario.shop) "p1" Scenario.p1 eq_refl eq_refl)
    as (s' & Hs' & Hsum & Hsold); [cbn; lia|].
  exists s'. split; [exact Hs'|]. split; [exact Hsum|exact Hsold].
Defined.

(** ** Schedules *)

Lemma interleave_app (s1 s2 : list nat) (st : list (Prog Response) * World) :
  interleave (s1 ++ s2) st = interleave s2 (interleave s1 st).
Proof. unfold interleave. apply foldl_app. Qed.

Lemma step_middle {X : Type} (c : Call X) (k : X -> Prog Response)
    (before after : list (Prog Response)) (w : World) :
  step (length before) (before ++ Vis c k :: after, w)
  = (before ++ k (exec c w).1 :: after, (exec c w).2).
Proof.
  unfold step. cbn [fst snd]. rewrite list_lookup_middle by done.
  destruct (exec c w) as [x w']. cbn [fst snd]. f_equal.
  rewrite <-(Nat.add_0_r (length before)). by rewrite insert_app_r.
Qed.

(** ** The header and the path *)

Lemma append_cons (a : Ascii.ascii) (s t : string) : String a s +:+ t = String a (s +:+ t).
Proof. reflexivity. Qed.

Lemma prefix_empty (s : string) : String.prefix "" s = true.
Proof. by destruct s. Qed.

Lemma prefix_app_iff (p s : string) :
  String.prefix p s = true <-> exists b, s = p +:+ b.
Proof.
  revert s. induction p as [|a p IH]; intros s.
  - rewrite prefix_empty. split; [by exists s|done].
  - destruct s as [|c s]; cbn [String.prefix].
    + split; [done|]. by intros [b ?].
    + destruct (Ascii.ascii_dec a c) as [->|Hne].
      * rewrite IH. split; intros [b Hb]; exists b.
        -- by rewrite append_cons, <-Hb.
        -- rewrite append_cons in Hb. by injection Hb.
      * split; [done|]. intros [b Hb]. rewrite append_cons in Hb. by injection Hb.
Qed.

Lemma index_cons (sub : string) (a : Ascii.ascii) (s : string) :
  String.index 0 sub (String a s)
  = if String.prefix sub (String a s) then Some 0%nat
    else match String.index 0 sub s with Some n => Some (S n) | None => None end.
Proof. reflexivity. Qed.

Lemma includes_cons (sub : string) (a : Ascii.ascii) (s : string) :
  includes sub (String a s) = String.prefix sub (String a s) || includes sub s.
Proof.
  unfold includes. rewrite index_cons.
  destruct (String.prefix sub (String a s)); [done|]. by destruct (String.index 0 sub s).
Qed.

Lemma includes_empty (sub : string) : includes sub "" = String.prefix sub "".
Proof. by destruct sub. Qed.

(** [includes] is the test for a substring: [includes sub s] holds exactly
    when [s] is some [a], then [sub], then some [b]. *)
Lemma includes_spec (sub s : string) :
  includes sub s = true <-> exists a b, s = a +:+ sub +:+ b.
Proof.
  induction s as [|c s IH].
  - rewrite includes_empty, prefix_app_iff. split.
    + intros [b Hb]. by exists "", b.
    + intros (a & b & Hab). destruct a; [by exists b|discriminate].
  - rewrite includes_cons, orb_true_iff, prefix_app_iff, IH. split.
    + intros [[b Hb]|(a & b & Hab)]; [by exists "", b|].
      exists (String c a), b. by rewrite append_cons, <-Hab.
    + intros (a & b & Hab). destruct a as [|c' a].
      * left. by exists b.
      * right. rewrite append_cons in Hab. injection Hab as _ ->. by exists a, b.
Qed.

Lemma remove_first_eq (pat s : string) :
  remove_first pat s
  = if String.prefix pat s then String.substring (String.length pat) (String.length s) s
    else match s with
         | EmptyString => EmptyString
         | String a s' => String a (remove_first pat s')
         end.
Proof. by destruct s. Qed.

Lemma substring_all (s : string) (m : nat) :
  (String.length s <= m)%nat -> String.substring 0 m s = s.
Proof.
  revert m. induction s as [|a s IH]; intros m Hm; [by destruct m|].
  destruct m as [|m]; cbn in Hm; [lia|]. cbn. f_equal. apply IH. lia.
Qed.

Lemma substring_skip (p s : string) (m : nat) :
  (String.length s <= m)%nat -> String.substring (String.length p) m (p +:+ s) = s.
Proof.
  intros Hm. induction p as [|a p IH]; [by apply substring_all|].
  rewrite append_cons. exact IH.
Qed.

Lemma length_append (p s : string) :
  String.length (p +:+ s) = (String.length p + String.length s)%nat.
Proof. induction p as [|a p IH]; [done|]. rewrite append_cons. cbn. by rewrite IH. Qed.

Lemma remove_first_prefix (pat s : string) : remove_first pat (pat +:+ s) = s.
Proof.
  rewrite remove_first_eq. rewrite (proj2 (prefix_app_iff pat (pat +:+ s))) by (by exists s).
  apply substring_skip. rewrite length_append. lia.
Qed.

Lemma remove_first_absent (pat s : string) : includes pat s = false -> remove_first pat s = s.
Proof.
  induction s as [|a s IH]; rewrite remove_first_eq.
  - rewrite includes_empty. by intros ->.
  - rewrite includes_cons. intros [-> Hs]%orb_false_iff. by rewrite IH.
Qed.

(** X17. The "Bearer " prefix of the Authorization header is optional: the
    token is the header with the first "Bearer " taken out, so a header
    that is the bare token is served exactly as "Bearer " followed by the
    token (for a non-empty token that does not itself contain "Bearer "). *)
Theorem serve_bearer_optional (token : string) (req : Request) (w : World) :
  token ≠ "" -> includes "Bearer " token = false ->
  run (serve (with_authorization token req)) w
  = run (serve (with_authorization ("Bearer " +:+ token) req)) w.
Proof.
  intros Hne Habsent. unfold serve. cbn [method authorization pathname with_authorization].
  case_bool_decide; [done|].
  rewrite (bool_decide_eq_false_2 (token = "")) by done.
  rewrite (bool_decide_eq_false_2 ("Bearer " +:+ token = "")) by done.
  by rewrite remove_first_prefix, (remove_first_absent _ _ Habsent).
Qed.

Lemma serve_bearer_optional_witness :
  (run (serve (with_authorization "t-ann" (Scenario.buy 3))) (Scenario.quiet Scenario.shop)).1
  = (run (serve (Scenario.buy 3)) (Scenario.quiet Scenario.shop)).1.
Proof.
  rewrite (serve_bearer_optional "t-ann" (Scenario.buy 3) (Scenario.quiet Scenario.shop)).
  - reflexivity.
  - discriminate.
  - reflexivity.
Defined.

(** X18. Routing is by substring of the path, not by its last segment: an
    authenticated request whose path contains "/purchase" anywhere is a
    purchase, even if it also contains "/restock"; otherwise one whose path
    contains "/restock" is a restock; any other path is answered 404
    "Invalid endpoint" with the tables untouched. *)
Theorem serve_routes (req : Request) (authHeader user : string) (w : World) :
  method req ≠ "OPTIONS" ->
  authorization req = Some authHeader -> authHeader ≠ "" ->
  served 1 w ->
  sessions (db w) !! remove_first "Bearer " authHeader = Some user ->
  let w' := logged (GetUser (remove_first "Bearer " authHeader)) (db w) w in
  let contains sub := exists a b, pathname req = a +:+ sub +:+ b in
  (contains "/purchase" -> run (serve req) w = run (purchase user req) w') /\
  (¬ contains "/purchase" -> contains "/restock" ->
     run (serve req) w = run (restock user req) w') /\
  (¬ contains "/purchase" -> ¬ contains "/restock" ->
     run (serve req) w = (mkResponse 404 (Error "Invalid endpoint"), w')).
Proof.
  intros Hmethod Hauth Hne Hup%served_refused Huser w' contains. unfold serve.
  rewrite (bool_decide_eq_false_2 _ Hmethod), Hauth, (bool_decide_eq_false_2 _ Hne).
  cbn [run exec]. rewrite Hup, Huser. fold w'.
  split; [|split].
  - intros Hp%includes_spec. by rewrite Hp.
  - intros Hp Hr%includes_spec. rewrite Hr.
    destruct (includes "/purchase" (pathname req)) eqn:Hp'; [|done].
    by apply includes_spec in Hp'.
  - intros Hp Hr.
    destruct (includes "/purchase" (pathname req)) eqn:Hp'; [by apply includes_spec in Hp'|].
    destruct (includes "/restock" (pathname req)) eqn:Hr'; [by apply includes_spec in Hr'|].
    done.
Qed.

Lemma serve_routes_witness :
  run (serve (Scenario.post "/inventory/restock/purchase" "p1" (inject_Z 3)))
      (Scenario.quiet Scenario.shop)
  = run (purchase "ann" (Scenario.post "/inventory/restock/purchase" "p1" (inject_Z 3)))
        (logged (GetUser "t-ann") Scenario.shop (Scenario.quiet Scenario.shop)).
Proof.
  refine (proj1 (serve_routes (Scenario.post "/inventory/restock/purchase" "p1" (inject_Z 3))
                   "Bearer t-ann" "ann" (Scenario.quiet Scenario.shop) _ eq_refl _ _ eq_refl) _).
  - discriminate.
  - discriminate.
  - apply served_quiet.
  - by exists "/inventory/restock", "".
Defined.

(** ** Two requests for one product, interleaved *)

Lemma refused_nth (w : World) : refused w = nth 0 (outages w) false.
Proof. unfold refused. by destruct (outages w). Qed.

Lemma outages_logged {X : Type} (c : Call X) (d : Db) (w : World) :
  outages (logged c d w) = tl (outages w).
Proof. reflexivity. Qed.

Lemma nth_tl (i : nat) (l : list bool) : nth i (tl l) false = nth (S i) l false.
Proof. destruct l; [by destruct i|done]. Qed.

Lemma served_nth (n i : nat) (w : World) :
  served n w -> (i < n)%nat -> nth i (outages w) false = false.
Proof.
  intros Hup Hi. specialize (Hup i Hi). rewrite nth_lookup.
  by destruct (outages w !! i) as [[]|].
Qed.

Lemma step_first {X : Type} (c : Call X) (k : X -> Prog Response)
    (rest : list (Prog Response)) (w : World) :
  step 0 (Vis c k :: rest, w) = (k (exec c w).1 :: rest, (exec c w).2).
Proof. exact (step_middle c k [] rest w). Qed.

Lemma step_second {X : Type} (c : Call X) (k : X -> Prog Response)
    (p : Prog Response) (rest : list (Prog Response)) (w : World) :
  step 1 (p :: Vis c k :: rest, w) = (p :: k (exec c w).1 :: rest, (exec c w).2).
Proof. exact (step_middle c k [p] rest w). Qed.

Lemma ltb_whole_false (n z : Z) :
  z <= n -> Number.ltb (Number.Finite (inject_Z n)) (Number.Finite (inject_Z z)) = false.
Proof. intros H. rewrite ltb_whole. by apply Z.ltb_ge. Qed.

(** X19. Two purchases of one product whose calls to the store alternate
    (select, select, update, update, insert, insert), each asking for no
    more than the product holds, at totals that the column takes: both are
    answered 200 and both are recorded, each at the price times its count,
    but the row ends at the quantity read less the second count only.  The
    second update overwrites the first: [qA + qB] units are sold for a
    decrement of [qB]. *)
Theorem interleaved_purchases_lose_an_update
    (userA userB sweetId : string) (sweet : Sweet.t) (qA qB : Z)
    (reqA reqB : Request) (w : World) :
  let n := Int4.z (Sweet.quantity sweet) in
  let price := Price.cents (Sweet.price sweet) in
  json reqA = Some (PurchaseRequest.mk (Some sweetId) (Some (inject_Z qA))) ->
  json reqB = Some (PurchaseRequest.mk (Some sweetId) (Some (inject_Z qB))) ->
  sweetId ≠ "" ->
  sweets (db w) !! sweetId = Some sweet ->
  0 < qA <= n -> 0 < qB <= n ->
  price * qA < 10 ^ 10 -> price * qB < 10 ^ 10 ->
  served 6 w ->
  let pA := Purchase.mk userA sweetId qA (price * qA) in
  let pB := Purchase.mk userB sweetId qB (price * qB) in
  let st := interleave [0; 1; 0; 1; 0; 1]%nat
              ([purchase userA reqA; purchase userB reqB], w) in
  map finished st.1
    = [Some (mkResponse 200 (PurchaseSuccessful pA (Number.Finite (inject_Z (n - qA)))));
       Some (mkResponse 200 (PurchaseSuccessful pB (Number.Finite (inject_Z (n - qB)))))] /\
  stock sweetId (db st.2) = Some (n - qB) /\
  purchases (db st.2) = purchases (db w) ++ [pA; pB].
Proof.
  intros n price HjsonA HjsonB Hid Hsweet HqA HqB HtotalA HtotalB Hup pA pB st. subst st.
  unfold price in HtotalA, HtotalB.
  pose proof (served_nth 6 0 w Hup ltac:(lia)) as H0.
  pose proof (served_nth 6 1 w Hup ltac:(lia)) as H1.
  pose proof (served_nth 6 2 w Hup ltac:(lia)) as H2.
  pose proof (served_nth 6 3 w Hup ltac:(lia)) as H3.
  pose proof (served_nth 6 4 w Hup ltac:(lia)) as H4.
  pose proof (served_nth 6 5 w Hup ltac:(lia)) as H5.
  pose proof (Int4_range (Sweet.quantity sweet)) as Hn. fold n in Hn.
  destruct (Int4_of_Z_fits (n - qA)) as (zA & _ & HzA); [lia|].
  destruct (Int4_of_Z_fits (n - qB)) as (zB & _ & HzB); [lia|].
  unfold purchase. rewrite HjsonA, HjsonB.
  rewrite (validate_of_Z _ qA Hid), (validate_of_Z _ qB Hid) by lia.
  rewrite interleave_cons, step_first. cbn [exec fst snd].
  rewrite refused_nth, H0, Hsweet.
  rewrite interleave_cons, step_second. cbn [exec fst snd db logged].
  rewrite refused_nth, ?outages_logged, ?nth_tl, H1, Hsweet.
  rewrite stock_number. fold n.
  rewrite !ltb_whole_false, !sub_whole by lia.
  rewrite interleave_cons, step_first. cbn [exec fst snd db logged].
  rewrite refused_nth, ?outages_logged, ?nth_tl, H2.
  rewrite <-HzA, (write_quantity_whole _ zA _ _ Hsweet) by lia. cbn [fst snd negb].
  rewrite interleave_cons, step_second. cbn [exec fst snd db logged].
  rewrite refused_nth, ?outages_logged, ?nth_tl, H3.
  rewrite <-HzB, (write_quantity_whole _ zB _ (Sweet.set_quantity zA sweet))
    by (by cbn [sweets set_sweets]; rewrite ?lookup_insert_eq; try lia).
  cbn [fst snd negb].
  rewrite interleave_cons, step_first. cbn [exec fst snd db logged].
  rewrite refused_nth, ?outages_logged, ?nth_tl, H4.
  rewrite insert_purchase_whole;
    [|lia|cbn [sweets set_sweets]; rewrite ?lookup_insert_eq; by eexists].
  rewrite (proj2 (Z.ltb_lt _ _) HtotalA). cbn [fst snd].
  rewrite interleave_cons, step_second. cbn [exec fst snd db logged].
  rewrite refused_nth, ?outages_logged, ?nth_tl, H5.
  rewrite insert_purchase_whole;
    [|lia|cbn [sweets set_sweets add_purchase]; rewrite ?lookup_insert_eq; by eexists].
  rewrite (proj2 (Z.ltb_lt _ _) HtotalB).
  cbn [fst snd interleave foldl map finished db logged sweets purchases add_purchase set_sweets].
  unfold stock. cbn [sweets purchases add_purchase set_sweets].
  rewrite lookup_insert_eq, <-app_assoc. done.
Qed.

Lemma interleaved_purchases_lose_an_update_witness :
  let st := interleave [0; 1; 0; 1; 0; 1]%nat
              ([purchase "ann" (Scenario.buy 3); purchase "bob" (Scenario.buy 2)],
               Scenario.quiet Scenario.shop) in
  stock "p1" (db st.2) = Some 3 /\
  purchases (db st.2) = [Purchase.mk "ann" "p1" 3 897; Purchase.mk "bob" "p1" 2 598].
Proof.
  destruct (interleaved_purchases_lose_an_update "ann" "bob" "p1" Scenario.p1 3 2
              (Scenario.buy 3) (Scenario.buy 2) (Scenario.quiet Scenario.shop))
    as (_ & Hq & Hp); [..|split; [exact Hq|exact Hp]]; try reflexivity.
  - discriminate.
  - cbn; lia.
  - cbn; lia.
  - apply served_quiet.
Defined.

(** X20. The write that undoes a decrement can erase a restock.  A purchase
    reads the product; a restock by an administrator (of a count that the
    column can hold on top of the quantity) then goes through; the purchase
    decrements, its insert is refused, and it writes back the quantity it
    had read at the start.  The restock was answered 200 with its
    [newQuantity], the purchase 500, and the row holds what it held before
    either: the units restocked are gone. *)
Theorem compensation_erases_restock
    (user admin sweetId : string) (sweet : Sweet.t) (qP qR : Z)
    (reqP reqR : Request) (w : World) :
  let n := Int4.z (Sweet.quantity sweet) in
  json reqP = Some (PurchaseRequest.mk (Some sweetId) (Some (inject_Z qP))) ->
  json reqR = Some (PurchaseRequest.mk (Some sweetId) (Some (inject_Z qR))) ->
  sweetId ≠ "" ->
  user_profiles (db w) !! admin = Some true ->
  sweets (db w) !! sweetId = Some sweet ->
  0 < qP <= n -> 0 < qR -> n + qR <= 2147483647 ->
  served 5 w -> nth 5 (outages w) false = true -> nth 6 (outages w) false = false ->
  let st := interleave [0; 1; 1; 1; 0; 0; 0]%nat
              ([purchase user reqP; restock admin reqR], w) in
  exists restocked : Sweet.t,
    Int4.z (Sweet.quantity restocked) = n + qR /\ same_product sweet restocked /\
    map finished st.1
      = [Some (mkResponse 500 (Error "Failed to record purchase"));
         Some (mkResponse 200 (RestockSuccessful restocked
                                 (Number.Finite (inject_Z (n + qR)))))] /\
    stock sweetId (db st.2) = Some n /\
    purchases (db st.2) = purchases (db w).
Proof.
  intros n HjsonP HjsonR Hid Hadmin Hsweet HqP HqR Hfits Hup H5 H6 st. subst st.
  pose proof (served_nth 5 0 w Hup ltac:(lia)) as H0.
  pose proof (served_nth 5 1 w Hup ltac:(lia)) as H1.
  pose proof (served_nth 5 2 w Hup ltac:(lia)) as H2.
  pose proof (served_nth 5 3 w Hup ltac:(lia)) as H3.
  pose proof (served_nth 5 4 w Hup ltac:(lia)) as H4.
  pose proof (Int4_range (Sweet.quantity sweet)) as Hn. fold n in Hn.
  destruct (Int4_of_Z_fits (n - qP)) as (zP & _ & HzP); [lia|].
  destruct (Int4_of_Z_fits (n + qR)) as (zR & _ & HzR); [lia|].
  exists (Sweet.set_quantity zR sweet). split; [done|]. split; [done|].
  unfold purchase, restock. rewrite HjsonP, (validate_of_Z _ qP Hid) by lia.
  rewrite interleave_cons, step_first. cbn [exec fst snd].
  rewrite refused_nth, H0, Hsweet.
  rewrite stock_number. fold n. rewrite ltb_whole_false, sub_whole by lia.
  rewrite interleave_cons, step_second. cbn [exec fst snd db logged].
  rewrite refused_nth, ?outages_logged, ?nth_tl, H1, Hadmin, HjsonR,
    (validate_of_Z _ qR Hid) by lia.
  cbn [default from_option id negb].
  rewrite interleave_cons, step_second. cbn [exec fst snd db logged].
  rewrite refused_nth, ?outages_logged, ?nth_tl, H2, Hsweet.
  cbn [fmap option_fmap option_map].
  rewrite stock_number. fold n. rewrite add_whole by lia.
  rewrite interleave_cons, step_second. cbn [exec fst snd db logged].
  rewrite refused_nth, ?outages_logged, ?nth_tl, H3.
  rewrite <-HzR, (write_quantity_whole _ zR _ _ Hsweet) by lia.
  cbn [fst snd sweets set_sweets]. rewrite lookup_insert_eq.
  rewrite interleave_cons, step_first. cbn [exec fst snd db logged].
  rewrite refused_nth, ?outages_logged, ?nth_tl, H4.
  rewrite <-HzP, (write_quantity_whole _ zP _ (Sweet.set_quantity zR sweet))
    by (by cbn [sweets set_sweets]; rewrite ?lookup_insert_eq; try lia).
  cbn [fst snd negb].
  rewrite interleave_cons, step_first. cbn [exec fst snd db logged].
  rewrite refused_nth, ?outages_logged, ?nth_tl, H5. cbn [fst snd].
  rewrite interleave_cons, step_first. cbn [exec fst snd db logged].
  rewrite refused_nth, ?outages_logged, ?nth_tl, H6.
  rewrite (write_quantity_whole _ (Sweet.quantity sweet) _
             (Sweet.set_quantity zP (Sweet.set_quantity zR sweet)))
    by (by cbn [sweets set_sweets]; rewrite ?lookup_insert_eq; try lia).
  cbn [fst snd interleave foldl map finished db logged sweets purchases set_sweets].
  unfold stock. cbn [sweets purchases set_sweets].
  rewrite lookup_insert_eq. by rewrite HzR.
Qed.

Lemma compensation_erases_restock_witness :
  let st := interleave [0; 1; 1; 1; 0; 0; 0]%nat
              ([purchase "ann" (Scenario.buy 3); restock "root" (Scenario.refill 10)],
               {| db := Scenario.shop;
                  outages := [false; false; false; false; false; true];
                  trace := [] |}) in
  stock "p1" (db st.2) = Some 5.
Proof.
  destruct (compensation_erases_restock "ann" "root" "p1" Scenario.p1 3 10
              (Scenario.buy 3) (Scenario.refill 10)
              {| db := Scenario.shop;
                 outages := [false; false; false; false; false; true];
                 trace := [] |})
    as (restocked & _ & _ & _ & Hq & _); [..|exact Hq]; try reflexivity.
  - discriminate.
  - cbn; lia.
  - cbn; lia.
  - intros i Hi. destruct i as [|[|[|[|[|i]]]]]; [discriminate..|lia].
Defined.



(** ** The total of a purchase *)

(** X22. The total of a purchase is exact.  For every price of the
    [numeric(10,2)] column and every positive count of the [integer] column,
    the product that the handler computes in binary64, once handed to the
    [total_price] column, is stored as the price times the count to the
    cent, when that is below 10^8; the column refuses it otherwise. *)
Theorem total_price_exact (price : Price.t) (quantity : Int4.t) :
  0 < Int4.z quantity ->
  Numeric.of_number
    (Number.mul (Number.of_cents (Price.cents price)) (Number.of_Z (Int4.z quantity)))
  = if Price.cents price * Int4.z quantity <? 10 ^ 10
    then Some (Price.cents price * Int4.z quantity)
    else None.
Proof.
  intros Hq. pose proof (Price_range price). pose proof (Int4_range quantity).
  apply total_exact; lia.
Qed.

Lemma total_price_exact_witness :
  Numeric.of_number (Number.mul (Number.of_cents 249) (Number.of_Z 3)) = Some 747 /\
  Number.mul (Number.of_cents 249) (Number.of_Z 3) ≠ Number.of_cents 747.
Proof.
  split.
  - exact (total_price_exact (Price.mk 249 I) (Int4.mk 3 I) ltac:(cbn; lia)).
  - vm_compute. discriminate.
Defined.
